(** * Leads Validator: the batch store, dispatch and deduplication of [app.py]

    A shallow embedding of [src/app.py].  The Streamlit script [main] is a
    function from the widget values of one script run, the session state, the
    database and the enrichment endpoint to the new database and session
    state, the messages shown and the HTTP requests sent.  SQL statements are
    functions on in-memory tables; Python exceptions and [st.rerun] are the
    outcomes of a small state-and-exception monad. *)

From Stdlib Require Import ZArith List Bool Lia String Ascii.
From Stdlib Require Import Permutation Sorted.
Import ListNotations.
Open Scope Z_scope.
Set Warnings "-register-all".

(** ** Python text

    A Python [str] is a sequence of code points; [bytes] is a sequence of
    integers in 0..255. *)

Definition pystr := list Z.
Definition pybytes := list Z.

(** A literal of the source, written as an ASCII string. *)
Definition py (s : string) : pystr :=
  map (fun a => Z.of_N (N_of_ascii a)) (list_ascii_of_string s).

Fixpoint str_eqb (a b : pystr) : bool :=
  match a, b with
  | [], [] => true
  | x :: a', y :: b' => (x =? y) && str_eqb a' b'
  | _, _ => false
  end.

(** Code-point order on text, the order of [ORDER BY filename ASC] under the
    database's C collation. *)
Fixpoint str_leb (a b : pystr) : bool :=
  match a, b with
  | [], _ => true
  | _ :: _, [] => false
  | x :: a', y :: b' => (x <? y) || ((x =? y) && str_leb a' b')
  end.

(** Truth value of a [str] in a condition: the empty string is false. *)
Definition str_truthy (s : pystr) : bool :=
  match s with [] => false | _ :: _ => true end.

(** [x in xs] for a list of strings. *)
Definition str_in (x : pystr) (xs : list pystr) : bool :=
  existsb (str_eqb x) xs.

(** A code point that valid Unicode text may hold: in range and no
    surrogate. *)
Definition scalar_value (c : Z) : Prop :=
  (0 <= c < 55296) \/ (57344 <= c < 1114112).

(** ** UTF-8, as [bytes.decode("utf-8")] and [str.encode("utf-8")] *)

Module Utf8.

Definition is_cont (b : Z) : bool := (128 <=? b) && (b <=? 191).

(** Strict decoding: overlong forms, surrogates, values above U+10FFFF and
    truncated sequences raise [UnicodeDecodeError] (here [None]). *)
Fixpoint decode (bs : pybytes) : option pystr :=
  match bs with
  | [] => Some []
  | b0 :: r0 =>
    if (0 <=? b0) && (b0 <? 128) then
      option_map (cons b0) (decode r0)
    else if (194 <=? b0) && (b0 <=? 223) then
      match r0 with
      | b1 :: r1 =>
        if is_cont b1
        then option_map (cons ((b0 - 192) * 64 + (b1 - 128))) (decode r1)
        else None
      | _ => None
      end
    else if (224 <=? b0) && (b0 <=? 239) then
      match r0 with
      | b1 :: b2 :: r2 =>
        if ((if b0 =? 224 then 160 else 128) <=? b1)
           && (b1 <=? (if b0 =? 237 then 159 else 191))
           && is_cont b2
        then option_map
               (cons ((b0 - 224) * 4096 + (b1 - 128) * 64 + (b2 - 128)))
               (decode r2)
        else None
      | _ => None
      end
    else if (240 <=? b0) && (b0 <=? 244) then
      match r0 with
      | b1 :: b2 :: b3 :: r3 =>
        if ((if b0 =? 240 then 144 else 128) <=? b1)
           && (b1 <=? (if b0 =? 244 then 143 else 191))
           && is_cont b2 && is_cont b3
        then option_map
               (cons ((b0 - 240) * 262144 + (b1 - 128) * 4096
                      + (b2 - 128) * 64 + (b3 - 128)))
               (decode r3)
        else None
      | _ => None
      end
    else None
  end.

(** The bytes of one code point; a surrogate or an out-of-range value raises
    [UnicodeEncodeError] (here [None]). *)
Definition encode_char (c : Z) : option pybytes :=
  if (0 <=? c) && (c <? 128) then Some [c]
  else if (128 <=? c) && (c <? 2048) then
    Some [192 + c / 64; 128 + c mod 64]
  else if ((2048 <=? c) && (c <? 55296)) || ((57344 <=? c) && (c <? 65536)) then
    Some [224 + c / 4096; 128 + (c / 64) mod 64; 128 + c mod 64]
  else if (65536 <=? c) && (c <? 1114112) then
    Some [240 + c / 262144; 128 + (c / 4096) mod 64;
          128 + (c / 64) mod 64; 128 + c mod 64]
  else None.

Fixpoint encode (s : pystr) : option pybytes :=
  match s with
  | [] => Some []
  | c :: r =>
    match encode_char c, encode r with
    | Some bs, Some rest => Some (bs ++ rest)
    | _, _ => None
    end
  end.

End Utf8.

(** ** JSON, as the standard [json] module of CPython

    [json.dumps] is called on a one-entry dictionary of strings with the
    default options ([ensure_ascii=True], separators [", "] and [": "]);
    [json.loads] is the strict decoder.  Resource limits of the interpreter
    (recursion depth, the digit limit of [int]) are not modelled. *)

Module Json.

Inductive value : Type :=
| Null
| Bool (b : bool)
| Int (n : Z)
| Float (m e : Z)                 (* the literal m * 10^e *)
| NaN
| Infinity (negative : bool)
| Str (s : pystr)
| Arr (l : list value)
| Obj (l : list (pystr * value)). (* the pairs in source order *)

(** *** Encoding *)

Definition hex_digit (d : Z) : Z := if d <? 10 then 48 + d else 87 + d.

(** ['\\u{0:04x}'.format(n)] *)
Definition u_escape (n : Z) : pystr :=
  [92; 117; hex_digit (n / 4096); hex_digit ((n / 256) mod 16);
   hex_digit ((n / 16) mod 16); hex_digit (n mod 16)].

(** The replacement of one character by [py_encode_basestring_ascii]. *)
Definition escape_char (c : Z) : pystr :=
  if c =? 34 then [92; 34]
  else if c =? 92 then [92; 92]
  else if c =? 10 then [92; 110]
  else if c =? 13 then [92; 114]
  else if c =? 9 then [92; 116]
  else if c =? 8 then [92; 98]
  else if c =? 12 then [92; 102]
  else if (32 <=? c) && (c <=? 126) then [c]
  else if c <? 65536 then u_escape c
  else
    let n := c - 65536 in
    u_escape (Z.lor 55296 (Z.land (Z.shiftr n 10) 1023))
    ++ u_escape (Z.lor 56320 (Z.land n 1023)).

Definition encode_basestring_ascii (s : pystr) : pystr :=
  34 :: flat_map escape_char s ++ [34].

(** [json.dumps({key: val})] for strings [key] and [val]. *)
Definition dumps_dict1 (key val : pystr) : pystr :=
  123 :: encode_basestring_ascii key ++ py ": "
      ++ encode_basestring_ascii val ++ [125].

(** *** Decoding *)

Definition is_ws (c : Z) : bool :=
  (c =? 32) || (c =? 9) || (c =? 10) || (c =? 13).

Fixpoint skip_ws (s : pystr) : pystr :=
  match s with
  | c :: r => if is_ws c then skip_ws r else s
  | [] => []
  end.

Definition hex_value (c : Z) : option Z :=
  if (48 <=? c) && (c <=? 57) then Some (c - 48)
  else if (97 <=? c) && (c <=? 102) then Some (c - 87)
  else if (65 <=? c) && (c <=? 70) then Some (c - 55)
  else None.

Definition decode_uXXXX (h1 h2 h3 h4 : Z) : option Z :=
  match hex_value h1, hex_value h2, hex_value h3, hex_value h4 with
  | Some a, Some b, Some c, Some d => Some (((a * 16 + b) * 16 + c) * 16 + d)
  | _, _, _, _ => None
  end.

(** The [BACKSLASH] table of the decoder. *)
Definition backslash (e : Z) : option Z :=
  if e =? 34 then Some 34
  else if e =? 92 then Some 92
  else if e =? 47 then Some 47
  else if e =? 98 then Some 8
  else if e =? 102 then Some 12
  else if e =? 110 then Some 10
  else if e =? 114 then Some 13
  else if e =? 116 then Some 9
  else None.

(** [scanstring] in strict mode, from just after the opening quote: the
    decoded text and what follows the closing quote. *)
Fixpoint scanstring (s : pystr) : option (pystr * pystr) :=
  match s with
  | [] => None
  | c :: r =>
    if c =? 34 then Some ([], r)
    else if c =? 92 then
      match r with
      | [] => None
      | e :: r1 =>
        if e =? 117 then
          match r1 with
          | h1 :: h2 :: h3 :: h4 :: r2 =>
            match decode_uXXXX h1 h2 h3 h4 with
            | None => None
            | Some uni =>
              let single :=
                match scanstring r2 with
                | Some (t, rest) => Some (uni :: t, rest)
                | None => None
                end in
              if (55296 <=? uni) && (uni <=? 56319) then
                match r2 with
                | b :: u :: r3 =>
                  if (b =? 92) && (u =? 117) then
                    match r3 with
                    | g1 :: g2 :: g3 :: g4 :: r4 =>
                      match decode_uXXXX g1 g2 g3 g4 with
                      | None => None
                      | Some uni2 =>
                        if (56320 <=? uni2) && (uni2 <=? 57343) then
                          match scanstring r4 with
                          | Some (t, rest) =>
                            Some (65536 + Z.lor (Z.shiftl (uni - 55296) 10)
                                                (uni2 - 56320) :: t, rest)
                          | None => None
                          end
                        else single
                      end
                    | _ => None
                    end
                  else single
                | _ => single
                end
              else single
            end
          | _ => None
          end
        else
          match backslash e with
          | Some ch =>
            match scanstring r1 with
            | Some (t, rest) => Some (ch :: t, rest)
            | None => None
            end
          | None => None
          end
      end
    else if (0 <=? c) && (c <=? 31) then None
    else
      match scanstring r with
      | Some (t, rest) => Some (c :: t, rest)
      | None => None
      end
  end.

Definition is_digit (c : Z) : bool := (48 <=? c) && (c <=? 57).

(** The run of decimal digits at the head of [s], its value folded onto
    [acc], its length, and the rest. *)
Fixpoint take_digits (acc : Z) (n : Z) (s : pystr) : Z * Z * pystr :=
  match s with
  | c :: r => if is_digit c then take_digits (acc * 10 + (c - 48)) (n + 1) r
              else (acc, n, s)
  | [] => (acc, n, [])
  end.

(** [NUMBER_RE.match]: an optional sign, an integer part without leading
    zeros, an optional fraction and an optional exponent. *)
Definition match_number (s : pystr) : option (value * pystr) :=
  let '(neg, s1) :=
    match s with
    | c :: r => if c =? 45 then (true, r) else (false, s)
    | [] => (false, s)
    end in
  let int_part :=
    match s1 with
    | c :: r =>
      if c =? 48 then Some (0, r)
      else if is_digit c then
        let '(v, _, rest) := take_digits 0 0 s1 in Some (v, rest)
      else None
    | [] => None
    end in
  match int_part with
  | None => None
  | Some (iv, s2) =>
    let '(frac, s3) :=
      match s2 with
      | d :: ((c :: _) as r) =>
        if (d =? 46) && is_digit c then
          let '(v, n, rest) := take_digits iv 0 r in (Some (v, n), rest)
        else (None, s2)
      | _ => (None, s2)
      end in
    let exp_digits (sgn : Z) (r : pystr) :=
      match r with
      | c :: _ =>
        if is_digit c then
          let '(v, _, rest) := take_digits 0 0 r in Some (sgn * v, rest)
        else None
      | [] => None
      end in
    let '(exp, s4) :=
      match s3 with
      | e :: r =>
        if (e =? 101) || (e =? 69) then
          let signed :=
            match r with
            | sg :: r' =>
              if sg =? 45 then exp_digits (-1) r'
              else if sg =? 43 then exp_digits 1 r'
              else exp_digits 1 r
            | [] => None
            end in
          match signed with
          | Some (ev, rest) => (Some ev, rest)
          | None => (None, s3)
          end
        else (None, s3)
      | [] => (None, s3)
      end in
    let sign := if neg : bool then -1 else 1 in
    match frac, exp with
    | None, None => Some (Int (sign * iv), s4)
    | Some (m, n), None => Some (Float (sign * m) (- n), s4)
    | None, Some ev => Some (Float (sign * iv) ev, s4)
    | Some (m, n), Some ev => Some (Float (sign * m) (ev - n), s4)
    end
  end.

(** [s.startswith(lit)]: the rest after the literal. *)
Fixpoint strip_prefix (lit s : pystr) : option pystr :=
  match lit, s with
  | [], _ => Some s
  | a :: lit', b :: s' => if a =? b then strip_prefix lit' s' else None
  | _ :: _, [] => None
  end.

(** [scan_once], [JSONObject] and [JSONArray].  The members and elements are
    read from just after the opening quote of a key, and from the first
    character of an element. *)
Fixpoint scan_once (fuel : nat) (s : pystr) : option (value * pystr) :=
  match fuel with
  | O => None
  | S f =>
    match s with
    | [] => None
    | c :: r =>
      if c =? 34 then
        match scanstring r with
        | Some (t, rest) => Some (Str t, rest)
        | None => None
        end
      else if c =? 123 then
        match skip_ws r with
        | d :: r' =>
          if d =? 125 then Some (Obj [], r')
          else if d =? 34 then
            match parse_members f r' with
            | Some (ps, rest) => Some (Obj ps, rest)
            | None => None
            end
          else None
        | [] => None
        end
      else if c =? 91 then
        match skip_ws r with
        | d :: r' =>
          if d =? 93 then Some (Arr [], r')
          else
            match parse_elements f (d :: r') with
            | Some (vs, rest) => Some (Arr vs, rest)
            | None => None
            end
        | [] => None
        end
      else
        match strip_prefix (py "null") s, strip_prefix (py "true") s,
              strip_prefix (py "false") s with
        | Some rest, _, _ => Some (Null, rest)
        | _, Some rest, _ => Some (Bool true, rest)
        | _, _, Some rest => Some (Bool false, rest)
        | None, None, None =>
          match match_number s with
          | Some res => Some res
          | None =>
            match strip_prefix (py "NaN") s, strip_prefix (py "Infinity") s,
                  strip_prefix (py "-Infinity") s with
            | Some rest, _, _ => Some (NaN, rest)
            | _, Some rest, _ => Some (Infinity false, rest)
            | _, _, Some rest => Some (Infinity true, rest)
            | None, None, None => None
            end
          end
        end
    end
  end

with parse_members (fuel : nat) (s : pystr)
  : option (list (pystr * value) * pystr) :=
  match fuel with
  | O => None
  | S f =>
    match scanstring s with
    | None => None
    | Some (key, s1) =>
      match skip_ws s1 with
      | c :: s2 =>
        if c =? 58 then
          match scan_once f (skip_ws s2) with
          | None => None
          | Some (v, s3) =>
            match skip_ws s3 with
            | d :: s4 =>
              if d =? 125 then Some ([(key, v)], s4)
              else if d =? 44 then
                match skip_ws s4 with
                | q :: s5 =>
                  if q =? 34 then
                    match parse_members f s5 with
                    | Some (ps, rest) => Some ((key, v) :: ps, rest)
                    | None => None
                    end
                  else None
                | [] => None
                end
              else None
            | [] => None
            end
          end
        else None
      | [] => None
      end
    end
  end

with parse_elements (fuel : nat) (s : pystr)
  : option (list value * pystr) :=
  match fuel with
  | O => None
  | S f =>
    match scan_once f s with
    | None => None
    | Some (v, s1) =>
      match skip_ws s1 with
      | d :: s2 =>
        if d =? 93 then Some ([v], s2)
        else if d =? 44 then
          match parse_elements f (skip_ws s2) with
          | Some (vs, rest) => Some (v :: vs, rest)
          | None => None
          end
        else None
      | [] => None
      end
    end
  end.

(** [json.loads(s)]: one value between optional white space; anything else
    raises [JSONDecodeError] (here [None]).  The fuel bounds the nesting of
    the calls: a member or an element takes one unit and at least one
    character, a level of array two units and at least one character, so
    twice the length of the text is enough for whatever it holds. *)
Definition loads (s : pystr) : option value :=
  match scan_once (2 * List.length s + 2) (skip_ws s) with
  | Some (v, rest) =>
    match skip_ws rest with
    | [] => Some v
    | _ :: _ => None
    end
  | None => None
  end.

(** [d.get(key)] on the dictionary built from the pairs: the last pair of
    that key wins. *)
Fixpoint obj_get (key : pystr) (ps : list (pystr * value)) : option value :=
  match ps with
  | [] => None
  | (k, v) :: ps' =>
    match obj_get key ps' with
    | Some v' => Some v'
    | None => if str_eqb k key then Some v else None
    end
  end.

(** Truth value in a condition. *)
Definition truthy (v : value) : bool :=
  match v with
  | Null => false
  | Bool b => b
  | Int n => negb (n =? 0)
  | Float m e =>
    (* a double is zero when the literal is, or when it rounds to zero *)
    negb ((m =? 0) || ((e <? 0) && (Z.abs m * 2 ^ 1075 <=? 10 ^ (- e))))
  | NaN => true
  | Infinity _ => true
  | Str s => str_truthy s
  | Arr l => match l with [] => false | _ => true end
  | Obj l => match l with [] => false | _ => true end
  end.

End Json.

(** ** The database

    The schema is not part of the source; the tables are read off the SQL
    statements of [app.py]. *)

(** Modelled from the spec: the declaration of the table [csv_uploads], which
    is missing from the source.  [id] is the surrogate key the database
    assigns at insertion; [filename], [csv_data] (a text column) and [status]
    are not null. *)
Record csv_upload := mk_csv_upload {
  cu_id : Z;
  cu_filename : pystr;
  cu_csv_data : pystr;
  cu_status : pystr
}.

(** Modelled from the spec: the declaration of the table [processed_leads],
    which is missing from the source.  [id] is not null; [username] may be
    NULL ([None]); the seven other columns the listing selects are kept
    together in [pl_fields]. *)
Record processed_lead := mk_processed_lead {
  pl_id : Z;
  pl_username : option pystr;
  pl_fields : list pystr
}.

Record database := mk_database {
  csv_uploads : list csv_upload;
  processed_leads : list processed_lead
}.

(** *** Sorting, for [ORDER BY] *)

Section OrderBy.
Context {A : Type} (leb : A -> A -> bool).

Fixpoint insert_sorted (x : A) (l : list A) : list A :=
  match l with
  | [] => [x]
  | y :: l' => if leb x y then x :: l else y :: insert_sorted x l'
  end.

Fixpoint order_by (l : list A) : list A :=
  match l with
  | [] => []
  | x :: l' => insert_sorted x (order_by l')
  end.

End OrderBy.

(** *** The statements of [app.py] *)

(** Line 105: [SELECT 1 FROM csv_uploads WHERE filename = :filename LIMIT 1],
    read with [scalar_one_or_none]. *)
Definition select_filename_exists (filename : pystr) (db : database)
  : option Z :=
  if existsb (fun r => str_eqb (cu_filename r) filename) (csv_uploads db)
  then Some 1 else None.

(** Modelled from the spec: the default of the column [id], which is missing
    from the source; [id] is a unique surrogate identifier assigned at
    creation.  The key of a new row of [csv_uploads] is one more than the
    largest key present. *)
Definition next_upload_id (db : database) : Z :=
  1 + fold_right Z.max 0 (map cu_id (csv_uploads db)).

(** Line 118: [INSERT INTO csv_uploads (filename, csv_data, status)
    VALUES (:filename, :data, 'notstarted')], committed. *)
Definition insert_upload (filename data : pystr) (db : database) : database :=
  mk_database
    (csv_uploads db
     ++ [mk_csv_upload (next_upload_id db) filename data (py "notstarted")])
    (processed_leads db).

(** Line 140: [SELECT id, filename, status FROM csv_uploads
    ORDER BY filename ASC]. *)
Definition file_row : Type := Z * pystr * pystr.

Definition fr_id (r : file_row) : Z := fst (fst r).
Definition fr_filename (r : file_row) : pystr := snd (fst r).
Definition fr_status (r : file_row) : pystr := snd r.

Definition select_files (db : database) : list file_row :=
  order_by (fun a b => str_leb (fr_filename a) (fr_filename b))
    (map (fun r => (cu_id r, cu_filename r, cu_status r)) (csv_uploads db)).

(** Line 207: [SELECT csv_data FROM csv_uploads WHERE id = :id]; the rows
    found, before [scalar_one_or_none]. *)
Definition select_csv_data (id : Z) (db : database) : list pystr :=
  map cu_csv_data (filter (fun r => cu_id r =? id) (csv_uploads db)).

Definition set_status (status : pystr) (r : csv_upload) : csv_upload :=
  mk_csv_upload (cu_id r) (cu_filename r) (cu_csv_data r) status.

(** Line 231: [UPDATE csv_uploads SET status = 'inprogress' WHERE id = :id],
    committed. *)
Definition update_status_inprogress (id : Z) (db : database) : database :=
  mk_database
    (map (fun r => if cu_id r =? id then set_status (py "inprogress") r else r)
         (csv_uploads db))
    (processed_leads db).

(** Line 258: [SELECT COUNT( * ) FROM processed_leads]. *)
Definition count_processed (db : database) : Z :=
  Z.of_nat (List.length (processed_leads db)).

(** SQL equality of two nullable texts in a [WHERE] clause: true only when
    both are present and equal. *)
Definition sql_eq (a b : option pystr) : bool :=
  match a, b with
  | Some x, Some y => str_eqb x y
  | _, _ => false
  end.

(** The join condition of the deduplication, [T1.id > T2.id AND
    T1.username = T2.username]. *)
Definition superseded_by (t1 t2 : processed_lead) : bool :=
  (pl_id t1 >? pl_id t2) && sql_eq (pl_username t1) (pl_username t2).

(** Lines 273-278: [DELETE FROM processed_leads T1 USING processed_leads T2
    WHERE T1.id > T2.id AND T1.username = T2.username].  A row of T1 that
    joins with some row of T2 is deleted, once. *)
Definition dedupe_keep (leads : list processed_lead) (t1 : processed_lead)
  : bool :=
  negb (existsb (superseded_by t1) leads).

Definition delete_duplicates (db : database) : database :=
  mk_database (csv_uploads db)
              (filter (dedupe_keep (processed_leads db)) (processed_leads db)).

(** [result.rowcount] of that statement: the number of rows deleted. *)
Definition delete_duplicates_rowcount (db : database) : Z :=
  Z.of_nat (List.length
              (filter (fun t => negb (dedupe_keep (processed_leads db) t))
                      (processed_leads db))).

(** Line 289: [SELECT id, qualified, ..., full_name FROM processed_leads
    ORDER BY id DESC]. *)
Definition select_processed (db : database) : list processed_lead :=
  order_by (fun a b => pl_id b <=? pl_id a) (processed_leads db).

(** ** One script run: state, messages and exceptions *)

(** The exceptions the script can meet. *)
Inductive exn : Type :=
| UnicodeDecodeError
| UnicodeEncodeError
| JSONDecodeError
| AttributeError
| UnboundLocalError (name : string)
| MultipleResultsFound
| RequestException (detail : pystr).

(** The file handed over by [st.file_uploader]. *)
Record uploaded_file := mk_uploaded_file {
  uf_name : pystr;
  uf_value : pybytes
}.

(** [st.session_state]; an absent key reads as its initial value. *)
Record session := mk_session {
  ss_logged_in : bool;
  ss_selected_filename : option pystr;
  ss_uploaded_file_object : option uploaded_file
}.

(** The texts the script shows, one constructor per call site. *)
Inductive message : Type :=
| ErrorReadingCsv                                         (* line 29 *)
| InvalidCredentials                                      (* line 74 *)
| DuplicateFilename (filename : pystr)                    (* line 109 *)
| SavedSuccessfully (filename : pystr)                    (* line 121 *)
| ErrorSaving (e : exn)                                   (* line 126 *)
| StatusLine (color status : pystr) (id : Z)              (* line 183 *)
| DetailsUnavailable                                      (* line 186 *)
| NoFilesForSelection                                     (* line 190 *)
| NoUploadedFiles                                         (* line 194 *)
| FailedToParseStored (e : exn)                           (* line 216 *)
| CouldNotFindCsvData (id : Z)                            (* line 218 *)
| SentForProcessing (filename : option pystr) (id : Z)    (* line 234 *)
| FailedToSend (filename : option pystr)
               (status_code : Z) (text : pystr)           (* line 237 *)
| ErrorProcessing (filename : option pystr) (e : exn)     (* line 239 *)
| CannotProcessFile (filename status : option pystr)      (* line 241 *)
| OnlyNotstartedProcessed (filename status : option pystr) (* line 245 *)
| SelectAFile                                             (* line 247 *)
| UploadAndSaveFirst                                      (* line 249 *)
| ConfirmDeduplicate                                      (* line 270 *)
| DeduplicationComplete (rowcount : Z)                    (* line 282 *)
| NoProcessedLeads.                                       (* line 301 *)

Inductive ui_event : Type :=
| st_error (m : message)
| st_warning (m : message)
| st_success (m : message)
| st_caption (m : message)
| st_markdown (m : message)
| st_metric (n : Z)
| st_selectbox (options : list pystr) (index : nat)
| st_dataframe_upload (frame : list (list pystr))
| st_dataframe_leads (rows : list processed_lead).

(** The request of line 226 and what [requests.post] gives back. *)
Record http_request := mk_http_request {
  rq_url : pystr;
  rq_data : pybytes;
  rq_content_type : pystr;
  rq_x_id : Z
}.

Inductive http_result : Type :=
| HttpResponse (status_code : Z) (text : pystr)
| HttpRaises (e : exn).

(** What the script takes from outside: [st.secrets], the endpoint behind
    [requests.post] and the outcome of [pd.read_csv] ([None] when it
    raises). *)
Record environment := mk_environment {
  secrets_username : pystr;
  secrets_password : pystr;
  secrets_workflow_url : pystr;
  requests_post : http_request -> http_result;
  pd_read_csv : pybytes -> option (list (list pystr))
}.

(** The widget values of one run.  A button reads [true] in the run that
    follows its click; the value is an input of the run, also for a button
    that the run draws disabled (line 200), which is why line 202 tests the
    status again. *)
Record widgets := mk_widgets {
  username_input : pystr;
  password_input : pystr;
  login_button : bool;
  csv_uploader : option uploaded_file;
  save_button : bool;
  file_selector : option pystr;
  process_button : bool;
  dedupe_button : bool;
  dedupe_confirm_button : bool
}.

Record world := mk_world {
  w_db : database;
  w_session : session;
  w_ui : list ui_event;        (* what was shown, oldest first *)
  w_http : list http_request   (* what was sent, oldest first *)
}.

(** How a piece of the script ends: normally, with an exception that
    [except Exception] catches, or with the rerun request of [st.rerun],
    which it does not catch. *)
Inductive outcome (A : Type) : Type :=
| Done (a : A)
| Raise (e : exn)
| Rerun.
Arguments Done {A} a.
Arguments Raise {A} e.
Arguments Rerun {A}.

Definition M (A : Type) : Type := world -> outcome A * world.

Definition ret {A} (a : A) : M A := fun w => (Done a, w).

Definition bind {A B} (m : M A) (k : A -> M B) : M B :=
  fun w =>
    match m w with
    | (Done a, w') => k a w'
    | (Raise e, w') => (Raise e, w')
    | (Rerun, w') => (Rerun, w')
    end.

Notation "x <- m ;; k" := (bind m (fun x => k))
  (at level 61, m at next level, right associativity).
Notation "m ;; k" := (bind m (fun _ => k))
  (at level 61, right associativity).

Definition raise {A} (e : exn) : M A := fun w => (Raise e, w).

Definition st_rerun {A} : M A := fun w => (Rerun, w).

(** [try: body except Exception as e: handler e] *)
Definition try_except {A} (body : M A) (handler : exn -> M A) : M A :=
  fun w =>
    match body w with
    | (Raise e, w') => handler e w'
    | r => r
    end.

Definition show (e : ui_event) : M unit :=
  fun w => (Done tt, mk_world (w_db w) (w_session w) (w_ui w ++ [e]) (w_http w)).

(** A statement that reads the database. *)
Definition query {A} (q : database -> A) : M A :=
  fun w => (Done (q (w_db w)), w).

(** A statement that writes the database, committed. *)
Definition execute (f : database -> database) : M unit :=
  fun w => (Done tt, mk_world (f (w_db w)) (w_session w) (w_ui w) (w_http w)).

Definition get_session : M session := fun w => (Done (w_session w), w).

Definition put_session (s : session) : M unit :=
  fun w => (Done tt, mk_world (w_db w) s (w_ui w) (w_http w)).

Definition set_logged_in (b : bool) : M unit :=
  s <- get_session ;;
  put_session (mk_session b (ss_selected_filename s) (ss_uploaded_file_object s)).

Definition set_selected_filename (v : option pystr) : M unit :=
  s <- get_session ;;
  put_session (mk_session (ss_logged_in s) v (ss_uploaded_file_object s)).

Definition set_uploaded_file_object (v : option uploaded_file) : M unit :=
  s <- get_session ;;
  put_session (mk_session (ss_logged_in s) (ss_selected_filename s) v).

(** Reading a local variable that only some paths assign. *)
Definition read_local {A} (name : string) (v : option A) : M A :=
  match v with
  | Some a => ret a
  | None => raise (UnboundLocalError name)
  end.

(** [Result.scalar_one_or_none()] *)
Definition scalar_one_or_none {A} (rows : list A) : M (option A) :=
  match rows with
  | [] => ret None
  | [a] => ret (Some a)
  | _ :: _ :: _ => raise MultipleResultsFound
  end.

(** [requests.post]: the request goes out, then the endpoint answers or the
    transport raises. *)
Definition post (env : environment) (rq : http_request) : M (Z * pystr) :=
  fun w =>
    let w' := mk_world (w_db w) (w_session w) (w_ui w) (w_http w ++ [rq]) in
    match requests_post env rq with
    | HttpResponse code text => (Done (code, text), w')
    | HttpRaises e => (Raise e, w')
    end.

(** ** The script *)

(** [read_from_postgres(query)], lines 40-46.  The statements against the
    engine are taken to succeed (no connection or storage failure), so the
    frame is always there; the callers still test it. *)
Definition read_from_postgres {A} (q : database -> A) : M (option A) :=
  r <- query q ;; ret (Some r).

(** [get_status_color(status)], lines 49-53. *)
Definition get_status_color (status : pystr) : pystr :=
  if str_eqb status (py "inprogress") then py "blue"
  else if str_eqb status (py "complete") then py "green"
  else if str_eqb status (py "notstarted") then py "gray"
  else py "orange".

(** [load_csv()], lines 16-38. *)
Definition load_csv (env : environment) (inp : widgets)
  : M (option (list (list pystr))) :=
  match csv_uploader inp with
  | Some uploaded =>
    set_uploaded_file_object (Some uploaded) ;;
    match pd_read_csv env (uf_value uploaded) with
    | Some df => ret (Some df)
    | None =>
      show (st_error ErrorReadingCsv) ;;
      set_uploaded_file_object None ;;
      ret None
    end
  | None =>
    set_uploaded_file_object None ;;
    ret None
  end.

(** Truth value of the scalar read at line 106. *)
Definition scalar_truthy (v : option Z) : bool :=
  match v with
  | Some n => negb (n =? 0)
  | None => false
  end.

(** The body of the [try] of lines 99-124: the registration of the uploaded
    file. *)
Definition save_csv (file_to_save : uploaded_file) : M unit :=
  let filename := uf_name file_to_save in
  exists_ <- query (select_filename_exists filename) ;;
  if scalar_truthy exists_ then
    show (st_error (DuplicateFilename filename))
  else
    csv_text <- match Utf8.decode (uf_value file_to_save) with
                | Some t => ret t
                | None => raise UnicodeDecodeError
                end ;;
    let json_payload := Json.dumps_dict1 (py "csv_content") csv_text in
    execute (insert_upload filename json_payload) ;;
    show (st_success (SavedSuccessfully filename)) ;;
    set_uploaded_file_object None ;;
    st_rerun.

(** The upload part of the first tab, lines 91-126. *)
Definition upload_section (env : environment) (inp : widgets) : M unit :=
  df_csv_display <- load_csv env inp ;;
  match df_csv_display with
  | Some df =>
    show (st_dataframe_upload df) ;;
    s <- get_session ;;
    match ss_uploaded_file_object s with
    | Some file_to_save =>
      if save_button inp then
        try_except (save_csv file_to_save)
                   (fun e => show (st_error (ErrorSaving e)))
      else ret tt
    | None => ret tt
    end
  | None => ret tt
  end.

(** The local variables of [main] that the selection part leaves to the
    action part.  [selected_file_id] is [None] while the name is unbound. *)
Record locals := mk_locals {
  files_df : option (list file_row);
  selected_filename : option pystr;
  selected_file_status : option pystr;
  process_button_disabled : bool;
  selected_file_id : option (option Z)
}.

(** [filenames.index(x)] *)
Fixpoint list_index (x : pystr) (l : list pystr) : option nat :=
  match l with
  | [] => None
  | y :: l' => if str_eqb y x then Some O
               else option_map S (list_index x l')
  end.

(** [st.selectbox(label, options, index=index)]: the entry the user chose
    when it is still on offer, the entry at [index] otherwise. *)
Definition selectbox_value (options : list pystr) (index : nat)
                           (choice : option pystr) : option pystr :=
  match choice with
  | Some c => if str_in c options then Some c else nth_error options index
  | None => nth_error options index
  end.

Definition opt_str_eqb (a b : option pystr) : bool :=
  match a, b with
  | Some x, Some y => str_eqb x y
  | None, None => true
  | _, _ => false
  end.

(** [x in xs] when [x] may be [None]. *)
Definition opt_str_in (x : option pystr) (xs : list pystr) : bool :=
  match x with
  | Some s => str_in s xs
  | None => false
  end.

Definition opt_str_truthy (x : option pystr) : bool :=
  match x with
  | Some s => str_truthy s
  | None => false
  end.

Definition frame_empty {A} (df : option (list A)) : bool :=
  match df with
  | Some (_ :: _) => false
  | _ => true
  end.

(** The selection part, lines 131-195. *)
Definition select_file_section (inp : widgets) : M locals :=
  files <- read_from_postgres select_files ;;
  let unselected := mk_locals files None None true None in
  match files with
  | Some ((_ :: _) as df) =>
    let filenames := map fr_filename df in
    s <- get_session ;;
    (if opt_str_in (ss_selected_filename s) filenames then ret tt
     else set_selected_filename (hd_error filenames)) ;;
    s <- get_session ;;
    let current_index :=
      match ss_selected_filename s with
      | Some sel =>
        match list_index sel filenames with Some i => i | None => O end
      | None => O
      end in
    if opt_str_truthy (ss_selected_filename s) then
      let selected_filename_from_box :=
        selectbox_value filenames current_index (file_selector inp) in
      show (st_selectbox filenames current_index) ;;
      (if opt_str_eqb selected_filename_from_box (ss_selected_filename s)
       then ret tt
       else set_selected_filename selected_filename_from_box ;; st_rerun) ;;
      let selected := ss_selected_filename s in
      let selected_file_info :=
        filter (fun r => opt_str_eqb (Some (fr_filename r)) selected) df in
      match selected_file_info with
      | r :: _ =>
        show (st_markdown (StatusLine (get_status_color (fr_status r))
                                      (fr_status r) (fr_id r))) ;;
        ret (mk_locals files selected (Some (fr_status r))
                       (negb (str_eqb (fr_status r) (py "notstarted")))
                       (Some (Some (fr_id r))))
      | [] =>
        show (st_warning DetailsUnavailable) ;;
        ret (mk_locals files selected None true (Some None))
      end
    else
      show (st_caption NoFilesForSelection) ;;
      ret unselected
  | _ =>
    show (st_caption NoUploadedFiles) ;;
    ret unselected
  end.

(** Lines 206-218: the stored text of the batch, decoded.  [None] is Python's
    [None]. *)
Definition fetch_csv_data_text (id : Z) : M (option Json.value) :=
  rows <- query (select_csv_data id) ;;
  result <- scalar_one_or_none rows ;;
  if opt_str_truthy result then
    match result with
    | Some stored =>
      match Json.loads stored with
      | Some (Json.Obj pairs) => ret (Json.obj_get (py "csv_content") pairs)
      | Some _ =>
        (* no [get] on a list, a string, a number, a constant *)
        show (st_error (FailedToParseStored AttributeError)) ;; ret None
      | None =>
        show (st_error (FailedToParseStored JSONDecodeError)) ;; ret None
      end
    | None => ret None
    end
  else
    show (st_error (CouldNotFindCsvData id)) ;; ret None.

Definition value_truthy (v : option Json.value) : bool :=
  match v with
  | Some j => Json.truthy j
  | None => false
  end.

(** [csv_data_text.encode('utf-8')] *)
Definition encode_utf8 (v : option Json.value) : M pybytes :=
  match v with
  | Some (Json.Str s) =>
    match Utf8.encode s with
    | Some bs => ret bs
    | None => raise UnicodeEncodeError
    end
  | _ => raise AttributeError
  end.

(** The body of the [try] of lines 203-237. *)
Definition send_for_processing (env : environment) (l : locals) (id : Z)
  : M unit :=
  csv_data_text <- fetch_csv_data_text id ;;
  if value_truthy csv_data_text then
    data <- encode_utf8 csv_data_text ;;
    response <- post env (mk_http_request (secrets_workflow_url env) data
                                          (py "text/csv") id) ;;
    if fst response =? 200 then
      execute (update_status_inprogress id) ;;
      show (st_success (SentForProcessing (selected_filename l) id)) ;;
      st_rerun
    else ret tt
  else
    (* the [else] of line 236 belongs to [if csv_data_text:], where
       [response] was never assigned *)
    response <- read_local "response" (@None (Z * pystr)) ;;
    show (st_error (FailedToSend (selected_filename l)
                                 (fst response) (snd response))).

(** The action part, lines 200-241. *)
Definition process_leads_section (env : environment) (inp : widgets)
                                 (l : locals) : M unit :=
  if process_button inp then
    id <- read_local "selected_file_id" (selected_file_id l) ;;
    match id with
    | Some i =>
      if opt_str_eqb (selected_file_status l) (Some (py "notstarted")) then
        try_except
          (send_for_processing env l i)
          (fun e => show (st_error (ErrorProcessing (selected_filename l) e)))
      else
        show (st_warning (CannotProcessFile (selected_filename l)
                                            (selected_file_status l)))
    | None =>
      show (st_warning (CannotProcessFile (selected_filename l)
                                          (selected_file_status l)))
    end
  else ret tt.

(** The captions of lines 244-249. *)
Definition process_captions (l : locals) : M unit :=
  if process_button_disabled l && opt_str_truthy (selected_filename l) then
    show (st_caption (OnlyNotstartedProcessed (selected_filename l)
                                              (selected_file_status l)))
  else if negb (opt_str_truthy (selected_filename l))
          && negb (frame_empty (files_df l)) then
    show (st_caption SelectAFile)
  else if frame_empty (files_df l) then
    show (st_caption UploadAndSaveFirst)
  else ret tt.

(** The first tab, lines 87-249. *)
Definition main_dashboard (env : environment) (inp : widgets) : M unit :=
  upload_section env inp ;;
  l <- select_file_section inp ;;
  process_leads_section env inp l ;;
  process_captions l.

(** The deduplication of lines 269-285. *)
Definition deduplicate : M unit :=
  rowcount <- query delete_duplicates_rowcount ;;
  execute delete_duplicates ;;
  show (st_success (DeduplicationComplete rowcount)) ;;
  st_rerun.

Definition dedupe_section (inp : widgets) : M unit :=
  if dedupe_button inp then
    show (st_warning ConfirmDeduplicate) ;;
    if dedupe_confirm_button inp then deduplicate else ret tt
  else ret tt.

(** The second tab, lines 253-305. *)
Definition processed_leads_tab (inp : widgets) : M unit :=
  total_processed_count <- query count_processed ;;
  show (st_metric total_processed_count) ;;
  dedupe_section inp ;;
  df_processed <- read_from_postgres select_processed ;;
  match df_processed with
  | Some ((_ :: _) as rows) => show (st_dataframe_leads rows)
  | Some [] => show (st_caption NoProcessedLeads)
  | None => ret tt
  end.

(** The login part, lines 66-75. *)
Definition login_section (env : environment) (inp : widgets) : M unit :=
  if login_button inp then
    if str_eqb (username_input inp) (secrets_username env)
       && str_eqb (password_input inp) (secrets_password env)
    then set_logged_in true ;; st_rerun
    else show (st_error InvalidCredentials)
  else ret tt.

(** [main()], lines 56-305. *)
Definition main (env : environment) (inp : widgets) : M unit :=
  s <- get_session ;;
  if negb (ss_logged_in s) then login_section env inp
  else
    main_dashboard env inp ;;
    processed_leads_tab inp.

(** ** The operations of the core, as script runs *)

(** The state a run leaves. *)
Definition run (env : environment) (inp : widgets) (w : world) : world :=
  snd (main env inp w).

(** Script runs one after the other, each with its own widget values and its
    own answers from outside. *)
Fixpoint runs (steps : list (environment * widgets)) (w : world) : world :=
  match steps with
  | [] => w
  | (env, inp) :: rest => runs rest (run env inp w)
  end.

(** A periodic refresh: nothing uploaded, nothing chosen, no button. *)
Definition refresh : widgets :=
  mk_widgets [] [] false None false None false false false.

(** "Process Leads" pressed on the file the session has selected. *)
Definition press_process : widgets :=
  mk_widgets [] [] false None false None true false false.

(** "Save CSV to Postgres" pressed on an uploaded file. *)
Definition press_save (file : uploaded_file) : widgets :=
  mk_widgets [] [] false (Some file) true None false false false.

(** "Deduplicate by Username" pressed, with or without the confirmation. *)
Definition press_dedupe (confirmed : bool) : widgets :=
  mk_widgets [] [] false None false None false true confirmed.

(** A session that is logged in, with a file name selected. *)
Definition logged_in (selected : option pystr) : session :=
  mk_session true selected None.

(** The row of the listing the selection part picks for a file name. *)
Definition selected_row (db : database) (filename : pystr) : option file_row :=
  find (fun r => str_eqb (fr_filename r) filename) (select_files db).

(** The text the action part reads back from a stored cell. *)
Definition stored_text (stored : pystr) : option pystr :=
  match Json.loads stored with
  | Some (Json.Obj pairs) =>
    match Json.obj_get (py "csv_content") pairs with
    | Some (Json.Str s) => Some s
    | _ => None
    end
  | _ => None
  end.

(** The lifecycle of the spec, [notstarted -> inprogress -> complete]. *)
Definition status_rank (status : pystr) : option nat :=
  if str_eqb status (py "notstarted") then Some 0%nat
  else if str_eqb status (py "inprogress") then Some 1%nat
  else if str_eqb status (py "complete") then Some 2%nat
  else None.

(** [s'] is [s], or later than [s] in the lifecycle. *)
Definition not_backward (s s' : pystr) : Prop :=
  s' = s \/
  exists a b, status_rank s = Some a /\ status_rank s' = Some b /\ (a < b)%nat.

(** Two result records share an identity key: both have a user name, the
    same one. *)
Definition same_key (a b : processed_lead) : Prop :=
  exists k, pl_username a = Some k /\ pl_username b = Some k.

(** The severity a message is shown with. *)
Definition is_error (e : ui_event) : bool :=
  match e with
  | st_error _ => true
  | st_warning _ => true
  | _ => false
  end.

(** The request dispatch sends for a batch. *)
Definition dispatch_request (env : environment) (id : Z) (data : pybytes)
  : http_request :=
  mk_http_request (secrets_workflow_url env) data (py "text/csv") id.

(** The local variables the selection part leaves are read off the listing
    of the database: a bound id comes with the name and the status of the
    row picked for the selected file name. *)
Definition locals_from (db : database) (l : locals) : Prop :=
  files_df l = Some (select_files db) /\
  forall id, selected_file_id l = Some (Some id) ->
    exists fn st,
      selected_filename l = Some fn /\ selected_file_status l = Some st /\
      selected_row db fn = Some (id, fn, st).

(** What one run can write to the database: nothing, the row of an uploaded
    file under a new name, [inprogress] on the selected [notstarted] batch
    after the endpoint answered 200, or the deletion of the superseded
    result records. *)
Inductive db_write (env : environment) (inp : widgets) (db : database)
  : database -> Prop :=
| write_nothing : db_write env inp db db
| write_insert (f : uploaded_file) (text : pystr) :
    csv_uploader inp = Some f ->
    save_button inp = true ->
    select_filename_exists (uf_name f) db = None ->
    Utf8.decode (uf_value f) = Some text ->
    db_write env inp db
             (insert_upload (uf_name f)
                            (Json.dumps_dict1 (py "csv_content") text) db)
| write_update (id : Z) (fn stored text : pystr) (data : pybytes)
               (body : pystr) :
    process_button inp = true ->
    selected_row db fn = Some (id, fn, py "notstarted") ->
    select_csv_data id db = [stored] ->
    stored_text stored = Some text ->
    Utf8.encode text = Some data ->
    requests_post env (dispatch_request env id data) = HttpResponse 200 body ->
    db_write env inp db (update_status_inprogress id db)
| write_delete :
    dedupe_button inp = true ->
    dedupe_confirm_button inp = true ->
    db_write env inp db (delete_duplicates db).

(** A row of [csv_uploads] before and after some runs: the same row, or the
    same row moved from [notstarted] to [inprogress]. *)
Definition advanced (r r' : csv_upload) : Prop :=
  r' = r \/
  (cu_status r = py "notstarted" /\ r' = set_status (py "inprogress") r).

(** The table before and after some runs: the old rows in place, each one
    advanced or not, then the rows inserted since. *)
Definition uploads_evolve (l l' : list csv_upload) : Prop :=
  exists l1 l2, l' = l1 ++ l2 /\ Forall2 advanced l l1.

(** ** Example data *)

Definition lead (id : Z) (key : string) : processed_lead :=
  mk_processed_lead id (Some (py key)) [].

(** The result records of the spec's deduplication example. *)
Definition example_leads : list processed_lead :=
  [lead 1 "A"; lead 2 "A"; lead 3 "B"; lead 4 "A"].

Definition example_env (answer : http_result) : environment :=
  mk_environment (py "admin") (py "secret") (py "https://n8n.example/webhook")
                 (fun _ => answer) (fun _ => Some []).

Definition leads_csv : uploaded_file :=
  mk_uploaded_file (py "leads.csv") (py "name,handle").

Definition leads_json : pystr :=
  Json.dumps_dict1 (py "csv_content") (py "name,handle").

Definition example_db (status : string) : database :=
  mk_database [mk_csv_upload 1 (py "leads.csv") leads_json (py status)]
              example_leads.

Definition example_world (status : string) : world :=
  mk_world (example_db status) (logged_in (Some (py "leads.csv"))) [] [].

(** Three runs on the example: two presses of "Process Leads" answered
    with 200, then a confirmed deduplication. *)
Definition example_steps : list (environment * widgets) :=
  [(example_env (HttpResponse 200 []), press_process);
   (example_env (HttpResponse 200 []), press_process);
   (example_env (HttpResponse 200 []), press_dedupe true)].

(** The file names of the batches. *)
Definition filenames (db : database) : list pystr :=
  map cu_filename (csv_uploads db).

(** A second file of the name [leads.csv], and two registrations of that
    name. *)
Definition leads_csv_again : uploaded_file :=
  mk_uploaded_file (py "leads.csv") (py "other,content").

Definition example_registrations : list (environment * widgets) :=
  [(example_env (HttpResponse 200 []), press_save leads_csv);
   (example_env (HttpResponse 200 []), press_save leads_csv_again)].

Definition empty_world : world :=
  mk_world (mk_database [] []) (logged_in None) [] [].

(** The local variables of a run that listed the example batch while it was
    [notstarted]. *)
Definition listed_notstarted : locals :=
  mk_locals (Some [(1, py "leads.csv", py "notstarted")])
            (Some (py "leads.csv")) (Some (py "notstarted")) false
            (Some (Some 1)).

(** The request that carries the example batch. *)
Definition example_request : http_request :=
  mk_http_request (py "https://n8n.example/webhook") (py "name,handle")
                  (py "text/csv") 1.

(** ** Proof steps on script runs *)

(** The primitives of a run, unfolded. *)
Ltac unfold_monad :=
  unfold read_from_postgres, set_logged_in, set_selected_filename,
         set_uploaded_file_object, read_local, scalar_one_or_none in *;
  unfold bind, ret, raise, st_rerun, try_except, show, query, execute,
         get_session, put_session, post in *.

(** One case analysis on what the goal or a hypothesis branches on. *)
Ltac break_match :=
  match goal with
  | H : context [match ?x with _ => _ end] |- _ => destruct x eqn:?
  | |- context [match ?x with _ => _ end] => destruct x eqn:?
  | H : context [if ?x then _ else _] |- _ => destruct x eqn:?
  | |- context [if ?x then _ else _] => destruct x eqn:?
  end.

Ltac inv_pair :=
  repeat match goal with
         | H : (_, _) = (_, _) |- _ => inversion H; subst; clear H
         end.

(** Case analysis on the integer comparisons of the goal. *)
Ltac split_comparisons :=
  repeat match goal with
         | |- context [?a <=? ?b] => destruct (Z.leb_spec a b)
         | |- context [?a <? ?b] => destruct (Z.ltb_spec a b)
         | |- context [?a =? ?b] => destruct (Z.eqb_spec a b)
         end.

(** The selection after lines 149-151: the one of the session when the
    listing holds it, the first listed file name otherwise. *)
Definition validated_selection (s : session) (names : list pystr)
  : option pystr :=
  if opt_str_in (ss_selected_filename s) names then ss_selected_filename s
  else hd_error names.

(** A world in which nobody is logged in. *)
Definition logged_out_world : world :=
  mk_world (example_db "notstarted") (mk_session false None None) [] [].

(** The credentials of the example typed in, and the button pressed. *)
Definition press_login (username password : string) : widgets :=
  mk_widgets (py username) (py password) true None false None false false
             false.

(** A world with no batch at all, logged in. *)
Definition no_batches_world : world :=
  mk_world (mk_database [] example_leads) (logged_in None) [] [].

(** A world whose one batch has the empty file name. *)
Definition unnamed_batch_world : world :=
  mk_world (mk_database [mk_csv_upload 1 [] leads_json (py "notstarted")] [])
           (logged_in None) [] [].

(** An upload that is not UTF-8 (Latin-1, with the byte of an e acute at
    its end), and a world whose session still holds the upload of an
    earlier run. *)
Definition latin1_csv : uploaded_file :=
  mk_uploaded_file (py "export.csv") [110; 97; 109; 101; 44; 233].

Definition stale_upload_world : world :=
  mk_world (mk_database [] []) (mk_session true None (Some leads_csv)) [] [].

(** An environment in which [pd.read_csv] fails. *)
Definition unreadable_env : environment :=
  mk_environment (py "admin") (py "secret") (py "https://n8n.example/webhook")
                 (fun _ => HttpResponse 200 []) (fun _ => None).

(** Two batches, and the widgets of a run in which the user picks the
    second one in the select box while every button reads as pressed. *)
Definition two_batches_world : world :=
  mk_world (mk_database
              [mk_csv_upload 1 (py "leads.csv") leads_json (py "notstarted");
               mk_csv_upload 2 (py "more.csv") leads_json (py "notstarted")]
              example_leads)
           (logged_in (Some (py "leads.csv"))) [] [].

Definition pick_and_press (choice : string) : widgets :=
  mk_widgets [] [] false None false (Some (py choice)) true true true.

(** A batch whose cell is not JSON. *)
Definition broken_cell_world : world :=
  mk_world (mk_database
              [mk_csv_upload 1 (py "leads.csv") (py "name,handle")
                             (py "notstarted")] [])
           (logged_in (Some (py "leads.csv"))) [] [].

(** The two messages of the script that no run shows: the error of line 237
    and the warning of line 186. *)
Definition dead_message (e : ui_event) : bool :=
  match e with
  | st_error (FailedToSend _ _ _) => true
  | st_warning DetailsUnavailable => true
  | _ => false
  end.

(** A piece of the script only adds to what is shown, and none of what it
    adds is one of the two. *)
Definition shows_no_dead_message {A} (m : M A) : Prop :=
  forall w o w',
    m w = (o, w') ->
    exists shown, w_ui w' = w_ui w ++ shown /\
                  existsb dead_message shown = false.

(** Closes a goal of [shows_no_dead_message] on an evaluated run. *)
Ltac show_alive :=
  cbn [w_ui w_db w_session w_http];
  first [ exists []; split; [symmetry; apply app_nil_r | reflexivity]
        | rewrite <- ?app_assoc; eexists; split; [reflexivity | reflexivity] ].

(** The test of lines 69-70 on the widgets of a run: the login button
    pressed with the user name and the password of the secrets. *)
Definition presents_credentials (step : environment * widgets) : bool :=
  let (env, inp) := step in
  login_button inp
  && str_eqb (username_input inp) (secrets_username env)
  && str_eqb (password_input inp) (secrets_password env).

(** Runs of somebody who does not know the password: a wrong password typed
    in, then every button of the dashboard pressed. *)
Definition intruder_steps : list (environment * widgets) :=
  [(example_env (HttpResponse 200 []), press_login "admin" "guess");
   (example_env (HttpResponse 200 []), press_save leads_csv_again);
   (example_env (HttpResponse 200 []), pick_and_press "leads.csv")].

(** The printable characters of ASCII. *)
Definition printable_ascii (c : Z) : Prop := 32 <= c <= 126.

(** The two batches of [two_batches_world], stored in the other order. *)
Definition swapped_batches : database :=
  mk_database
    [mk_csv_upload 2 (py "more.csv") leads_json (py "notstarted");
     mk_csv_upload 1 (py "leads.csv") leads_json (py "notstarted")]
    example_leads.

(** The local variables of a run that listed the example batch while it was
    [inprogress]. *)
Definition listed_inprogress : locals :=
  mk_locals (Some [(1, py "leads.csv", py "inprogress")])
            (Some (py "leads.csv")) (Some (py "inprogress")) true
            (Some (Some 1)).

(** What the external service does to the store, outside the script: it
    marks the batches [complete]. *)
Definition completed_meanwhile (w : world) : world :=
  mk_world (mk_database (map (set_status (py "complete"))
                             (csv_uploads (w_db w)))
                        (processed_leads (w_db w)))
           (w_session w) (w_ui w) (w_http w).

(** Ascending order of file names as the spec words it, stated without the
    comparison of the listing: the first code point that differs decides,
    and a name comes before the names it is a proper prefix of. *)
Inductive spec_ascending : pystr -> pystr -> Prop :=
| ascending_nil (b : pystr) : spec_ascending [] b
| ascending_lt (x y : Z) (a b : pystr) :
    x < y -> spec_ascending (x :: a) (y :: b)
| ascending_eq (x : Z) (a b : pystr) :
    spec_ascending a b -> spec_ascending (x :: a) (x :: b).

(** Three batches stored out of order, with the result records of the
    example. *)
Definition unsorted_batches : database :=
  mk_database
    [mk_csv_upload 1 (py "b.csv") leads_json (py "notstarted");
     mk_csv_upload 2 (py "a.csv") leads_json (py "complete");
     mk_csv_upload 3 (py "c.csv") leads_json (py "inprogress")]
    example_leads.

(** * Properties *)

(** ** Text *)

Lemma str_eqb_eq (a b : pystr) : str_eqb a b = true <-> a = b.
Proof.
  revert b; induction a as [|x a IH]; intros [|y b]; simpl;
    try (split; [discriminate | congruence]); try tauto.
  rewrite andb_true_iff, Z.eqb_eq, IH.
  split; [intros [-> ->]; reflexivity | intros H; inversion H; auto].
Qed.

Lemma str_eqb_refl (a : pystr) : str_eqb a a = true.
Proof. apply str_eqb_eq; reflexivity. Qed.

Lemma str_eqb_neq (a b : pystr) : str_eqb a b = false <-> a <> b.
Proof.
  rewrite <- str_eqb_eq. destruct (str_eqb a b); split; congruence.
Qed.

Lemma str_eqb_sym (a b : pystr) : str_eqb a b = str_eqb b a.
Proof.
  destruct (str_eqb a b) eqn:E.
  - apply str_eqb_eq in E; subst; symmetry; apply str_eqb_refl.
  - destruct (str_eqb b a) eqn:F; auto.
    apply str_eqb_eq in F; subst. rewrite str_eqb_refl in E; discriminate.
Qed.

Lemma str_in_In (x : pystr) (xs : list pystr) : str_in x xs = true <-> In x xs.
Proof.
  unfold str_in. rewrite existsb_exists. split.
  - intros (y & Hy & E). apply str_eqb_eq in E; subst; auto.
  - intros H; exists x; split; auto using str_eqb_refl.
Qed.

(** ** Deduplication *)

Lemma sql_eq_same_key (a b : processed_lead) :
  sql_eq (pl_username a) (pl_username b) = true <-> same_key a b.
Proof.
  unfold same_key, sql_eq.
  destruct (pl_username a) as [x|], (pl_username b) as [y|];
    try (split; [discriminate | intros (k & H1 & H2); discriminate]).
  rewrite str_eqb_eq. split.
  - intros ->; eauto.
  - intros (k & H1 & H2); congruence.
Qed.

Lemma same_key_sym (a b : processed_lead) : same_key a b -> same_key b a.
Proof. intros (k & H1 & H2); exists k; auto. Qed.

Lemma same_key_trans (a b c : processed_lead) :
  same_key a b -> same_key b c -> same_key a c.
Proof.
  intros (k & H1 & H2) (k' & H3 & H4). exists k; split; congruence.
Qed.

(** A row survives the [DELETE] exactly when no row of its key has a smaller
    id. *)
Lemma dedupe_keep_minimal (leads : list processed_lead) (r : processed_lead) :
  dedupe_keep leads r = true <->
  (forall r', In r' leads -> same_key r r' -> pl_id r <= pl_id r').
Proof.
  unfold dedupe_keep. rewrite negb_true_iff. split.
  - intros H r' Hin Hk.
    destruct (Z_le_gt_dec (pl_id r) (pl_id r')) as [|Hgt]; auto.
    assert (existsb (superseded_by r) leads = true) as C; [|congruence].
    apply existsb_exists. exists r'; split; auto.
    unfold superseded_by. apply andb_true_iff; split.
    + apply Z.gtb_lt; lia.
    + apply sql_eq_same_key; auto.
  - intros H. destruct (existsb (superseded_by r) leads) eqn:E; auto.
    apply existsb_exists in E. destruct E as (r' & Hin & Hs).
    unfold superseded_by in Hs. apply andb_true_iff in Hs as [Hgt Hk].
    apply Z.gtb_lt in Hgt. apply sql_eq_same_key in Hk.
    specialize (H r' Hin Hk). lia.
Qed.

Lemma filter_split_length {A} (f : A -> bool) (l : list A) :
  (List.length (filter (fun x => negb (f x)) l)
   + List.length (filter f l) = List.length l)%nat.
Proof.
  induction l as [|x l IH]; simpl; auto.
  destruct (f x); simpl; lia.
Qed.

Lemma NoDup_map_eq {A B} (f : A -> B) (l : list A) (a b : A) :
  NoDup (map f l) -> In a l -> In b l -> f a = f b -> a = b.
Proof.
  induction l as [|x l IH]; simpl; [tauto|].
  intros Hnd Ha Hb E. inversion Hnd as [|? ? Hx Hl]; subst.
  destruct Ha as [->|Ha], Hb as [->|Hb]; auto.
  - exfalso; apply Hx. rewrite E. apply in_map; auto.
  - exfalso; apply Hx. rewrite <- E. apply in_map; auto.
Qed.

Lemma exists_minimum {A} (f : A -> Z) (l : list A) :
  l <> [] -> exists m, In m l /\ forall x, In x l -> f m <= f x.
Proof.
  induction l as [|a l IH]; [congruence|]. intros _.
  destruct l as [|b l].
  - exists a; split; [left; auto|]. intros x [->|[]]; lia.
  - destruct IH as (m & Hm & Hmin); [discriminate|].
    destruct (Z_le_gt_dec (f a) (f m)).
    + exists a; split; [left; auto|].
      intros x [->|Hx]; [lia|]. specialize (Hmin x Hx); lia.
    + exists m; split; [right; auto|].
      intros x [->|Hx]; [lia|]. auto.
Qed.

(** Every row is kept or has a kept row of its key with a smaller id. *)
Lemma dedupe_keeps_a_representative (leads : list processed_lead)
      (r : processed_lead) :
  In r leads ->
  exists r0, In r0 (filter (dedupe_keep leads) leads) /\
             (r0 = r \/ (same_key r r0 /\ pl_id r0 < pl_id r)).
Proof.
  intros Hin.
  destruct (dedupe_keep leads r) eqn:K.
  - exists r; split; [apply filter_In; auto | auto].
  - pose (group := filter (fun x => sql_eq (pl_username r) (pl_username x)) leads).
    assert (exists r', In r' leads /\ same_key r r' /\ pl_id r' < pl_id r)
      as (r' & Hr' & Hk & Hlt).
    { unfold dedupe_keep in K. apply negb_false_iff in K.
      apply existsb_exists in K. destruct K as (r' & Hr' & Hs).
      unfold superseded_by in Hs. apply andb_true_iff in Hs as [Hgt Hk].
      exists r'; repeat split; auto.
      - apply sql_eq_same_key; auto.
      - apply Z.gtb_lt in Hgt; lia. }
    assert (In r' group) as Hg.
    { apply filter_In; split; auto. apply sql_eq_same_key; auto. }
    destruct (exists_minimum pl_id group) as (m & Hm & Hmin).
    { intros E; rewrite E in Hg; destruct Hg. }
    apply filter_In in Hm as [Hml Hmk]. apply sql_eq_same_key in Hmk.
    exists m; split.
    + apply filter_In; split; auto. apply dedupe_keep_minimal.
      intros x Hx Hkx. apply Hmin. apply filter_In; split; auto.
      apply sql_eq_same_key. eapply same_key_trans; eauto.
    + right; split; auto. specialize (Hmin r' Hg). lia.
Qed.

(** C2.  On a store whose result records have distinct ids, [deduplicate]
    keeps, of the records that share an identity key, exactly the one with
    the least id: a record survives when and only when no record of its key
    has a smaller id, every record has a surviving record of its key that is
    itself or has a smaller id, the count it reports is the number of rows
    gone, and no two survivors share a key.  On the four records of the
    spec's example the survivors are (1, A) and (3, B) and the count is 2. *)
Theorem deduplicate_keeps_earliest_per_key
        (db : database) (s : session) (ui : list ui_event)
        (http : list http_request) :
  NoDup (map pl_id (processed_leads db)) ->
  exists kept removed,
    deduplicate (mk_world db s ui http)
    = (Rerun,
       mk_world (mk_database (csv_uploads db) kept) s
                (ui ++ [st_success (DeduplicationComplete removed)]) http)
    /\ (forall r, In r kept <->
                  In r (processed_leads db) /\
                  forall r', In r' (processed_leads db) -> same_key r r' ->
                             pl_id r <= pl_id r')
    /\ (forall r, In r (processed_leads db) ->
                  exists r0, In r0 kept /\
                             (r0 = r \/ (same_key r r0 /\ pl_id r0 < pl_id r)))
    /\ removed = Z.of_nat (List.length (processed_leads db))
                 - Z.of_nat (List.length kept)
    /\ (forall r1 r2, In r1 kept -> In r2 kept -> same_key r1 r2 -> r1 = r2)
    /\ (processed_leads db = example_leads ->
        kept = [lead 1 "A"; lead 3 "B"] /\ removed = 2).
Proof.
  intros Hnd.
  exists (filter (dedupe_keep (processed_leads db)) (processed_leads db)),
         (delete_duplicates_rowcount db).
  assert (forall r, In r (filter (dedupe_keep (processed_leads db))
                             (processed_leads db)) <->
                    In r (processed_leads db) /\
                    forall r', In r' (processed_leads db) -> same_key r r' ->
                               pl_id r <= pl_id r') as Hkept.
  { intros r. rewrite filter_In, dedupe_keep_minimal. tauto. }
  split; [reflexivity|].
  split; [exact Hkept|].
  split; [intros r; apply dedupe_keeps_a_representative|].
  split.
  { unfold delete_duplicates_rowcount.
    pose proof (filter_split_length (dedupe_keep (processed_leads db))
                                    (processed_leads db)).
    lia. }
  split.
  { intros r1 r2 H1 H2 Hk.
    apply Hkept in H1 as [In1 Min1]. apply Hkept in H2 as [In2 Min2].
    apply (NoDup_map_eq pl_id (processed_leads db)); auto.
    pose proof (Min1 r2 In2 Hk). pose proof (Min2 r1 In1 (same_key_sym _ _ Hk)).
    lia. }
  intros E. unfold delete_duplicates_rowcount. rewrite E.
  split; reflexivity.
Qed.

Lemma deduplicate_example_witness :
  NoDup (map pl_id example_leads) /\
  exists kept removed,
    deduplicate (example_world "inprogress")
    = (Rerun,
       mk_world (mk_database (csv_uploads (example_db "inprogress")) kept)
                (logged_in (Some (py "leads.csv")))
                [st_success (DeduplicationComplete removed)] [])
    /\ kept = [lead 1 "A"; lead 3 "B"] /\ removed = 2.
Proof.
  assert (NoDup (map pl_id example_leads)) as Hnd.
  { simpl. repeat constructor; simpl; intuition discriminate. }
  split; [exact Hnd|].
  destruct (deduplicate_keeps_earliest_per_key
              (example_db "inprogress") (logged_in (Some (py "leads.csv")))
              [] [] Hnd)
    as (kept & removed & Hrun & _ & _ & _ & _ & Hex).
  exists kept, removed. split; [exact Hrun|]. apply Hex. reflexivity.
Defined.

(** ** Reasoning on script runs *)

Lemma bind_unfold {A B} (m : M A) (k : A -> M B) (w : world) :
  bind m k w
  = match m w with
    | (Done a, w') => k a w'
    | (Raise e, w') => (Raise e, w')
    | (Rerun, w') => (Rerun, w')
    end.
Proof. reflexivity. Qed.

Lemma try_except_unfold {A} (body : M A) (handler : exn -> M A) (w : world) :
  try_except body handler w
  = match body w with
    | (Raise e, w') => handler e w'
    | r => r
    end.
Proof. reflexivity. Qed.

Lemma world_eta (w : world) :
  mk_world (w_db w) (w_session w) (w_ui w) (w_http w) = w.
Proof. destruct w; reflexivity. Qed.

(** What the deduplication part does, by the two buttons. *)
Lemma dedupe_section_cases (inp : widgets) (w : world) :
  dedupe_section inp w
  = if dedupe_button inp then
      let warned := mk_world (w_db w) (w_session w)
                             (w_ui w ++ [st_warning ConfirmDeduplicate])
                             (w_http w) in
      if dedupe_confirm_button inp then
        (Rerun,
         mk_world (delete_duplicates (w_db w)) (w_session w)
                  ((w_ui w ++ [st_warning ConfirmDeduplicate])
                   ++ [st_success (DeduplicationComplete
                                     (delete_duplicates_rowcount (w_db w)))])
                  (w_http w))
      else (Done tt, warned)
    else (Done tt, w).
Proof.
  unfold dedupe_section, deduplicate.
  destruct (dedupe_button inp), (dedupe_confirm_button inp); reflexivity.
Qed.

(** The upload part either leaves the database alone or inserts the uploaded
    file under a name that was not there, and then asks for a rerun. *)
Lemma upload_section_effect (env : environment) (inp : widgets) (w : world)
      (o : outcome unit) (w' : world) :
  upload_section env inp w = (o, w') ->
  w_http w' = w_http w /\
  ((o = Done tt /\ w_db w' = w_db w) \/
   (o = Rerun /\
    exists f text,
      csv_uploader inp = Some f /\ save_button inp = true /\
      select_filename_exists (uf_name f) (w_db w) = None /\
      Utf8.decode (uf_value f) = Some text /\
      w_db w' = insert_upload (uf_name f)
                              (Json.dumps_dict1 (py "csv_content") text)
                              (w_db w))).
Proof.
  unfold upload_section, load_csv, save_csv, select_filename_exists.
  unfold_monad. simpl. intros H.
  repeat (break_match; simpl in *; inv_pair; try discriminate);
    simpl; split; auto.
  right; split; auto. simpl in *.
  repeat match goal with
         | H : Some _ = Some _ |- _ => inversion H; subst; clear H
         end.
  match goal with
  | _ : csv_uploader inp = Some ?f, _ : Utf8.decode _ = Some ?t |- _ =>
    exists f, t
  end.
  match goal with H : existsb _ _ = false |- _ => rewrite H end.
  repeat split; auto.
Qed.

Lemma filter_head_find {A} (f : A -> bool) (l : list A) (r : A) (t : list A) :
  filter f l = r :: t -> find f l = Some r /\ f r = true.
Proof.
  induction l as [|x l IH]; simpl; [discriminate|].
  destruct (f x) eqn:E; auto.
  intros H; inversion H; subst; auto.
Qed.

Lemma find_filter_head {A} (f : A -> bool) (l : list A) (r : A) :
  find f l = Some r -> exists t, filter f l = r :: t.
Proof.
  induction l as [|x l IH]; simpl; [discriminate|].
  destruct (f x) eqn:E; auto.
  intros H; inversion H; subst; eauto.
Qed.

Lemma list_index_nth (x : pystr) (l : list pystr) :
  In x l -> exists i, list_index x l = Some i /\ nth_error l i = Some x.
Proof.
  induction l as [|y l IH]; simpl; [tauto|].
  intros H. destruct (str_eqb y x) eqn:E.
  - apply str_eqb_eq in E; subst. exists O; auto.
  - destruct IH as (i & Hi & Hn).
    + destruct H as [->|H]; auto. rewrite str_eqb_refl in E; discriminate.
    + exists (S i). rewrite Hi; auto.
Qed.

(** The selection part writes nothing to the database and sends nothing;
    unless it asks for a rerun, its local variables are read off the
    listing. *)
Lemma select_file_section_effect (inp : widgets) (w : world)
      (o : outcome locals) (w' : world) :
  select_file_section inp w = (o, w') ->
  w_db w' = w_db w /\ w_http w' = w_http w /\
  (o = Rerun \/ exists l, o = Done l /\ locals_from (w_db w) l).
Proof.
  unfold select_file_section. unfold_monad. simpl. intros H.
  repeat (break_match; simpl in *; inv_pair; try discriminate);
    simpl; (split; [reflexivity|]); (split; [reflexivity|]);
    try (left; reflexivity); right; eexists; (split; [reflexivity|]);
    unfold locals_from; simpl; (split; [congruence|]);
    intros id Hid; try discriminate.
  all: inversion Hid; subst; clear Hid.
  all: match goal with
       | Hs : select_files _ = _ :: _, Hf : _ = ?f0 :: _
         |- exists fn st, Some ?p = _ /\ _ =>
         exists p, (fr_status f0);
           split; [reflexivity|split; [reflexivity|]];
           unfold selected_row; rewrite Hs; simpl;
           match goal with
           | H : str_eqb (fr_filename _) p = _ |- _ => rewrite H in *
           end;
           lazymatch type of Hf with
           | _ :: _ = _ => inversion Hf; subst
           | _ => apply filter_head_find in Hf as [Hfind Hp]; rewrite Hfind
           end
       end.
  all: match goal with
       | H : str_eqb (fr_filename ?f0) _ = true |- _ =>
         apply str_eqb_eq in H; destruct f0 as [[i fn] st];
           unfold fr_id, fr_status, fr_filename in *; simpl in *; subst;
           reflexivity
       end.
Qed.

Lemma opt_str_eqb_eq (a b : option pystr) :
  opt_str_eqb a b = true <-> a = b.
Proof.
  destruct a as [x|], b as [y|]; simpl;
    try (split; [discriminate | congruence]); try tauto.
  rewrite str_eqb_eq. split; congruence.
Qed.

(** The action part changes the database only by the update of line 231:
    the button was pressed, the status read with the listing was
    [notstarted], exactly one row has the id, its stored text decodes, the
    request went out and the answer was 200. *)
Lemma process_leads_section_effect (env : environment) (inp : widgets)
      (l : locals) (w : world) (o : outcome unit) (w' : world) :
  process_leads_section env inp l w = (o, w') ->
  (o <> Rerun /\ w_db w' = w_db w /\
   (w_http w' = w_http w \/ exists rq, w_http w' = w_http w ++ [rq]))
  \/
  (o = Rerun /\
   exists id stored text data body,
     process_button inp = true /\
     selected_file_id l = Some (Some id) /\
     selected_file_status l = Some (py "notstarted") /\
     select_csv_data id (w_db w) = [stored] /\
     stored_text stored = Some text /\
     Utf8.encode text = Some data /\
     requests_post env (dispatch_request env id data) = HttpResponse 200 body /\
     w_db w' = update_status_inprogress id (w_db w) /\
     w_http w' = w_http w ++ [dispatch_request env id data]).
Proof.
  unfold process_leads_section, send_for_processing, fetch_csv_data_text,
         encode_utf8, value_truthy, stored_text, dispatch_request.
  unfold_monad. intros H.
  repeat (break_match; simpl in *; inv_pair; try discriminate).
  all: try (left; split; [discriminate|]; split; [reflexivity|];
            first [left; reflexivity | right; eexists; reflexivity]).
  right; split; [reflexivity|].
  match goal with
  | Hs : select_csv_data ?z _ = [?p], He : Utf8.encode ?s = Some ?a,
    Hr : requests_post _ _ = HttpResponse _ ?t |- _ =>
    exists z, p, s, a, t
  end.
  match goal with H : (_ =? 200) = true |- _ => apply Z.eqb_eq in H; subst end.
  match goal with H : opt_str_eqb _ _ = true |- _ => apply opt_str_eqb_eq in H end.
  match goal with H : Json.loads _ = _ |- _ => rewrite H end.
  match goal with H : Json.obj_get _ _ = _ |- _ => rewrite H end.
  repeat split; auto.
Qed.

Lemma process_captions_effect (l : locals) (w : world)
      (o : outcome unit) (w' : world) :
  process_captions l w = (o, w') ->
  o = Done tt /\ w_db w' = w_db w /\ w_http w' = w_http w /\
  w_session w' = w_session w.
Proof.
  unfold process_captions. unfold_monad. intros H.
  repeat (break_match; simpl in *; inv_pair; try discriminate); auto.
Qed.

Lemma login_section_effect (env : environment) (inp : widgets) (w : world)
      (o : outcome unit) (w' : world) :
  login_section env inp w = (o, w') ->
  w_db w' = w_db w /\ w_http w' = w_http w.
Proof.
  unfold login_section. unfold_monad. intros H.
  repeat (break_match; simpl in *; inv_pair; try discriminate); auto.
Qed.

(** The second tab either leaves the database alone or, with both buttons
    pressed, deletes the superseded result records and asks for a rerun. *)
Lemma processed_leads_tab_effect (inp : widgets) (w : world)
      (o : outcome unit) (w' : world) :
  processed_leads_tab inp w = (o, w') ->
  w_http w' = w_http w /\
  ((o = Done tt /\ w_db w' = w_db w) \/
   (o = Rerun /\ dedupe_button inp = true /\
    dedupe_confirm_button inp = true /\
    w_db w' = delete_duplicates (w_db w))).
Proof.
  unfold processed_leads_tab. rewrite bind_unfold. simpl.
  rewrite bind_unfold. simpl. rewrite bind_unfold, dedupe_section_cases.
  unfold_monad. intros H.
  repeat (break_match; simpl in *; inv_pair; try discriminate); auto.
  simpl; auto 10.
Qed.

(** Every write of a run is one of the four of [db_write], and a run sends at
    most one request. *)
Lemma main_effect (env : environment) (inp : widgets) (w : world) :
  db_write env inp (w_db w) (w_db (run env inp w)) /\
  (w_http (run env inp w) = w_http w \/
   exists rq, w_http (run env inp w) = w_http w ++ [rq]).
Proof.
  unfold run, main. rewrite bind_unfold. unfold get_session. simpl.
  destruct (ss_logged_in (w_session w)); simpl.
  2:{ destruct (login_section env inp w) as [o w'] eqn:E.
      apply login_section_effect in E as [Hd Hh]. simpl. rewrite Hd, Hh.
      split; [constructor | auto]. }
  unfold main_dashboard. rewrite !bind_unfold.
  destruct (upload_section env inp w) as [o1 w1] eqn:E1.
  apply upload_section_effect in E1
    as (Hh1 & [(-> & Hd1) | (-> & f & t & ? & ? & ? & ? & Hd1)]).
  2:{ simpl. rewrite Hd1, Hh1. split; [econstructor; eauto | auto]. }
  rewrite !bind_unfold.
  destruct (select_file_section inp w1) as [o2 w2] eqn:E2.
  apply select_file_section_effect in E2 as (Hd2 & Hh2 & [-> | (l & -> & Hl)]).
  { simpl. rewrite Hd2, Hd1, Hh2, Hh1. split; [constructor | auto]. }
  rewrite !bind_unfold.
  destruct (process_leads_section env inp l w2) as [o3 w3] eqn:E3.
  apply process_leads_section_effect in E3.
  rewrite Hh2, Hh1, Hd2, Hd1 in E3.
  destruct E3
    as [(Ho3 & Hd & Hh) | (-> & id & stored & text & data & body & E3)].
  2:{ simpl. destruct E3 as (? & Hid & Hst & ? & ? & ? & ? & Hd3 & Hh3).
      rewrite Hd3, Hh3.
      split; [|eauto].
      destruct Hl as [_ Hl].
      destruct (Hl id Hid) as (fn & st & _ & Hst' & Hrow).
      rewrite Hd1 in Hrow.
      assert (st = py "notstarted") as -> by congruence.
      eapply write_update; eauto. }
  destruct o3 as [[]|e|]; simpl;
    [| rewrite Hd; split; [constructor | auto] | congruence].
  destruct (process_captions l w3) as [o4 w4] eqn:E4.
  apply process_captions_effect in E4 as (-> & Hd4 & Hh4 & _).
  destruct (processed_leads_tab inp w4) as [o5 w5] eqn:E5.
  apply processed_leads_tab_effect in E5
    as (Hh5 & [(-> & Hd5) | (-> & ? & ? & Hd5)]); simpl.
  - rewrite Hd5, Hd4, Hd, Hh5, Hh4. split; [constructor | auto].
  - rewrite Hd5, Hd4, Hd, Hh5, Hh4. split; [constructor; auto | auto].
Qed.

(** ** Sorting *)

Lemma insert_sorted_perm {A} (leb : A -> A -> bool) (x : A) (l : list A) :
  Permutation (insert_sorted leb x l) (x :: l).
Proof.
  induction l as [|y l IH]; simpl; auto.
  destruct (leb x y); auto.
  rewrite IH. apply perm_swap.
Qed.

Lemma order_by_perm {A} (leb : A -> A -> bool) (l : list A) :
  Permutation (order_by leb l) l.
Proof.
  induction l as [|x l IH]; simpl; auto.
  rewrite insert_sorted_perm. auto.
Qed.

Lemma order_by_In {A} (leb : A -> A -> bool) (l : list A) (x : A) :
  In x (order_by leb l) <-> In x l.
Proof.
  split; apply Permutation_in;
    [apply order_by_perm | apply Permutation_sym, order_by_perm].
Qed.

Section Sorted.
Context {A : Type} (leb : A -> A -> bool).
Hypothesis leb_total : forall a b, leb a b = true \/ leb b a = true.
Hypothesis leb_trans :
  forall a b c, leb a b = true -> leb b c = true -> leb a c = true.

Lemma insert_sorted_sorted (x : A) (l : list A) :
  StronglySorted (fun a b => leb a b = true) l ->
  StronglySorted (fun a b => leb a b = true) (insert_sorted leb x l).
Proof.
  induction l as [|y l IH]; simpl; intros Hs.
  - constructor; auto.
  - inversion Hs as [|? ? Hl Hy]; subst.
    destruct (leb x y) eqn:E.
    + constructor; auto. constructor; auto.
      eapply Forall_impl; [|exact Hy]. intros a Ha; eauto.
    + constructor; auto.
      eapply Permutation_Forall;
        [apply Permutation_sym, insert_sorted_perm|].
      constructor; auto. destruct (leb_total x y); congruence.
Qed.

Lemma order_by_sorted (l : list A) :
  StronglySorted (fun a b => leb a b = true) (order_by leb l).
Proof.
  induction l as [|x l IH]; simpl.
  - constructor.
  - apply insert_sorted_sorted; auto.
Qed.

End Sorted.

Lemma str_leb_total (a b : pystr) : str_leb a b = true \/ str_leb b a = true.
Proof.
  revert b; induction a as [|x a IH]; intros [|y b]; simpl; auto.
  destruct (Z.ltb_spec x y), (Z.ltb_spec y x), (Z.eqb_spec x y),
           (Z.eqb_spec y x); simpl; auto; try lia.
Qed.

Lemma str_leb_trans (a b c : pystr) :
  str_leb a b = true -> str_leb b c = true -> str_leb a c = true.
Proof.
  revert b c; induction a as [|x a IH]; intros [|y b] [|z c]; simpl; auto;
    try discriminate.
  destruct (Z.ltb_spec x y), (Z.ltb_spec y z), (Z.ltb_spec x z),
           (Z.eqb_spec x y), (Z.eqb_spec y z), (Z.eqb_spec x z);
    simpl; auto; try lia; try discriminate.
  apply IH.
Qed.

Lemma str_leb_antisym (a b : pystr) :
  str_leb a b = true -> str_leb b a = true -> a = b.
Proof.
  revert b; induction a as [|x a IH]; intros [|y b]; simpl; auto;
    try discriminate.
  destruct (Z.ltb_spec x y), (Z.ltb_spec y x), (Z.eqb_spec x y),
           (Z.eqb_spec y x); simpl; try lia; try discriminate.
  intros; f_equal; auto.
Qed.

(** The listing holds exactly the rows of the table. *)
Lemma select_files_In (db : database) (id : Z) (fn st : pystr) :
  In (id, fn, st) (select_files db) <->
  exists r, In r (csv_uploads db) /\
            cu_id r = id /\ cu_filename r = fn /\ cu_status r = st.
Proof.
  unfold select_files. rewrite order_by_In, in_map_iff. split.
  - intros (r & E & Hr). inversion E; subst. eauto.
  - intros (r & Hr & <- & <- & <-). eauto.
Qed.

Lemma selected_row_In (db : database) (fn : pystr) (r : file_row) :
  selected_row db fn = Some r ->
  In r (select_files db) /\ fr_filename r = fn.
Proof.
  unfold selected_row. intros H. apply find_some in H as [Hin E].
  apply str_eqb_eq in E. auto.
Qed.

(** ** The status of a batch over runs *)

Lemma advanced_refl (r : csv_upload) : advanced r r.
Proof. left; reflexivity. Qed.

Lemma advanced_trans (r1 r2 r3 : csv_upload) :
  advanced r1 r2 -> advanced r2 r3 -> advanced r1 r3.
Proof.
  intros [->|[H1 ->]] [->|[H2 ->]]; unfold advanced; auto;
    simpl in H2; discriminate.
Qed.

Lemma advanced_fields (r r' : csv_upload) :
  advanced r r' ->
  cu_id r' = cu_id r /\ cu_filename r' = cu_filename r /\
  cu_csv_data r' = cu_csv_data r /\
  not_backward (cu_status r) (cu_status r') /\
  (cu_status r <> py "notstarted" -> cu_status r' = cu_status r).
Proof.
  intros [->|[H ->]]; simpl.
  - repeat split; auto. left; reflexivity.
  - repeat split; auto; [|congruence].
    right. exists 0%nat, 1%nat. rewrite H. repeat split; auto.
Qed.

Lemma Forall2_advanced_refl (l : list csv_upload) : Forall2 advanced l l.
Proof. induction l; constructor; auto using advanced_refl. Qed.

Lemma uploads_evolve_refl (l : list csv_upload) : uploads_evolve l l.
Proof.
  exists l, []. split; [symmetry; apply app_nil_r|].
  apply Forall2_advanced_refl.
Qed.

Lemma Forall2_advanced_trans (l1 l2 l3 : list csv_upload) :
  Forall2 advanced l1 l2 -> Forall2 advanced l2 l3 -> Forall2 advanced l1 l3.
Proof.
  intros H; revert l3; induction H; intros l3 H3; inversion H3; subst;
    constructor; eauto using advanced_trans.
Qed.

Lemma uploads_evolve_trans (l l' l'' : list csv_upload) :
  uploads_evolve l l' -> uploads_evolve l' l'' -> uploads_evolve l l''.
Proof.
  intros (l1 & l2 & -> & H1) (m1 & m2 & -> & H2).
  apply Forall2_app_inv_l in H2 as (m1a & m1b & Ha & Hb & ->).
  exists m1a, (m1b ++ m2). split; [symmetry; apply app_assoc|].
  eapply Forall2_advanced_trans; eauto.
Qed.

(** When the fetch of line 207 finds one row, the rows of that id are one. *)
Lemma single_row_of_id (db : database) (id : Z) (stored : pystr)
      (r1 r2 : csv_upload) :
  select_csv_data id db = [stored] ->
  In r1 (csv_uploads db) -> In r2 (csv_uploads db) ->
  cu_id r1 = id -> cu_id r2 = id -> r1 = r2.
Proof.
  unfold select_csv_data. intros H H1 H2 E1 E2.
  assert (In r1 (filter (fun r => cu_id r =? id) (csv_uploads db))) as F1
    by (apply filter_In; split; auto; apply Z.eqb_eq; auto).
  assert (In r2 (filter (fun r => cu_id r =? id) (csv_uploads db))) as F2
    by (apply filter_In; split; auto; apply Z.eqb_eq; auto).
  destruct (filter (fun r => cu_id r =? id) (csv_uploads db)) as [|x [|y t]];
    simpl in *; try discriminate.
  intuition congruence.
Qed.

(** Each write of a run keeps the old rows in place and moves a status only
    from [notstarted] to [inprogress]. *)
Lemma db_write_evolve (env : environment) (inp : widgets) (db db' : database) :
  db_write env inp db db' ->
  uploads_evolve (csv_uploads db) (csv_uploads db').
Proof.
  intros [ | f text _ _ _ _ | id fn stored text data body _ Hrow Hone _ _ _ | _ _].
  - apply uploads_evolve_refl.
  - simpl. eexists _, _. split; [reflexivity|].
    apply Forall2_advanced_refl.
  - simpl. eexists _, []. split; [symmetry; apply app_nil_r|].
    apply selected_row_In in Hrow as [Hin _].
    apply select_files_In in Hin as (r0 & Hr0 & Hid0 & _ & Hst0).
    assert (forall r, In r (csv_uploads db) -> cu_id r = id ->
                      cu_status r = py "notstarted") as Hns.
    { intros r Hr Hid.
      rewrite (single_row_of_id db id stored r r0); auto. }
    clear Hr0. induction (csv_uploads db) as [|r l IH]; simpl; constructor.
    + destruct (Z.eqb_spec (cu_id r) id) as [E|E].
      * right. split; auto. apply Hns; simpl; auto.
      * left; reflexivity.
    + apply IH. intros r' Hr'. apply Hns; simpl; auto.
  - simpl. apply uploads_evolve_refl.
Qed.

Lemma runs_evolve (steps : list (environment * widgets)) (w : world) :
  uploads_evolve (csv_uploads (w_db w)) (csv_uploads (w_db (runs steps w))).
Proof.
  revert w; induction steps as [|[env inp] steps IH]; intros w; simpl.
  - apply uploads_evolve_refl.
  - eapply uploads_evolve_trans; [|apply IH].
    eapply db_write_evolve. apply main_effect.
Qed.

(** Over any sequence of script runs, whatever the widget values and the
    answers of the endpoint, a batch stays at its place in the table with
    its id, file name and payload, and its status is the one it had or a
    later one of the lifecycle.  Each run lists and updates the same store:
    nothing else writes between line 141 and line 231. *)
Lemma runs_keep_the_lifecycle
        (steps : list (environment * widgets)) (w : world)
        (n : nat) (r : csv_upload) :
  nth_error (csv_uploads (w_db w)) n = Some r ->
  exists r',
    nth_error (csv_uploads (w_db (runs steps w))) n = Some r' /\
    cu_id r' = cu_id r /\ cu_filename r' = cu_filename r /\
    cu_csv_data r' = cu_csv_data r /\
    not_backward (cu_status r) (cu_status r') /\
    (cu_status r = py "complete" -> cu_status r' = py "complete") /\
    (cu_status r = py "inprogress" -> cu_status r' = py "inprogress").
Proof.
  intros Hn.
  destruct (runs_evolve steps w) as (l1 & l2 & E & H).
  rewrite E. clear E.
  assert (exists r', nth_error l1 n = Some r' /\ advanced r r')
    as (r' & Hn' & Hadv).
  { revert n Hn. induction H as [|a b l l' Hab H IH]; intros [|n] Hn;
      simpl in *; try discriminate.
    - inversion Hn; subst. eauto.
    - apply IH; auto. }
  exists r'. split.
  - rewrite nth_error_app1; auto. apply nth_error_Some. congruence.
  - apply advanced_fields in Hadv as (? & ? & ? & ? & Hkeep).
    repeat split; auto.
    + intros Hc. rewrite Hkeep; auto. rewrite Hc. discriminate.
    + intros Hc. rewrite Hkeep; auto. rewrite Hc. discriminate.
Qed.

(** ** Registration *)

Lemma select_filename_exists_In (fn : pystr) (db : database) :
  (select_filename_exists fn db = Some 1 /\ In fn (filenames db)) \/
  (select_filename_exists fn db = None /\ ~ In fn (filenames db)).
Proof.
  unfold select_filename_exists, filenames.
  destruct (existsb (fun r => str_eqb (cu_filename r) fn) (csv_uploads db))
           eqn:E.
  - left; split; auto. apply existsb_exists in E as (r & Hr & Hf).
    apply str_eqb_eq in Hf; subst. apply in_map; auto.
  - right; split; auto. intros Hin. apply in_map_iff in Hin as (r & <- & Hr).
    assert (existsb (fun r0 => str_eqb (cu_filename r0) (cu_filename r))
                    (csv_uploads db) = true) as C; [|congruence].
    apply existsb_exists. exists r; split; auto using str_eqb_refl.
Qed.

Lemma filenames_update (id : Z) (db : database) :
  filenames (update_status_inprogress id db) = filenames db.
Proof.
  unfold filenames, update_status_inprogress. simpl. rewrite map_map.
  apply map_ext. intros r. destruct (cu_id r =? id); reflexivity.
Qed.

(** Each write of a run keeps the file names distinct. *)
Lemma db_write_filenames (env : environment) (inp : widgets)
      (db db' : database) :
  db_write env inp db db' -> NoDup (filenames db) -> NoDup (filenames db').
Proof.
  intros [ | f text _ _ Hnew _ | id fn stored text data body _ _ _ _ _ _ | _ _]
         Hnd; auto.
  - unfold filenames, insert_upload; simpl. rewrite map_app; simpl.
    destruct (select_filename_exists_In (uf_name f) db) as [[C _]|[_ Hnot]];
      [congruence|].
    apply NoDup_rev in Hnd. rewrite <- (rev_involutive (_ ++ _)).
    apply NoDup_rev. rewrite rev_app_distr; simpl.
    constructor; auto. rewrite <- in_rev. exact Hnot.
  - rewrite filenames_update; auto.
Qed.

Lemma runs_filenames (steps : list (environment * widgets)) (w : world) :
  NoDup (filenames (w_db w)) -> NoDup (filenames (w_db (runs steps w))).
Proof.
  revert w; induction steps as [|[env inp] steps IH]; intros w H; simpl; auto.
  apply IH. eapply db_write_filenames; [apply main_effect | exact H].
Qed.

(** C5.  The registration of an uploaded file (lines 99-124) shows the
    duplicate-name error and inserts nothing when a batch of that file name
    exists; otherwise it appends one batch of that name, with the payload as
    JSON and the status [notstarted] (or, when the bytes are not UTF-8,
    raises and inserts nothing).  Hence over any sequence of script runs the
    file names of the batches stay distinct. *)
Theorem register_keeps_filenames_distinct
        (file : uploaded_file) (w : world)
        (steps : list (environment * widgets)) :
  (In (uf_name file) (filenames (w_db w)) ->
   save_csv file w
   = (Done tt,
      mk_world (w_db w) (w_session w)
               (w_ui w ++ [st_error (DuplicateFilename (uf_name file))])
               (w_http w)))
  /\
  (~ In (uf_name file) (filenames (w_db w)) ->
   match Utf8.decode (uf_value file) with
   | Some text =>
     save_csv file w
     = (Rerun,
        mk_world
          (mk_database
             (csv_uploads (w_db w)
              ++ [mk_csv_upload (next_upload_id (w_db w)) (uf_name file)
                                (Json.dumps_dict1 (py "csv_content") text)
                                (py "notstarted")])
             (processed_leads (w_db w)))
          (mk_session (ss_logged_in (w_session w))
                      (ss_selected_filename (w_session w)) None)
          (w_ui w ++ [st_success (SavedSuccessfully (uf_name file))])
          (w_http w))
   | None => save_csv file w = (Raise UnicodeDecodeError, w)
   end)
  /\
  (NoDup (filenames (w_db w)) -> NoDup (filenames (w_db (runs steps w)))).
Proof.
  split; [|split].
  - intros Hin. unfold save_csv. unfold_monad. simpl.
    destruct (select_filename_exists_In (uf_name file) (w_db w))
      as [[-> _]|[_ C]]; [reflexivity | contradiction].
  - intros Hnot. unfold save_csv. unfold_monad. simpl.
    destruct (select_filename_exists_In (uf_name file) (w_db w))
      as [[_ C]|[-> _]]; [contradiction|]. simpl.
    destruct (Utf8.decode (uf_value file)); reflexivity.
  - apply runs_filenames.
Qed.

Lemma register_keeps_filenames_distinct_witness :
  ~ In (uf_name leads_csv) (filenames (w_db empty_world)) /\
  In (uf_name leads_csv_again)
     (filenames (w_db (run (example_env (HttpResponse 200 []))
                           (press_save leads_csv) empty_world))) /\
  NoDup (filenames (w_db empty_world)) /\
  filenames (w_db (runs example_registrations empty_world)) = [py "leads.csv"] /\
  NoDup (filenames (w_db (runs example_registrations empty_world))).
Proof.
  split; [simpl; tauto|].
  split; [vm_compute; auto|].
  assert (NoDup (filenames (w_db empty_world))) as H by constructor.
  split; [exact H|].
  split; [vm_compute; reflexivity|].
  exact (proj2 (proj2 (register_keeps_filenames_distinct
                         leads_csv empty_world example_registrations)) H).
Defined.

(** ** The confirmation of the deduplication *)

Lemma db_write_leads (env : environment) (inp : widgets) (db db' : database) :
  db_write env inp db db' ->
  processed_leads db' = processed_leads db \/
  (dedupe_button inp = true /\ dedupe_confirm_button inp = true /\
   db' = delete_duplicates db).
Proof.
  intros [ | f text _ _ _ _ | id fn stored text data body _ _ _ _ _ _ | ? ?];
    auto.
Qed.

(** C3.  The deduplication asked for without the confirmation ends with the
    warning that asks for it and deletes nothing; asked for with the
    confirmation it runs the deletion; and no script run in which the
    confirmation is not given changes the result records. *)
Theorem deduplication_needs_confirmation
        (env : environment) (inp : widgets) (w : world) :
  (dedupe_button inp = true -> dedupe_confirm_button inp = false ->
   dedupe_section inp w
   = (Done tt,
      mk_world (w_db w) (w_session w)
               (w_ui w ++ [st_warning ConfirmDeduplicate]) (w_http w)))
  /\
  (dedupe_button inp = true -> dedupe_confirm_button inp = true ->
   dedupe_section inp w
   = (Rerun,
      mk_world (delete_duplicates (w_db w)) (w_session w)
               ((w_ui w ++ [st_warning ConfirmDeduplicate])
                ++ [st_success (DeduplicationComplete
                                  (delete_duplicates_rowcount (w_db w)))])
               (w_http w)))
  /\
  (dedupe_confirm_button inp = false ->
   processed_leads (w_db (run env inp w)) = processed_leads (w_db w)).
Proof.
  split; [|split].
  - intros H1 H2. rewrite dedupe_section_cases, H1, H2. reflexivity.
  - intros H1 H2. rewrite dedupe_section_cases, H1, H2. reflexivity.
  - intros H.
    destruct (db_write_leads env inp _ _ (proj1 (main_effect env inp w)))
      as [E|(_ & C & _)]; [exact E | congruence].
Qed.

Lemma deduplication_needs_confirmation_witness :
  dedupe_button (press_dedupe false) = true /\
  dedupe_confirm_button (press_dedupe false) = false /\
  dedupe_section (press_dedupe false) (example_world "complete")
  = (Done tt,
     mk_world (example_db "complete") (logged_in (Some (py "leads.csv")))
              [st_warning ConfirmDeduplicate] []) /\
  processed_leads
    (w_db (run (example_env (HttpResponse 200 [])) (press_dedupe false)
               (example_world "complete")))
  = example_leads.
Proof.
  split; [reflexivity|]. split; [reflexivity|].
  pose proof (deduplication_needs_confirmation
                (example_env (HttpResponse 200 [])) (press_dedupe false)
                (example_world "complete")) as (H1 & _ & H3).
  split; [exact (H1 eq_refl eq_refl) | exact (H3 eq_refl)].
Defined.

(** ** The status update of dispatch *)

Lemma update_status_inprogress_nth (id : Z) (db : database) (n : nat) :
  nth_error (csv_uploads (update_status_inprogress id db)) n
  = option_map (fun r => if cu_id r =? id
                         then set_status (py "inprogress") r else r)
               (nth_error (csv_uploads db) n).
Proof.
  unfold update_status_inprogress; simpl. apply nth_error_map.
Qed.

(** C1, as the code has it.  The update of line 231 is keyed by the id
    alone: a row of that id gets the status [inprogress] whatever status it
    had, every other row and the result records are left as they were.  The
    test on [notstarted] is made before, on the status read with the
    listing: the action part writes to the database only when that status
    was [notstarted]. *)
Theorem update_is_keyed_by_id_only
        (id : Z) (db : database) (env : environment) (inp : widgets)
        (l : locals) (w : world) :
  processed_leads (update_status_inprogress id db) = processed_leads db /\
  (forall n r,
     nth_error (csv_uploads db) n = Some r ->
     nth_error (csv_uploads (update_status_inprogress id db)) n
     = Some (if cu_id r =? id then set_status (py "inprogress") r else r)) /\
  List.length (csv_uploads (update_status_inprogress id db))
  = List.length (csv_uploads db) /\
  (w_db (snd (process_leads_section env inp l w)) <> w_db w ->
   selected_file_status l = Some (py "notstarted") /\
   exists i, selected_file_id l = Some (Some i) /\
             w_db (snd (process_leads_section env inp l w))
             = update_status_inprogress i (w_db w)).
Proof.
  split; [reflexivity|]. split; [|split].
  - intros n r H. rewrite update_status_inprogress_nth, H. reflexivity.
  - unfold update_status_inprogress; simpl. apply length_map.
  - destruct (process_leads_section env inp l w) as [o w'] eqn:E. simpl.
    apply process_leads_section_effect in E
      as [(_ & Hd & _) | (_ & i & st & t & d & b & _ & Hi & Hs & _ & _ & _ & _ & Hd & _)].
    + congruence.
    + intros _. split; [exact Hs|]. exists i. auto.
Qed.

Lemma update_is_keyed_by_id_only_witness :
  nth_error (csv_uploads (example_db "complete")) 0
  = Some (mk_csv_upload 1 (py "leads.csv") leads_json (py "complete")) /\
  nth_error (csv_uploads (update_status_inprogress 1 (example_db "complete"))) 0
  = Some (mk_csv_upload 1 (py "leads.csv") leads_json (py "inprogress")) /\
  w_db (snd (process_leads_section (example_env (HttpResponse 200 []))
                                   press_process listed_notstarted
                                   (example_world "notstarted")))
  <> w_db (example_world "notstarted") /\
  selected_file_status listed_notstarted = Some (py "notstarted").
Proof.
  pose proof (update_is_keyed_by_id_only
                1 (example_db "complete") (example_env (HttpResponse 200 []))
                press_process listed_notstarted (example_world "notstarted"))
    as (_ & Hn & _ & Hw).
  assert (w_db (snd (process_leads_section (example_env (HttpResponse 200 []))
                                           press_process listed_notstarted
                                           (example_world "notstarted")))
          <> w_db (example_world "notstarted")) as Hne.
  { vm_compute. discriminate. }
  split; [reflexivity|].
  split; [exact (Hn 0%nat _ eq_refl)|].
  split; [exact Hne | exact (proj1 (Hw Hne))].
Defined.

(** C1, as the spec states it, fails: the batch of the example is
    [complete] when the update runs, and the update makes it [inprogress];
    the action part, which had read [notstarted] with an earlier listing,
    reports success. *)
Lemma update_ignores_current_status_counterexample :
  map cu_status (csv_uploads (example_db "complete")) = [py "complete"] /\
  map cu_status (csv_uploads (update_status_inprogress 1 (example_db "complete")))
  = [py "inprogress"] /\
  process_leads_section (example_env (HttpResponse 200 [])) press_process
                        listed_notstarted (example_world "complete")
  = (Rerun,
     mk_world (example_db "inprogress") (logged_in (Some (py "leads.csv")))
              [st_success (SentForProcessing (Some (py "leads.csv")) 1)]
              [example_request]).
Proof.
  split; [reflexivity|]. split; reflexivity.
Qed.

(** ** The lifecycle of a batch *)

(** C7, as the code has it.  Over script runs that list and update the same
    store, a batch keeps its place, id, file name and payload, and its
    status never moves backward: [complete] and [inprogress] never revert.
    The action part by itself gives less.  It leaves a row as it was or
    sets it to [inprogress], and sets it only for the id and the status
    [notstarted] that the listing of line 141 left in the local variables;
    the update of line 231 does not read the status again.  So a status
    moves backward exactly through a listing that is out of date: the local
    variables say [notstarted] while the row holds another status. *)
Theorem status_backward_only_after_stale_listing :
  (forall (steps : list (environment * widgets)) (w : world)
          (n : nat) (r : csv_upload),
     nth_error (csv_uploads (w_db w)) n = Some r ->
     exists r',
       nth_error (csv_uploads (w_db (runs steps w))) n = Some r' /\
       cu_id r' = cu_id r /\ cu_filename r' = cu_filename r /\
       cu_csv_data r' = cu_csv_data r /\
       not_backward (cu_status r) (cu_status r') /\
       (cu_status r = py "complete" -> cu_status r' = py "complete") /\
       (cu_status r = py "inprogress" -> cu_status r' = py "inprogress")) /\
  (forall (env : environment) (inp : widgets) (l : locals) (w : world)
          (n : nat) (r : csv_upload),
     nth_error (csv_uploads (w_db w)) n = Some r ->
     exists r',
       nth_error
         (csv_uploads (w_db (snd (process_leads_section env inp l w)))) n
       = Some r' /\
       (r' = r \/
        (r' = set_status (py "inprogress") r /\
         process_button inp = true /\
         selected_file_id l = Some (Some (cu_id r)) /\
         selected_file_status l = Some (py "notstarted"))) /\
       (~ not_backward (cu_status r) (cu_status r') ->
        r' = set_status (py "inprogress") r /\
        selected_file_status l = Some (py "notstarted") /\
        cu_status r <> py "notstarted")).
Proof.
  split; [intros steps w n r; apply runs_keep_the_lifecycle|].
  intros env inp l w n r Hn.
  destruct (process_leads_section env inp l w) as [o w'] eqn:E. cbn [snd].
  apply process_leads_section_effect in E
    as [(_ & Hd & _)
       | (_ & i & stored & text & data & body & Hb & Hi & Hs & _ & _ & _ & _
          & Hd & _)].
  - exists r. rewrite Hd. split; [exact Hn|].
    split; [left; reflexivity|].
    intros C. exfalso. apply C. left. reflexivity.
  - rewrite Hd, update_status_inprogress_nth, Hn. cbn [option_map].
    destruct (Z.eqb_spec (cu_id r) i) as [Ei|Ei].
    + exists (set_status (py "inprogress") r). split; [reflexivity|].
      split.
      * right. subst i. auto.
      * intros C. split; [reflexivity|]. split; [exact Hs|].
        intros Hns. apply C. right. exists 0%nat, 1%nat.
        cbn [set_status cu_status]. rewrite Hns.
        split; [reflexivity|]. split; [reflexivity|]. lia.
    + exists r. split; [reflexivity|]. split; [left; reflexivity|].
      intros C. exfalso. apply C. left. reflexivity.
Qed.

Lemma status_backward_only_after_stale_listing_witness :
  nth_error (csv_uploads (w_db (example_world "notstarted"))) 0
  = Some (mk_csv_upload 1 (py "leads.csv") leads_json (py "notstarted")) /\
  exists r',
    nth_error (csv_uploads (w_db (runs example_steps
                                       (example_world "notstarted")))) 0
    = Some r' /\
    not_backward (py "notstarted") (cu_status r').
Proof.
  split; [reflexivity|].
  destruct (proj1 status_backward_only_after_stale_listing
                  example_steps (example_world "notstarted") 0%nat
                  (mk_csv_upload 1 (py "leads.csv") leads_json
                                 (py "notstarted"))
                  eq_refl)
    as (r' & Hn & _ & _ & _ & Hnb & _).
  exists r'. split; [exact Hn | exact Hnb].
Defined.

(** C7, as the spec states it, fails.  A run lists the example batch as
    [notstarted]; the external service marks it [complete]; the action part
    of that run, entered with what the listing left, is answered with 200
    and sets the batch back to [inprogress], two steps down to one in the
    lifecycle. *)
Lemma dispatch_after_stale_listing_counterexample :
  fst (select_file_section press_process (example_world "notstarted"))
  = Done listed_notstarted /\
  map cu_status
      (csv_uploads
         (w_db (completed_meanwhile
                  (snd (select_file_section press_process
                                            (example_world "notstarted"))))))
  = [py "complete"] /\
  map cu_status
      (csv_uploads
         (w_db (snd (process_leads_section
                       (example_env (HttpResponse 200 [])) press_process
                       listed_notstarted
                       (completed_meanwhile
                          (snd (select_file_section
                                  press_process
                                  (example_world "notstarted"))))))))
  = [py "inprogress"] /\
  status_rank (py "complete") = Some 2%nat /\
  status_rank (py "inprogress") = Some 1%nat /\
  ~ not_backward (py "complete") (py "inprogress").
Proof.
  split; [reflexivity|]. split; [reflexivity|]. split; [reflexivity|].
  split; [reflexivity|]. split; [reflexivity|].
  intros [C | (a & b & Ha & Hb & Hlt)].
  - discriminate C.
  - vm_compute in Ha. vm_compute in Hb.
    injection Ha as <-. injection Hb as <-. lia.
Qed.

(** ** Dispatch *)

Lemma stored_text_nonempty (stored text : pystr) :
  stored_text stored = Some text -> str_truthy stored = true.
Proof. destruct stored; [discriminate | reflexivity]. Qed.

(** The fetch of lines 206-218 on the one row of the batch. *)
Lemma fetch_csv_data_text_stored (id : Z) (w : world) (stored text : pystr) :
  select_csv_data id (w_db w) = [stored] ->
  stored_text stored = Some text ->
  fetch_csv_data_text id w = (Done (Some (Json.Str text)), w).
Proof.
  intros Hrow Hst. pose proof (stored_text_nonempty _ _ Hst) as Hne.
  unfold fetch_csv_data_text. unfold_monad. rewrite Hrow. simpl.
  rewrite Hne. unfold stored_text in Hst.
  destruct (Json.loads stored) as [[| | | | | | |l|pairs]|]; try discriminate.
  destruct (Json.obj_get (py "csv_content") pairs) as [[| | | | | |s| |]|];
    try discriminate.
  inversion Hst; subst. reflexivity.
Qed.

(** The action part on a [notstarted] batch whose stored text decodes to a
    text that is not empty: the request goes out, and what follows depends
    on the answer alone. *)
Lemma process_leads_section_dispatch
      (env : environment) (inp : widgets) (l : locals) (w : world)
      (id : Z) (stored text : pystr) (data : pybytes) :
  process_button inp = true ->
  selected_file_id l = Some (Some id) ->
  selected_file_status l = Some (py "notstarted") ->
  select_csv_data id (w_db w) = [stored] ->
  stored_text stored = Some text ->
  text <> [] ->
  Utf8.encode text = Some data ->
  process_leads_section env inp l w
  = let sent := w_http w ++ [dispatch_request env id data] in
    match requests_post env (dispatch_request env id data) with
    | HttpResponse code body =>
      if code =? 200 then
        (Rerun,
         mk_world (update_status_inprogress id (w_db w)) (w_session w)
                  (w_ui w ++ [st_success
                                (SentForProcessing (selected_filename l) id)])
                  sent)
      else (Done tt, mk_world (w_db w) (w_session w) (w_ui w) sent)
    | HttpRaises e =>
      (Done tt,
       mk_world (w_db w) (w_session w)
                (w_ui w ++ [st_error (ErrorProcessing (selected_filename l) e)])
                sent)
    end.
Proof.
  intros Hb Hid Hst Hrow Htext Hne Henc.
  unfold process_leads_section. rewrite Hb, Hid, Hst. simpl.
  rewrite bind_unfold. simpl. rewrite try_except_unfold.
  unfold send_for_processing. rewrite bind_unfold.
  rewrite (fetch_csv_data_text_stored id w stored text Hrow Htext).
  assert (str_truthy text = true) as Htr
    by (destruct text; [congruence | reflexivity]).
  simpl. rewrite Htr.
  rewrite bind_unfold. unfold encode_utf8. rewrite Henc.
  unfold ret at 1. rewrite bind_unfold. unfold post, dispatch_request.
  destruct (requests_post env _) as [code body|e]; simpl; auto.
  destruct (code =? 200); reflexivity.
Qed.

(** The action part on a batch whose status, as listed, is not
    [notstarted]: the warning of line 241, no request, no write. *)
Lemma process_leads_section_refused
      (env : environment) (inp : widgets) (l : locals) (w : world) (id : Z) :
  process_button inp = true ->
  selected_file_id l = Some (Some id) ->
  selected_file_status l <> Some (py "notstarted") ->
  process_leads_section env inp l w
  = (Done tt,
     mk_world (w_db w) (w_session w)
              (w_ui w ++ [st_warning (CannotProcessFile (selected_filename l)
                                                        (selected_file_status l))])
              (w_http w)).
Proof.
  intros Hb Hid Hst.
  unfold process_leads_section. rewrite Hb, Hid. simpl.
  destruct (opt_str_eqb (selected_file_status l) (Some (py "notstarted")))
           eqn:E; [apply opt_str_eqb_eq in E; contradiction|].
  reflexivity.
Qed.

(** The action part on an id that no row has: the error of line 218, then
    the error of line 239 for the unbound [response]; no request, no
    write. *)
Lemma process_leads_section_absent
      (env : environment) (inp : widgets) (l : locals) (w : world) (id : Z) :
  process_button inp = true ->
  selected_file_id l = Some (Some id) ->
  selected_file_status l = Some (py "notstarted") ->
  select_csv_data id (w_db w) = [] ->
  process_leads_section env inp l w
  = (Done tt,
     mk_world (w_db w) (w_session w)
              (w_ui w ++ [st_error (CouldNotFindCsvData id);
                          st_error (ErrorProcessing
                                      (selected_filename l)
                                      (UnboundLocalError "response"))])
              (w_http w)).
Proof.
  intros Hb Hid Hst Hrow.
  unfold process_leads_section. rewrite Hb, Hid, Hst. simpl.
  rewrite bind_unfold. simpl. rewrite try_except_unfold.
  unfold send_for_processing, fetch_csv_data_text. unfold_monad.
  rewrite Hrow. simpl. rewrite <- app_assoc. reflexivity.
Qed.

Lemma upload_section_no_file (env : environment) (inp : widgets) (w : world) :
  csv_uploader inp = None ->
  upload_section env inp w
  = (Done tt,
     mk_world (w_db w)
              (mk_session (ss_logged_in (w_session w))
                          (ss_selected_filename (w_session w)) None)
              (w_ui w) (w_http w)).
Proof.
  intros H. unfold upload_section, load_csv. rewrite H. reflexivity.
Qed.

(** The selection part when the session has a file name selected that the
    listing holds and the user chooses no other: the row picked for that
    name gives the id and the status. *)
Lemma select_file_section_selected
      (inp : widgets) (w : world) (fn : pystr) (r : file_row) :
  file_selector inp = None ->
  ss_selected_filename (w_session w) = Some fn ->
  fn <> [] ->
  selected_row (w_db w) fn = Some r ->
  exists shown,
    select_file_section inp w
    = (Done (mk_locals (Some (select_files (w_db w))) (Some fn)
                       (Some (fr_status r))
                       (negb (str_eqb (fr_status r) (py "notstarted")))
                       (Some (Some (fr_id r)))),
       mk_world (w_db w) (w_session w) (w_ui w ++ shown) (w_http w)).
Proof.
  intros Hsel Hs Hne Hrow.
  pose proof (selected_row_In _ _ _ Hrow) as [Hin Hfn].
  assert (In fn (map fr_filename (select_files (w_db w)))) as Hfns.
  { rewrite <- Hfn. apply in_map; auto. }
  destruct (list_index_nth _ _ Hfns) as (i & Hi & Hnth).
  unfold selected_row in Hrow.
  destruct (find_filter_head _ _ _ Hrow) as (t & Hfilter).
  unfold select_file_section. unfold_monad. simpl.
  destruct (select_files (w_db w)) as [|r0 rows] eqn:Hfiles; [destruct Hin|].
  assert (str_truthy fn = true) as Htr
    by (destruct fn; [congruence | reflexivity]).
  remember (r0 :: rows) as df eqn:Hdf.
  rewrite Hs. unfold opt_str_in.
  rewrite (proj2 (str_in_In fn _) Hfns). simpl.
  rewrite Hs. simpl. rewrite Htr, Hi, Hsel. unfold selectbox_value.
  rewrite Hnth. simpl. rewrite str_eqb_refl. simpl.
  rewrite Hfilter. simpl.
  rewrite <- app_assoc. simpl. eexists. reflexivity.
Qed.

(** What follows the action part when the deduplication is not asked for:
    captions, the count and the listing of the result records; nothing
    written, nothing sent. *)
Lemma after_action_effect (inp : widgets) (l : locals) (w : world) :
  dedupe_button inp = false ->
  exists shown,
    (process_captions l ;; processed_leads_tab inp) w
    = (Done tt,
       mk_world (w_db w) (w_session w) (w_ui w ++ shown) (w_http w)).
Proof.
  intros Hd. unfold process_captions, processed_leads_tab, dedupe_section.
  rewrite Hd. unfold_monad. simpl.
  repeat (break_match; simpl in *; inv_pair; try discriminate);
    rewrite <- ?app_assoc; eexists; reflexivity.
Qed.

(** A run in which only "Process Leads" is pressed, on a session that is
    logged in with a listed file name selected: the action part runs on the
    row picked for that name, and unless it asks for a rerun the captions
    and the second tab follow. *)
Lemma main_press_process (env : environment) (w : world) (fn : pystr)
      (r : file_row) :
  ss_logged_in (w_session w) = true ->
  ss_selected_filename (w_session w) = Some fn ->
  fn <> [] ->
  selected_row (w_db w) fn = Some r ->
  exists shown,
    let l := mk_locals (Some (select_files (w_db w))) (Some fn)
                       (Some (fr_status r))
                       (negb (str_eqb (fr_status r) (py "notstarted")))
                       (Some (Some (fr_id r))) in
    let w2 := mk_world (w_db w)
                       (mk_session true (Some fn) None)
                       (w_ui w ++ shown) (w_http w) in
    main env press_process w
    = match process_leads_section env press_process l w2 with
      | (Done _, w3) =>
        (process_captions l ;; processed_leads_tab press_process) w3
      | (Raise e, w3) => (Raise e, w3)
      | (Rerun, w3) => (Rerun, w3)
      end.
Proof.
  intros Hlog Hsel Hne Hrow.
  set (w1 := mk_world (w_db w) (mk_session true (Some fn) None)
                      (w_ui w) (w_http w)).
  destruct (select_file_section_selected press_process w1 fn r)
    as (shown & Hselect); auto.
  exists shown. simpl.
  unfold main. rewrite bind_unfold. unfold get_session. simpl.
  rewrite Hlog. simpl. unfold main_dashboard. rewrite !bind_unfold.
  rewrite upload_section_no_file by reflexivity.
  rewrite Hlog, Hsel. fold w1. rewrite !bind_unfold. rewrite Hselect. simpl.
  rewrite !bind_unfold.
  destruct (process_leads_section env press_process _ _) as [[[]|e|] w3];
    reflexivity.
Qed.

Lemma insert_sorted_map {A B} (g : A -> B) (leb : A -> A -> bool)
      (leb' : B -> B -> bool) (x : A) (l : list A) :
  (forall a b, leb' (g a) (g b) = leb a b) ->
  insert_sorted leb' (g x) (map g l) = map g (insert_sorted leb x l).
Proof.
  intros H. induction l as [|y l IH]; simpl; auto.
  rewrite H. destruct (leb x y); simpl; congruence.
Qed.

Lemma order_by_map {A B} (g : A -> B) (leb : A -> A -> bool)
      (leb' : B -> B -> bool) (l : list A) :
  (forall a b, leb' (g a) (g b) = leb a b) ->
  order_by leb' (map g l) = map g (order_by leb l).
Proof.
  intros H. induction l as [|x l IH]; simpl; auto.
  rewrite IH. apply insert_sorted_map; auto.
Qed.

(** The listing after the update of line 231: the same rows in the same
    order, [inprogress] on those of the id. *)
Lemma select_files_update (id : Z) (db : database) :
  select_files (update_status_inprogress id db)
  = map (fun r => if fr_id r =? id
                  then (fr_id r, fr_filename r, py "inprogress") else r)
        (select_files db).
Proof.
  unfold select_files, update_status_inprogress. simpl.
  rewrite map_map.
  rewrite <- (order_by_map
                (fun r : file_row =>
                   if fr_id r =? id
                   then (fr_id r, fr_filename r, py "inprogress") else r)
                (fun a b => str_leb (fr_filename a) (fr_filename b))
                (fun a b => str_leb (fr_filename a) (fr_filename b))).
  - rewrite map_map. f_equal. apply map_ext. intros r.
    unfold fr_id, fr_filename; simpl. destruct (cu_id r =? id); reflexivity.
  - intros [[i f] s] [[i' f'] s']. unfold fr_id, fr_filename; simpl.
    destruct (i =? id), (i' =? id); reflexivity.
Qed.

Lemma selected_row_update (id : Z) (db : database) (fn st : pystr) :
  selected_row db fn = Some (id, fn, st) ->
  selected_row (update_status_inprogress id db) fn
  = Some (id, fn, py "inprogress").
Proof.
  unfold selected_row. rewrite select_files_update.
  induction (select_files db) as [|[[i f] s] l IH]; simpl; [discriminate|].
  unfold fr_id, fr_filename; simpl.
  destruct (i =? id) eqn:Ei; simpl; unfold fr_filename; simpl;
    destruct (str_eqb f fn) eqn:Ef; auto.
  - intros H; inversion H; subst. reflexivity.
  - intros H; inversion H; subst. rewrite Z.eqb_refl in Ei. discriminate.
Qed.

(** C8.  A run in which "Process Leads" is pressed on a listed [notstarted]
    batch whose stored payload decodes to a text that is not empty, and to
    which the endpoint answers 200, sends that one request, sets the status
    of the batch to [inprogress], shows the success message and asks for a
    rerun.  A second press on the same batch, whatever the endpoint would
    answer, ends with the warning of line 241: no request is added and the
    database is left as it was. *)
Theorem dispatch_success_sets_inprogress_once
        (env : environment) (w : world) (fn : pystr) (id : Z)
        (stored text : pystr) (data : pybytes) (body : pystr) :
  ss_logged_in (w_session w) = true ->
  ss_selected_filename (w_session w) = Some fn ->
  fn <> [] ->
  selected_row (w_db w) fn = Some (id, fn, py "notstarted") ->
  select_csv_data id (w_db w) = [stored] ->
  stored_text stored = Some text ->
  text <> [] ->
  Utf8.encode text = Some data ->
  requests_post env (dispatch_request env id data) = HttpResponse 200 body ->
  let db' := update_status_inprogress id (w_db w) in
  let sent := w_http w ++ [dispatch_request env id data] in
  exists ui1,
    main env press_process w
    = (Rerun, mk_world db' (mk_session true (Some fn) None) ui1 sent) /\
    In (st_success (SentForProcessing (Some fn) id)) ui1 /\
    selected_row db' fn = Some (id, fn, py "inprogress") /\
    forall env', exists ui2,
      main env' press_process (run env press_process w)
      = (Done tt, mk_world db' (mk_session true (Some fn) None) ui2 sent) /\
      In (st_warning (CannotProcessFile (Some fn) (Some (py "inprogress"))))
         ui2.
Proof.
  intros Hlog Hsel Hne Hrow Hone Htext Htne Henc H200 db' sent.
  destruct (main_press_process env w fn _ Hlog Hsel Hne Hrow)
    as (shown & Hmain).
  cbv zeta in Hmain.
  rewrite (process_leads_section_dispatch env press_process _ _
                                          id stored text data)
    in Hmain by first [reflexivity | assumption | exact Hone].
  simpl in Hmain. rewrite H200 in Hmain. simpl in Hmain.
  pose proof (selected_row_update id (w_db w) fn _ Hrow) as Hrow'.
  eexists. split; [exact Hmain|].
  split; [apply in_or_app; right; left; reflexivity|].
  split; [exact Hrow'|].
  intros env'. unfold run. rewrite Hmain. simpl.
  match goal with
  | |- context [main env' press_process ?w1] =>
    destruct (main_press_process env' w1 fn _ eq_refl eq_refl Hne Hrow')
      as (shown' & Hmain')
  end.
  cbv zeta in Hmain'.
  rewrite (process_leads_section_refused env' press_process _ _ id)
    in Hmain' by (reflexivity || (simpl; discriminate)).
  simpl in Hmain'.
  match type of Hmain' with
  | _ = (process_captions ?l ;; _) ?w3 =>
    destruct (after_action_effect press_process l w3 eq_refl) as (more & Hafter)
  end.
  rewrite Hafter in Hmain'. simpl in Hmain'.
  eexists. split; [exact Hmain'|].
  apply in_or_app; left. apply in_or_app; right. left; reflexivity.
Qed.

Lemma dispatch_success_sets_inprogress_once_witness :
  exists ui1,
    main (example_env (HttpResponse 200 [])) press_process
         (example_world "notstarted")
    = (Rerun,
       mk_world (example_db "inprogress")
                (mk_session true (Some (py "leads.csv")) None) ui1
                [example_request]) /\
    exists ui2,
      main (example_env (HttpResponse 200 [])) press_process
           (run (example_env (HttpResponse 200 [])) press_process
                (example_world "notstarted"))
      = (Done tt,
         mk_world (example_db "inprogress")
                  (mk_session true (Some (py "leads.csv")) None) ui2
                  [example_request]) /\
      In (st_warning (CannotProcessFile (Some (py "leads.csv"))
                                        (Some (py "inprogress")))) ui2.
Proof.
  destruct (dispatch_success_sets_inprogress_once
              (example_env (HttpResponse 200 [])) (example_world "notstarted")
              (py "leads.csv") 1 leads_json (py "name,handle")
              (py "name,handle") [])
    as (ui1 & H1 & _ & _ & H2);
    try reflexivity; try discriminate.
  exists ui1. split; [exact H1|].
  destruct (H2 (example_env (HttpResponse 200 []))) as (ui2 & H3 & H4).
  exists ui2. split; [exact H3 | exact H4].
Defined.

Lemma select_csv_data_absent (id : Z) (db : database) :
  (forall r, In r (csv_uploads db) -> cu_id r <> id) ->
  select_csv_data id db = [].
Proof.
  unfold select_csv_data. intros H.
  induction (csv_uploads db) as [|r l IH]; simpl; auto.
  destruct (Z.eqb_spec (cu_id r) id) as [E|E].
  - exfalso. apply (H r); simpl; auto.
  - apply IH. intros r' Hr'. apply H; simpl; auto.
Qed.

(** C6.  A run in which "Process Leads" is pressed on a listed batch whose
    status is not [notstarted] ends with the warning of line 241: nothing is
    sent and the database is left as it was.  The action part on an id that
    no row of the table has (a selection that went stale) shows the error of
    line 218, sends nothing and writes nothing. *)
Theorem dispatch_refused_unless_notstarted
        (env : environment) (w : world) (fn : pystr) (id : Z) (st : pystr)
        (l : locals) :
  (ss_logged_in (w_session w) = true ->
   ss_selected_filename (w_session w) = Some fn ->
   fn <> [] ->
   selected_row (w_db w) fn = Some (id, fn, st) ->
   st <> py "notstarted" ->
   exists ui,
     main env press_process w
     = (Done tt,
        mk_world (w_db w) (mk_session true (Some fn) None) ui (w_http w)) /\
     In (st_warning (CannotProcessFile (Some fn) (Some st))) ui)
  /\
  (selected_file_id l = Some (Some id) ->
   selected_file_status l = Some (py "notstarted") ->
   (forall r, In r (csv_uploads (w_db w)) -> cu_id r <> id) ->
   process_leads_section env press_process l w
   = (Done tt,
      mk_world (w_db w) (w_session w)
               (w_ui w ++ [st_error (CouldNotFindCsvData id);
                           st_error (ErrorProcessing
                                       (selected_filename l)
                                       (UnboundLocalError "response"))])
               (w_http w))).
Proof.
  split.
  - intros Hlog Hsel Hne Hrow Hst.
    destruct (main_press_process env w fn _ Hlog Hsel Hne Hrow)
      as (shown & Hmain).
    cbv zeta in Hmain.
    rewrite (process_leads_section_refused env press_process _ _ id)
      in Hmain by (reflexivity || (simpl; congruence)).
    simpl in Hmain.
    match type of Hmain with
    | _ = (process_captions ?l0 ;; _) ?w3 =>
      destruct (after_action_effect press_process l0 w3 eq_refl)
        as (more & Hafter)
    end.
    rewrite Hafter in Hmain. simpl in Hmain.
    eexists. split; [exact Hmain|].
    apply in_or_app; left. apply in_or_app; right. left; reflexivity.
  - intros Hid Hst Habs.
    apply process_leads_section_absent; auto.
    apply select_csv_data_absent; auto.
Qed.

Lemma dispatch_refused_unless_notstarted_witness :
  (exists ui,
     main (example_env (HttpResponse 200 [])) press_process
          (example_world "complete")
     = (Done tt,
        mk_world (example_db "complete")
                 (mk_session true (Some (py "leads.csv")) None) ui []) /\
     In (st_warning (CannotProcessFile (Some (py "leads.csv"))
                                       (Some (py "complete")))) ui)
  /\
  process_leads_section (example_env (HttpResponse 200 [])) press_process
                        listed_notstarted empty_world
  = (Done tt,
     mk_world (w_db empty_world) (w_session empty_world)
              [st_error (CouldNotFindCsvData 1);
               st_error (ErrorProcessing (Some (py "leads.csv"))
                                         (UnboundLocalError "response"))]
              []).
Proof.
  pose proof (dispatch_refused_unless_notstarted
                (example_env (HttpResponse 200 [])) (example_world "complete")
                (py "leads.csv") 1 (py "complete") listed_notstarted)
    as [H1 _].
  pose proof (dispatch_refused_unless_notstarted
                (example_env (HttpResponse 200 [])) empty_world
                (py "leads.csv") 1 (py "complete") listed_notstarted)
    as [_ H2].
  split.
  - apply H1; try reflexivity; discriminate.
  - apply H2; try reflexivity. intros r [].
Defined.

(** C4, as the code has it.  On a [notstarted] batch whose stored payload
    decodes to a text that is not empty, a transport failure leaves the
    status as it was and shows the error of line 239 with the exception; an
    answer other than 200 leaves the status as it was too, but shows
    nothing at all: the [else] of line 236 that holds the message belongs to
    [if csv_data_text:]. *)
Theorem non_success_response_shows_nothing
        (env : environment) (inp : widgets) (l : locals) (w : world)
        (id : Z) (stored text : pystr) (data : pybytes) :
  process_button inp = true ->
  selected_file_id l = Some (Some id) ->
  selected_file_status l = Some (py "notstarted") ->
  select_csv_data id (w_db w) = [stored] ->
  stored_text stored = Some text ->
  text <> [] ->
  Utf8.encode text = Some data ->
  let sent := w_http w ++ [dispatch_request env id data] in
  (forall e,
     requests_post env (dispatch_request env id data) = HttpRaises e ->
     process_leads_section env inp l w
     = (Done tt,
        mk_world (w_db w) (w_session w)
                 (w_ui w ++ [st_error (ErrorProcessing (selected_filename l) e)])
                 sent))
  /\
  (forall code body,
     requests_post env (dispatch_request env id data) = HttpResponse code body ->
     code <> 200 ->
     process_leads_section env inp l w
     = (Done tt, mk_world (w_db w) (w_session w) (w_ui w) sent)).
Proof.
  intros Hb Hid Hst Hrow Htext Hne Henc sent.
  pose proof (process_leads_section_dispatch env inp l w id stored text data
                Hb Hid Hst Hrow Htext Hne Henc) as H.
  cbv zeta in H. split.
  - intros e He. rewrite H, He. reflexivity.
  - intros code body Hr Hc. rewrite H, Hr.
    destruct (Z.eqb_spec code 200); [contradiction | reflexivity].
Qed.

Lemma non_success_response_shows_nothing_witness :
  process_leads_section (example_env (HttpResponse 500 (py "Server Error")))
                        press_process listed_notstarted
                        (example_world "notstarted")
  = (Done tt,
     mk_world (example_db "notstarted") (logged_in (Some (py "leads.csv")))
              [] [example_request]) /\
  existsb is_error
          (w_ui (run (example_env (HttpResponse 500 (py "Server Error")))
                     press_process (example_world "notstarted")))
  = false.
Proof.
  split; [|vm_compute; reflexivity].
  apply (proj2 (non_success_response_shows_nothing
                  (example_env (HttpResponse 500 (py "Server Error")))
                  press_process listed_notstarted (example_world "notstarted")
                  1 leads_json (py "name,handle") (py "name,handle")
                  eq_refl eq_refl eq_refl eq_refl eq_refl
                  ltac:(discriminate) eq_refl)
               500 (py "Server Error") eq_refl ltac:(discriminate)).
Defined.

(** ** Listing *)

(** A refresh writes nothing. *)
Lemma refresh_writes_nothing (env : environment) (w : world) :
  w_db (run env refresh w) = w_db w.
Proof.
  destruct (main_effect env refresh w) as [Hw _].
  destruct Hw; auto; discriminate.
Qed.

(** The comparison the listing sorts with is the ascending order of the
    spec. *)
Lemma str_leb_ascending (a b : pystr) :
  str_leb a b = true <-> spec_ascending a b.
Proof.
  split.
  - revert b. induction a as [|x a IH]; intros b H; [constructor|].
    destruct b as [|y b]; [discriminate|]. cbn [str_leb] in H.
    destruct (Z.ltb_spec x y) as [Hlt|Hge]; [constructor; exact Hlt|].
    cbn [orb] in H. apply andb_true_iff in H as [Heq Hrest].
    apply Z.eqb_eq in Heq. subst y. apply ascending_eq. apply IH, Hrest.
  - intros H. induction H as [b | x y a b Hlt | x a b H IH]; cbn [str_leb].
    + reflexivity.
    + apply Z.ltb_lt in Hlt. rewrite Hlt. reflexivity.
    + rewrite Z.eqb_refl, IH. apply orb_true_r.
Qed.

(** C9.  The listing of the batches reads the database and leaves the whole
    state as it was; it holds the summaries of all the batches, in the
    ascending order of their file names (code points compared from the
    left, a proper prefix first); read twice in a row it gives the same
    rows twice; and it is the same before and after a refresh run, which
    writes nothing.  The listing of the result records is as pure, and
    sorted by id in descending order.  On the batches [b.csv], [a.csv],
    [c.csv], stored in this order with the four result records of the
    example, the listings are [a.csv], [b.csv], [c.csv] and 4, 3, 2, 1. *)
Theorem listing_is_sorted_and_repeatable (env : environment) (w : world) :
  read_from_postgres select_files w
  = (Done (Some (select_files (w_db w))), w) /\
  (first <- read_from_postgres select_files ;;
   second <- read_from_postgres select_files ;;
   ret (first, second)) w
  = (Done (Some (select_files (w_db w)), Some (select_files (w_db w))), w) /\
  Permutation (select_files (w_db w))
              (map (fun r => (cu_id r, cu_filename r, cu_status r))
                   (csv_uploads (w_db w))) /\
  StronglySorted (fun a b => spec_ascending (fr_filename a) (fr_filename b))
                 (select_files (w_db w)) /\
  w_db (run env refresh w) = w_db w /\
  select_files (w_db (run env refresh w)) = select_files (w_db w) /\
  read_from_postgres select_processed w
  = (Done (Some (select_processed (w_db w))), w) /\
  Permutation (select_processed (w_db w)) (processed_leads (w_db w)) /\
  StronglySorted (fun a b => pl_id b <= pl_id a) (select_processed (w_db w)) /\
  (w_db w = unsorted_batches ->
   select_files (w_db w)
   = [(2, py "a.csv", py "complete"); (1, py "b.csv", py "notstarted");
      (3, py "c.csv", py "inprogress")] /\
   map pl_id (select_processed (w_db w)) = [4; 3; 2; 1]).
Proof.
  split; [reflexivity|]. split; [reflexivity|].
  split; [apply order_by_perm|].
  split.
  { assert (StronglySorted
              (fun a b => str_leb (fr_filename a) (fr_filename b) = true)
              (select_files (w_db w))) as Hs.
    { apply order_by_sorted.
      - intros a b. apply str_leb_total.
      - intros a b c. apply str_leb_trans. }
    induction Hs as [|a l Hl IH Ha]; constructor; auto.
    eapply Forall_impl; [|exact Ha].
    intros b Hb. apply str_leb_ascending. exact Hb. }
  pose proof (refresh_writes_nothing env w) as Hd.
  split; [exact Hd|]. split; [rewrite Hd; reflexivity|].
  split; [reflexivity|]. split; [apply order_by_perm|].
  split.
  { assert (StronglySorted (fun a b => (pl_id b <=? pl_id a) = true)
                           (select_processed (w_db w))) as Hs.
    { apply order_by_sorted.
      - intros a b.
        destruct (Z.leb_spec (pl_id b) (pl_id a)),
                 (Z.leb_spec (pl_id a) (pl_id b)); auto; lia.
      - intros a b c H1 H2. apply Z.leb_le in H1, H2. apply Z.leb_le. lia. }
    induction Hs as [|a l Hl IH Ha]; constructor; auto.
    eapply Forall_impl; [|exact Ha]. intros b Hb. apply Z.leb_le; auto. }
  intros ->. split; reflexivity.
Qed.

Lemma listing_is_sorted_and_repeatable_witness :
  map fr_filename
      (select_files
         (w_db (mk_world unsorted_batches (logged_in None) [] [])))
  = [py "a.csv"; py "b.csv"; py "c.csv"] /\
  map pl_id
      (select_processed
         (w_db (mk_world unsorted_batches (logged_in None) [] [])))
  = [4; 3; 2; 1] /\
  StronglySorted
    (fun a b => spec_ascending (fr_filename a) (fr_filename b))
    (select_files (w_db (mk_world unsorted_batches (logged_in None) [] []))).
Proof.
  destruct (listing_is_sorted_and_repeatable
              (example_env (HttpResponse 200 []))
              (mk_world unsorted_batches (logged_in None) [] []))
    as (_ & _ & _ & Hsorted & _ & _ & _ & _ & _ & Hexample).
  destruct (Hexample eq_refl) as [Hfiles Hleads].
  split; [rewrite Hfiles; reflexivity|].
  split; [exact Hleads | exact Hsorted].
Defined.

(** ** The payload through JSON and UTF-8 *)

Module JsonFacts.
Import Json.

Lemma hex_value_digit (d : Z) :
  0 <= d < 16 -> hex_value (hex_digit d) = Some d.
Proof.
  intros H. unfold hex_value, hex_digit.
  destruct (Z.ltb_spec d 10).
  - replace ((48 <=? 48 + d) && (48 + d <=? 57)) with true.
    + f_equal; lia.
    + symmetry. apply andb_true_iff; split; apply Z.leb_le; lia.
  - replace ((48 <=? 87 + d) && (87 + d <=? 57)) with false.
    + replace ((97 <=? 87 + d) && (87 + d <=? 102)) with true.
      * f_equal; lia.
      * symmetry. apply andb_true_iff; split; apply Z.leb_le; lia.
    + symmetry. apply andb_false_iff; right. apply Z.leb_gt; lia.
Qed.

Lemma decode_u_escape (n : Z) (s : pystr) :
  0 <= n < 65536 ->
  exists h1 h2 h3 h4,
    u_escape n ++ s = 92 :: 117 :: h1 :: h2 :: h3 :: h4 :: s /\
    decode_uXXXX h1 h2 h3 h4 = Some n.
Proof.
  intros H. unfold u_escape. simpl. eexists _, _, _, _. split; [reflexivity|].
  unfold decode_uXXXX.
  rewrite !hex_value_digit.
  - f_equal. pose proof (Z.div_mod n 16). pose proof (Z.div_mod (n / 16) 16).
    pose proof (Z.div_mod (n / 256) 16).
    assert (n / 256 = n / 16 / 16) by (rewrite Z.div_div by lia; reflexivity).
    assert (n / 4096 = n / 256 / 16) by (rewrite Z.div_div by lia; reflexivity).
    lia.
  - apply Z.mod_pos_bound; lia.
  - apply Z.mod_pos_bound; lia.
  - apply Z.mod_pos_bound; lia.
  - split; [apply Z.div_pos; lia | apply Z.div_lt_upper_bound; lia].
Qed.

Lemma lor_shiftl_low (q r : Z) :
  0 <= r < 1024 -> Z.lor (Z.shiftl q 10) r = q * 1024 + r.
Proof.
  intros H.
  assert (Z.land (Z.shiftl q 10) r = 0) as Hland.
  { replace r with (Z.land r (Z.ones 10)).
    - rewrite (Z.land_comm r), Z.land_assoc.
      rewrite (Z.land_ones (Z.shiftl q 10)) by lia.
      rewrite Z.shiftl_mul_pow2 by lia.
      rewrite Z.mod_mul by lia. reflexivity.
    - rewrite Z.land_ones by lia. apply Z.mod_small. simpl; lia. }
  rewrite <- Z.lxor_lor by exact Hland.
  rewrite <- Z.add_nocarry_lxor by exact Hland.
  rewrite Z.shiftl_mul_pow2 by lia. reflexivity.
Qed.

(** The surrogate pair the encoder writes for a code point above U+FFFF,
    and what the decoder makes of it. *)
Lemma surrogate_pair (c : Z) :
  65536 <= c < 1114112 ->
  let n := c - 65536 in
  let hi := Z.lor 55296 (Z.land (Z.shiftr n 10) 1023) in
  let lo := Z.lor 56320 (Z.land n 1023) in
  55296 <= hi <= 56319 /\ 56320 <= lo <= 57343 /\
  65536 + Z.lor (Z.shiftl (hi - 55296) 10) (lo - 56320) = c.
Proof.
  intros H n hi lo.
  assert (0 <= n < 1048576) as Hn by (unfold n; lia).
  assert (Z.land n 1023 = n mod 1024) as Hlo.
  { change 1023 with (Z.ones 10). rewrite Z.land_ones by lia. reflexivity. }
  assert (Z.land (Z.shiftr n 10) 1023 = n / 1024) as Hhi.
  { change 1023 with (Z.ones 10). rewrite Z.land_ones by lia.
    rewrite Z.shiftr_div_pow2 by lia. apply Z.mod_small.
    change (2 ^ 10) with 1024.
    split; [apply Z.div_pos; lia | apply Z.div_lt_upper_bound; lia]. }
  assert (0 <= n mod 1024 < 1024) as Hm by (apply Z.mod_pos_bound; lia).
  assert (0 <= n / 1024 < 1024) as Hd
      by (split; [apply Z.div_pos; lia | apply Z.div_lt_upper_bound; lia]).
  assert (hi = 55296 + n / 1024) as Ehi.
  { unfold hi. rewrite Hhi. change 55296 with (Z.shiftl 54 10) at 1.
    rewrite lor_shiftl_low by lia. lia. }
  assert (lo = 56320 + n mod 1024) as Elo.
  { unfold lo. rewrite Hlo. change 56320 with (Z.shiftl 55 10) at 1.
    rewrite lor_shiftl_low by lia. lia. }
  rewrite Ehi, Elo. split; [lia|]. split; [lia|].
  replace (55296 + n / 1024 - 55296) with (n / 1024) by lia.
  replace (56320 + n mod 1024 - 56320) with (n mod 1024) by lia.
  rewrite lor_shiftl_low by lia.
  pose proof (Z.div_mod n 1024). unfold n in *. lia.
Qed.

Lemma scanstring_plain (c : Z) (r : pystr) :
  c <> 34 -> c <> 92 -> ~ 0 <= c <= 31 ->
  scanstring (c :: r)
  = match scanstring r with
    | Some (t, rest) => Some (c :: t, rest)
    | None => None
    end.
Proof.
  intros H1 H2 H3. cbn [scanstring].
  destruct (Z.eqb_spec c 34); [contradiction|].
  destruct (Z.eqb_spec c 92); [contradiction|].
  destruct (Z.leb_spec 0 c), (Z.leb_spec c 31); simpl; auto; lia.
Qed.

Lemma scanstring_backslash (e ch : Z) (r : pystr) :
  e <> 117 -> backslash e = Some ch ->
  scanstring (92 :: e :: r)
  = match scanstring r with
    | Some (t, rest) => Some (ch :: t, rest)
    | None => None
    end.
Proof.
  intros H1 H2. cbn [scanstring]. simpl (92 =? 34). simpl (92 =? 92).
  cbv iota. destruct (Z.eqb_spec e 117); [contradiction|].
  rewrite H2. reflexivity.
Qed.

Lemma scanstring_u_single (h1 h2 h3 h4 uni : Z) (r : pystr) :
  decode_uXXXX h1 h2 h3 h4 = Some uni ->
  ~ 55296 <= uni <= 56319 ->
  scanstring (92 :: 117 :: h1 :: h2 :: h3 :: h4 :: r)
  = match scanstring r with
    | Some (t, rest) => Some (uni :: t, rest)
    | None => None
    end.
Proof.
  intros H1 H2. cbn [scanstring]. simpl (92 =? 34). simpl (92 =? 92).
  simpl (117 =? 117). cbv iota. rewrite H1. cbv zeta.
  destruct (Z.leb_spec 55296 uni), (Z.leb_spec uni 56319); simpl; auto; lia.
Qed.

Lemma scanstring_u_pair (h1 h2 h3 h4 g1 g2 g3 g4 hi lo : Z) (r : pystr) :
  decode_uXXXX h1 h2 h3 h4 = Some hi ->
  55296 <= hi <= 56319 ->
  decode_uXXXX g1 g2 g3 g4 = Some lo ->
  56320 <= lo <= 57343 ->
  scanstring (92 :: 117 :: h1 :: h2 :: h3 :: h4
                 :: 92 :: 117 :: g1 :: g2 :: g3 :: g4 :: r)
  = match scanstring r with
    | Some (t, rest) =>
      Some (65536 + Z.lor (Z.shiftl (hi - 55296) 10) (lo - 56320) :: t, rest)
    | None => None
    end.
Proof.
  intros H1 H2 H3 H4.
  change (scanstring (92 :: 117 :: h1 :: h2 :: h3 :: h4
                         :: 92 :: 117 :: g1 :: g2 :: g3 :: g4 :: r))
    with (match decode_uXXXX h1 h2 h3 h4 with
          | None => None
          | Some uni =>
            let single :=
              match scanstring (92 :: 117 :: g1 :: g2 :: g3 :: g4 :: r) with
              | Some (t, rest) => Some (uni :: t, rest)
              | None => None
              end in
            if (55296 <=? uni) && (uni <=? 56319) then
              match decode_uXXXX g1 g2 g3 g4 with
              | None => None
              | Some uni2 =>
                if (56320 <=? uni2) && (uni2 <=? 57343) then
                  match scanstring r with
                  | Some (t, rest) =>
                    Some (65536 + Z.lor (Z.shiftl (uni - 55296) 10)
                                        (uni2 - 56320) :: t, rest)
                  | None => None
                  end
                else single
              end
            else single
          end).
  rewrite H1, H3. cbv zeta.
  destruct (Z.leb_spec 55296 hi), (Z.leb_spec hi 56319); try lia.
  destruct (Z.leb_spec 56320 lo), (Z.leb_spec lo 57343); try lia.
  reflexivity.
Qed.

(** The decoder reads back the character the encoder escaped. *)
Lemma scanstring_escape_char (c : Z) (s t rest : pystr) :
  scalar_value c ->
  scanstring s = Some (t, rest) ->
  scanstring (escape_char c ++ s) = Some (c :: t, rest).
Proof.
  intros Hc Hs. unfold escape_char.
  destruct (Z.eqb_spec c 34);
    [subst; simpl app; rewrite (scanstring_backslash 34 34), Hs;
     [reflexivity | lia | reflexivity]|].
  destruct (Z.eqb_spec c 92);
    [subst; simpl app; rewrite (scanstring_backslash 92 92), Hs;
     [reflexivity | lia | reflexivity]|].
  destruct (Z.eqb_spec c 10);
    [subst; simpl app; rewrite (scanstring_backslash 110 10), Hs;
     [reflexivity | lia | reflexivity]|].
  destruct (Z.eqb_spec c 13);
    [subst; simpl app; rewrite (scanstring_backslash 114 13), Hs;
     [reflexivity | lia | reflexivity]|].
  destruct (Z.eqb_spec c 9);
    [subst; simpl app; rewrite (scanstring_backslash 116 9), Hs;
     [reflexivity | lia | reflexivity]|].
  destruct (Z.eqb_spec c 8);
    [subst; simpl app; rewrite (scanstring_backslash 98 8), Hs;
     [reflexivity | lia | reflexivity]|].
  destruct (Z.eqb_spec c 12);
    [subst; simpl app; rewrite (scanstring_backslash 102 12), Hs;
     [reflexivity | lia | reflexivity]|].
  destruct (Z.leb_spec 32 c), (Z.leb_spec c 126); simpl andb; cbv iota.
  - simpl app. rewrite scanstring_plain, Hs by lia. reflexivity.
  - destruct (Z.ltb_spec c 65536).
    + destruct (decode_u_escape c s) as (h1 & h2 & h3 & h4 & -> & Hd);
        [unfold scalar_value in Hc; lia|].
      rewrite (scanstring_u_single _ _ _ _ c), Hs; auto.
      unfold scalar_value in Hc; lia.
    + destruct (surrogate_pair c) as (Hhi & Hlo & Hc');
        [unfold scalar_value in Hc; lia|].
      cbv zeta in Hhi, Hlo, Hc'. rewrite <- app_assoc.
      destruct (decode_u_escape
                  (Z.lor 56320 (Z.land (c - 65536) 1023)) s)
        as (g1 & g2 & g3 & g4 & -> & Hg); [lia|].
      destruct (decode_u_escape
                  (Z.lor 55296 (Z.land (Z.shiftr (c - 65536) 10) 1023))
                  (92 :: 117 :: g1 :: g2 :: g3 :: g4 :: s))
        as (h1 & h2 & h3 & h4 & -> & Hh); [lia|].
      rewrite (scanstring_u_pair _ _ _ _ _ _ _ _ _ _ s Hh Hhi Hg Hlo), Hs.
      rewrite Hc'. reflexivity.
  - destruct (Z.ltb_spec c 65536).
    + destruct (decode_u_escape c s) as (h1 & h2 & h3 & h4 & -> & Hd);
        [unfold scalar_value in Hc; lia|].
      rewrite (scanstring_u_single _ _ _ _ c), Hs; auto.
      unfold scalar_value in Hc; lia.
    + lia.
  - lia.
Qed.

Lemma scanstring_encoded (p rest : pystr) :
  Forall scalar_value p ->
  scanstring (flat_map escape_char p ++ 34 :: rest) = Some (p, rest).
Proof.
  induction 1 as [|c p Hc Hp IH]; simpl.
  - reflexivity.
  - rewrite <- app_assoc. apply scanstring_escape_char; auto.
Qed.

Lemma scan_once_string (f : nat) (r : pystr) :
  scan_once (S f) (34 :: r)
  = match scanstring r with
    | Some (t, rest) => Some (Str t, rest)
    | None => None
    end.
Proof. reflexivity. Qed.

Lemma scan_once_object (f : nat) (r r' : pystr) :
  skip_ws r = 34 :: r' ->
  scan_once (S f) (123 :: r)
  = match parse_members f r' with
    | Some (ps, rest) => Some (Obj ps, rest)
    | None => None
    end.
Proof.
  intros H.
  change (scan_once (S f) (123 :: r))
    with (match skip_ws r with
          | d :: r' =>
            if d =? 125 then Some (Obj [], r')
            else if d =? 34 then
              match parse_members f r' with
              | Some (ps, rest) => Some (Obj ps, rest)
              | None => None
              end
            else None
          | [] => None
          end).
  rewrite H. reflexivity.
Qed.

Lemma parse_members_single (f : nat) (s key s1 s2 s3 s4 : pystr) (v : value) :
  scanstring s = Some (key, s1) ->
  skip_ws s1 = 58 :: s2 ->
  scan_once f (skip_ws s2) = Some (v, s3) ->
  skip_ws s3 = 125 :: s4 ->
  parse_members (S f) s = Some ([(key, v)], s4).
Proof.
  intros H1 H2 H3 H4.
  change (parse_members (S f) s)
    with (match scanstring s with
          | None => None
          | Some (key, s1) =>
            match skip_ws s1 with
            | c :: s2 =>
              if c =? 58 then
                match scan_once f (skip_ws s2) with
                | None => None
                | Some (v, s3) =>
                  match skip_ws s3 with
                  | d :: s4 =>
                    if d =? 125 then Some ([(key, v)], s4)
                    else if d =? 44 then
                      match skip_ws s4 with
                      | q :: s5 =>
                        if q =? 34 then
                          match parse_members f s5 with
                          | Some (ps, rest) => Some ((key, v) :: ps, rest)
                          | None => None
                          end
                        else None
                      | [] => None
                      end
                    else None
                  | [] => None
                  end
                end
              else None
            | [] => None
            end
          end).
  rewrite H1, H2. simpl (58 =? 58). cbv iota. rewrite H3, H4. reflexivity.
Qed.

(** [json.loads] reads back the one-entry dictionary [json.dumps] wrote. *)
Lemma loads_dumps_dict1 (key p : pystr) :
  Forall scalar_value key -> Forall scalar_value p ->
  loads (dumps_dict1 key p) = Some (Obj [(key, Str p)]).
Proof.
  intros Hk Hp. unfold loads, dumps_dict1, encode_basestring_ascii.
  match goal with
  | |- context [scan_once ?n _] =>
    assert (exists k, n = S (S (S k))) as (k & ->)
  end.
  { simpl List.length.
    match goal with
    | |- exists k, (2 * S ?m + 2)%nat = _ => exists (2 * m + 1)%nat
    end.
    lia. }
  change (skip_ws (123 :: ?r)) with (123 :: r).
  cbn [app]. rewrite <- ?app_assoc. cbn [app].
  rewrite (scan_once_object _ _ (flat_map escape_char key ++ 34 :: py ": "
                                 ++ 34 :: flat_map escape_char p ++ [34; 125]))
    by reflexivity.
  rewrite (parse_members_single
             _ _ key (py ": " ++ 34 :: flat_map escape_char p ++ [34; 125])
             (32 :: 34 :: flat_map escape_char p ++ [34; 125])
             [125] [] (Str p)).
  - reflexivity.
  - apply scanstring_encoded; auto.
  - reflexivity.
  - change (skip_ws (32 :: 34 :: ?r)) with (34 :: r).
    rewrite scan_once_string.
    change (flat_map escape_char p ++ [34; 125])
      with (flat_map escape_char p ++ 34 :: [125]).
    rewrite (scanstring_encoded p [125] Hp). reflexivity.
  - reflexivity.
Qed.

End JsonFacts.

Module Utf8Facts.
Import Utf8.

Lemma is_cont_range (b : Z) : is_cont b = true -> 128 <= b <= 191.
Proof.
  unfold is_cont. intros H. apply andb_true_iff in H as [H1 H2].
  apply Z.leb_le in H1, H2. lia.
Qed.

Lemma encode_char_1 (b0 : Z) :
  0 <= b0 < 128 -> scalar_value b0 /\ encode_char b0 = Some [b0].
Proof.
  intros H. split; [left; lia|]. unfold encode_char.
  split_comparisons; cbn [andb orb]; try lia; reflexivity.
Qed.

Lemma encode_char_2 (b0 b1 : Z) :
  194 <= b0 <= 223 -> 128 <= b1 <= 191 ->
  let c := (b0 - 192) * 64 + (b1 - 128) in
  scalar_value c /\ encode_char c = Some [b0; b1].
Proof.
  intros H0 H1 c.
  assert (128 <= c < 2048) as Hc by (unfold c; lia).
  assert (c / 64 = b0 - 192 /\ c mod 64 = b1 - 128) as [Hd Hm].
  { unfold c. Z.div_mod_to_equations. lia. }
  split; [left; lia|]. unfold encode_char.
  split_comparisons; cbn [andb orb]; try lia.
  rewrite Hd, Hm. repeat f_equal; lia.
Qed.

Lemma encode_char_3 (b0 b1 b2 : Z) :
  224 <= b0 <= 239 ->
  (if b0 =? 224 then 160 else 128) <= b1 ->
  b1 <= (if b0 =? 237 then 159 else 191) ->
  128 <= b2 <= 191 ->
  let c := (b0 - 224) * 4096 + (b1 - 128) * 64 + (b2 - 128) in
  scalar_value c /\ encode_char c = Some [b0; b1; b2].
Proof.
  intros H0 H1 H2 H3 c.
  assert (128 <= b1 <= 191) as Hb1.
  { destruct (b0 =? 224), (b0 =? 237); lia. }
  assert ((2048 <= c < 55296) \/ (57344 <= c < 65536)) as Hc.
  { unfold c. destruct (Z.eqb_spec b0 224), (Z.eqb_spec b0 237); lia. }
  assert (c / 4096 = b0 - 224 /\ (c / 64) mod 64 = b1 - 128 /\
          c mod 64 = b2 - 128) as (Hd & Hm1 & Hm2).
  { unfold c. Z.div_mod_to_equations. lia. }
  split; [unfold scalar_value; lia|]. unfold encode_char.
  split_comparisons; cbn [andb orb]; try lia;
    rewrite Hd, Hm1, Hm2; repeat f_equal; lia.
Qed.

Lemma encode_char_4 (b0 b1 b2 b3 : Z) :
  240 <= b0 <= 244 ->
  (if b0 =? 240 then 144 else 128) <= b1 ->
  b1 <= (if b0 =? 244 then 143 else 191) ->
  128 <= b2 <= 191 -> 128 <= b3 <= 191 ->
  let c := (b0 - 240) * 262144 + (b1 - 128) * 4096
           + (b2 - 128) * 64 + (b3 - 128) in
  scalar_value c /\ encode_char c = Some [b0; b1; b2; b3].
Proof.
  intros H0 H1 H2 H3 H4 c.
  assert (128 <= b1 <= 191) as Hb1.
  { destruct (b0 =? 240), (b0 =? 244); lia. }
  assert (65536 <= c < 1114112) as Hc.
  { unfold c. destruct (Z.eqb_spec b0 240), (Z.eqb_spec b0 244); lia. }
  assert (c / 262144 = b0 - 240 /\ (c / 4096) mod 64 = b1 - 128 /\
          (c / 64) mod 64 = b2 - 128 /\ c mod 64 = b3 - 128)
    as (Hd & Hm1 & Hm2 & Hm3).
  { unfold c. Z.div_mod_to_equations. lia. }
  split; [unfold scalar_value; lia|]. unfold encode_char.
  split_comparisons; cbn [andb orb]; try lia;
    rewrite Hd, Hm1, Hm2, Hm3; repeat f_equal; lia.
Qed.

Lemma encode_cons (c : Z) (bs : pybytes) (p : pystr) (rest : pybytes) :
  encode_char c = Some bs -> encode p = Some rest ->
  encode (c :: p) = Some (bs ++ rest).
Proof. intros H1 H2. cbn [encode]. rewrite H1, H2. reflexivity. Qed.

Lemma decode_encode_bounded (n : nat) (bs : pybytes) (p : pystr) :
  (List.length bs <= n)%nat ->
  decode bs = Some p ->
  Forall scalar_value p /\ encode p = Some bs.
Proof.
  revert bs p. induction n as [|n IH]; intros bs p Hlen.
  - destruct bs; [|simpl in Hlen; lia].
    intros H; inversion H; subst. split; [constructor | reflexivity].
  - destruct bs as [|b0 r0].
    { intros H; inversion H; subst. split; [constructor | reflexivity]. }
    cbn [decode]. simpl in Hlen.
    destruct ((0 <=? b0) && (b0 <? 128)) eqn:E1.
    { apply andb_true_iff in E1 as [Ea Eb].
      apply Z.leb_le in Ea. apply Z.ltb_lt in Eb.
      destruct (decode r0) as [q|] eqn:D; [|discriminate].
      intros H; inversion H; subst.
      destruct (IH r0 q) as [Hq Hr]; auto; [lia|].
      destruct (encode_char_1 b0) as [Hs He]; [lia|].
      split; [constructor; auto|].
      apply (encode_cons b0 [b0] q r0); auto. }
    destruct ((194 <=? b0) && (b0 <=? 223)) eqn:E2.
    { apply andb_true_iff in E2 as [Ea Eb]. apply Z.leb_le in Ea, Eb.
      destruct r0 as [|b1 r1]; [discriminate|].
      destruct (is_cont b1) eqn:C1; [|discriminate].
      apply is_cont_range in C1. simpl in Hlen.
      destruct (decode r1) as [q|] eqn:D; [|discriminate].
      intros H; inversion H; subst.
      destruct (IH r1 q) as [Hq Hr]; auto; [lia|].
      destruct (encode_char_2 b0 b1) as [Hs He]; [lia|lia|].
      split; [constructor; auto|].
      apply (encode_cons _ [b0; b1] q r1); auto. }
    destruct ((224 <=? b0) && (b0 <=? 239)) eqn:E3.
    { apply andb_true_iff in E3 as [Ea Eb]. apply Z.leb_le in Ea, Eb.
      destruct r0 as [|b1 [|b2 r2]]; try discriminate.
      match goal with
      | |- (if ?c then _ else _) = _ -> _ => destruct c eqn:C; [|discriminate]
      end.
      apply andb_true_iff in C as [C C2]. apply andb_true_iff in C as [Ca Cb].
      apply Z.leb_le in Ca, Cb. apply is_cont_range in C2. simpl in Hlen.
      destruct (decode r2) as [q|] eqn:D; [|discriminate].
      intros H; inversion H; subst.
      destruct (IH r2 q) as [Hq Hr]; auto; [lia|].
      destruct (encode_char_3 b0 b1 b2) as [Hs He]; try assumption; try lia.
      split; [constructor; auto|].
      apply (encode_cons _ [b0; b1; b2] q r2); auto. }
    destruct ((240 <=? b0) && (b0 <=? 244)) eqn:E4; [|discriminate].
    apply andb_true_iff in E4 as [Ea Eb]. apply Z.leb_le in Ea, Eb.
    destruct r0 as [|b1 [|b2 [|b3 r3]]]; try discriminate.
    match goal with
    | |- (if ?c then _ else _) = _ -> _ => destruct c eqn:C; [|discriminate]
    end.
    apply andb_true_iff in C as [C C3]. apply andb_true_iff in C as [C C2].
    apply andb_true_iff in C as [Ca Cb].
    apply Z.leb_le in Ca, Cb. apply is_cont_range in C2, C3. simpl in Hlen.
    destruct (decode r3) as [q|] eqn:D; [|discriminate].
    intros H; inversion H; subst.
    destruct (IH r3 q) as [Hq Hr]; auto; [lia|].
    destruct (encode_char_4 b0 b1 b2 b3) as [Hs He]; try assumption; try lia.
    split; [constructor; auto|].
    apply (encode_cons _ [b0; b1; b2; b3] q r3); auto.
Qed.

(** Text decoded from UTF-8 holds Unicode scalar values only, and encodes
    back to the bytes it came from. *)
Lemma decode_encode (bs : pybytes) (p : pystr) :
  decode bs = Some p -> Forall scalar_value p /\ encode p = Some bs.
Proof. apply (decode_encode_bounded (List.length bs)). lia. Qed.

End Utf8Facts.

Lemma next_upload_id_fresh (db : database) (r : csv_upload) :
  In r (csv_uploads db) -> cu_id r < next_upload_id db.
Proof.
  unfold next_upload_id.
  induction (csv_uploads db) as [|x l IH]; cbn [map fold_right In];
    [tauto|].
  intros [->|H]; [lia|]. specialize (IH H). lia.
Qed.

(** The row a registration inserts is the one row of its id. *)
Lemma select_csv_data_inserted (fn data : pystr) (db : database) :
  select_csv_data (next_upload_id db) (insert_upload fn data db) = [data].
Proof.
  unfold select_csv_data, insert_upload. simpl.
  rewrite filter_app, map_app. simpl. rewrite Z.eqb_refl. simpl.
  replace (filter (fun r => cu_id r =? next_upload_id db) (csv_uploads db))
    with (@nil csv_upload); [reflexivity|].
  symmetry. pose proof (next_upload_id_fresh db) as Hf.
  induction (csv_uploads db) as [|x l IH]; simpl; auto.
  destruct (Z.eqb_spec (cu_id x) (next_upload_id db)) as [E|E].
  - specialize (Hf x (or_introl eq_refl)). lia.
  - apply IH. intros r Hr. apply Hf. right; auto.
Qed.

Lemma save_csv_inserts (file : uploaded_file) (w : world) (text : pystr) :
  ~ In (uf_name file) (filenames (w_db w)) ->
  Utf8.decode (uf_value file) = Some text ->
  save_csv file w
  = (Rerun,
     mk_world (insert_upload (uf_name file)
                             (Json.dumps_dict1 (py "csv_content") text)
                             (w_db w))
              (mk_session (ss_logged_in (w_session w))
                          (ss_selected_filename (w_session w)) None)
              (w_ui w ++ [st_success (SavedSuccessfully (uf_name file))])
              (w_http w)).
Proof.
  intros Hnot Hdec. unfold save_csv. unfold_monad. simpl.
  destruct (select_filename_exists_In (uf_name file) (w_db w))
    as [[_ C]|[-> _]]; [contradiction|]. simpl.
  rewrite Hdec. reflexivity.
Qed.

(** The action part on a batch whose stored text is empty: nothing is sent;
    the [else] of line 236 reads the unbound [response]. *)
Lemma process_leads_section_empty_payload
      (env : environment) (inp : widgets) (l : locals) (w : world)
      (id : Z) (stored : pystr) :
  process_button inp = true ->
  selected_file_id l = Some (Some id) ->
  selected_file_status l = Some (py "notstarted") ->
  select_csv_data id (w_db w) = [stored] ->
  stored_text stored = Some [] ->
  process_leads_section env inp l w
  = (Done tt,
     mk_world (w_db w) (w_session w)
              (w_ui w ++ [st_error (ErrorProcessing
                                      (selected_filename l)
                                      (UnboundLocalError "response"))])
              (w_http w)).
Proof.
  intros Hb Hid Hst Hrow Htext.
  unfold process_leads_section. rewrite Hb, Hid, Hst. simpl.
  rewrite bind_unfold. simpl. rewrite try_except_unfold.
  unfold send_for_processing. rewrite bind_unfold.
  rewrite (fetch_csv_data_text_stored id w stored [] Hrow Htext).
  reflexivity.
Qed.

(** C10.  The text decoded from the uploaded bytes is stored as the JSON
    object [{"csv_content": text}] in the one row of the new batch;
    [json.loads] of that cell gives the object back, so the text dispatch
    reads from the cell is the text registered; and the body of the request
    dispatch sends for a batch with that cell is the text encoded as UTF-8,
    which is the uploaded bytes.  (An empty text is read back as well, but
    dispatch sends no request for it.) *)
Theorem payload_round_trip
        (env : environment) (inp : widgets) (l : locals) (w w2 : world)
        (file : uploaded_file) (text : pystr) (id : Z) :
  Utf8.decode (uf_value file) = Some text ->
  let stored := Json.dumps_dict1 (py "csv_content") text in
  (~ In (uf_name file) (filenames (w_db w)) ->
   select_csv_data (next_upload_id (w_db w)) (w_db (snd (save_csv file w)))
   = [stored]) /\
  Json.loads stored = Some (Json.Obj [(py "csv_content", Json.Str text)]) /\
  stored_text stored = Some text /\
  Utf8.encode text = Some (uf_value file) /\
  (process_button inp = true ->
   selected_file_id l = Some (Some id) ->
   selected_file_status l = Some (py "notstarted") ->
   select_csv_data id (w_db w2) = [stored] ->
   w_http (snd (process_leads_section env inp l w2))
   = if str_truthy text
     then w_http w2 ++ [dispatch_request env id (uf_value file)]
     else w_http w2).
Proof.
  intros Hdec stored.
  destruct (Utf8Facts.decode_encode _ _ Hdec) as [Hscalar Henc].
  assert (Json.loads stored
          = Some (Json.Obj [(py "csv_content", Json.Str text)])) as Hloads.
  { apply JsonFacts.loads_dumps_dict1; auto.
    repeat constructor; unfold scalar_value; lia. }
  assert (stored_text stored = Some text) as Htext.
  { unfold stored_text. rewrite Hloads. reflexivity. }
  split.
  { intros Hnew.
    rewrite (save_csv_inserts file w text Hnew Hdec). simpl.
    apply (select_csv_data_inserted _ _ (w_db w)). }
  split; [exact Hloads|]. split; [exact Htext|]. split; [exact Henc|].
  intros Hb Hid Hst Hrow.
  destruct text as [|c text'] eqn:Et.
  - rewrite (process_leads_section_empty_payload env inp l w2 id stored);
      auto.
  - rewrite (process_leads_section_dispatch env inp l w2 id stored
                                            (c :: text') (uf_value file));
      auto; [|discriminate].
    cbv zeta.
    destruct (requests_post env _) as [code body|e]; [|reflexivity].
    destruct (code =? 200); reflexivity.
Qed.

Lemma payload_round_trip_witness :
  Utf8.decode (uf_value leads_csv) = Some (py "name,handle") /\
  select_csv_data 1 (w_db (snd (save_csv leads_csv empty_world)))
  = [leads_json] /\
  stored_text leads_json = Some (py "name,handle") /\
  w_http (snd (process_leads_section (example_env (HttpResponse 200 []))
                                     press_process listed_notstarted
                                     (example_world "notstarted")))
  = [example_request].
Proof.
  assert (Utf8.decode (uf_value leads_csv) = Some (py "name,handle")) as Hdec
    by reflexivity.
  split; [exact Hdec|].
  pose proof (payload_round_trip
                (example_env (HttpResponse 200 [])) press_process
                listed_notstarted empty_world (example_world "notstarted")
                leads_csv (py "name,handle") 1 Hdec)
    as (Hreg & _ & Htext & _ & Hsend).
  split; [apply Hreg; simpl; tauto|].
  split; [exact Htext|].
  apply Hsend; reflexivity.
Defined.

(** * Further properties of the script *)

(** ** The shape of a run *)

(** A logged-in run, part by part. *)
Lemma main_logged_in (env : environment) (inp : widgets) (w : world) :
  ss_logged_in (w_session w) = true ->
  main env inp w
  = match upload_section env inp w with
    | (Done _, w1) =>
      match select_file_section inp w1 with
      | (Done l, w2) =>
        match process_leads_section env inp l w2 with
        | (Done _, w3) =>
          match process_captions l w3 with
          | (Done _, w4) => processed_leads_tab inp w4
          | (Raise e, w4) => (Raise e, w4)
          | (Rerun, w4) => (Rerun, w4)
          end
        | (Raise e, w3) => (Raise e, w3)
        | (Rerun, w3) => (Rerun, w3)
        end
      | (Raise e, w2) => (Raise e, w2)
      | (Rerun, w2) => (Rerun, w2)
      end
    | (Raise e, w1) => (Raise e, w1)
    | (Rerun, w1) => (Rerun, w1)
    end.
Proof.
  intros Hlog. unfold main. rewrite bind_unfold. unfold get_session. simpl.
  rewrite Hlog. simpl. unfold main_dashboard. rewrite !bind_unfold.
  destruct (upload_section env inp w) as [[[]|e|] w1]; try reflexivity.
  rewrite !bind_unfold.
  destruct (select_file_section inp w1) as [[l|e|] w2]; try reflexivity.
  rewrite !bind_unfold.
  destruct (process_leads_section env inp l w2) as [[[]|e|] w3];
    reflexivity.
Qed.

Lemma main_logged_out (env : environment) (inp : widgets) (w : world) :
  ss_logged_in (w_session w) = false ->
  main env inp w = login_section env inp w.
Proof.
  intros Hlog. unfold main. rewrite bind_unfold. unfold get_session. simpl.
  rewrite Hlog. reflexivity.
Qed.

(** ** Before the login *)

(** X1.  While the session is not logged in, a run reads and writes no
    table and sends nothing, whatever the widgets say; the session becomes
    logged in exactly when the login button is pressed with the user name
    and the password of the secrets, and a press with other credentials
    shows the error of line 74. *)
Theorem logged_out_run_touches_nothing
        (env : environment) (inp : widgets) (w : world) :
  ss_logged_in (w_session w) = false ->
  w_db (run env inp w) = w_db w /\
  w_http (run env inp w) = w_http w /\
  (ss_logged_in (w_session (run env inp w)) = true <->
   login_button inp = true /\
   username_input inp = secrets_username env /\
   password_input inp = secrets_password env) /\
  (login_button inp = true ->
   ss_logged_in (w_session (run env inp w)) = false ->
   w_ui (run env inp w) = w_ui w ++ [st_error InvalidCredentials]).
Proof.
  intros Hlog. unfold run. rewrite (main_logged_out env inp w Hlog).
  unfold login_section. unfold_monad.
  destruct (login_button inp); simpl.
  - destruct (str_eqb (username_input inp) (secrets_username env)) eqn:Eu;
      destruct (str_eqb (password_input inp) (secrets_password env)) eqn:Ep;
      simpl; repeat split; auto; try congruence;
      try (apply str_eqb_eq; assumption);
      try (intros (_ & Hu & Hp);
           apply str_eqb_eq in Hu; apply str_eqb_eq in Hp; congruence).
  - repeat split; auto; try congruence. intros (C & _); discriminate.
Qed.

Lemma logged_out_run_touches_nothing_witness :
  ss_logged_in (w_session logged_out_world) = false /\
  w_db (run (example_env (HttpResponse 200 [])) (press_login "admin" "secret")
            logged_out_world)
  = example_db "notstarted" /\
  ss_logged_in
    (w_session (run (example_env (HttpResponse 200 []))
                    (press_login "admin" "secret") logged_out_world))
  = true /\
  w_ui (run (example_env (HttpResponse 200 [])) (press_login "admin" "guess")
            logged_out_world)
  = [st_error InvalidCredentials].
Proof.
  pose proof (logged_out_run_touches_nothing
                (example_env (HttpResponse 200 []))
                (press_login "admin" "secret") logged_out_world eq_refl)
    as (Hd & _ & Hin & _).
  pose proof (logged_out_run_touches_nothing
                (example_env (HttpResponse 200 []))
                (press_login "admin" "guess") logged_out_world eq_refl)
    as (_ & _ & _ & Herr).
  split; [reflexivity|]. split; [exact Hd|].
  split; [apply Hin; repeat split; reflexivity|].
  apply Herr; reflexivity.
Defined.

(** ** What a run writes, sends and raises *)

(** The action part lets one exception out: the one of line 202, for the
    name [selected_file_id] that no line has bound. *)
Lemma process_leads_section_raises
      (env : environment) (inp : widgets) (l : locals) (w : world)
      (e : exn) (w' : world) :
  process_leads_section env inp l w = (Raise e, w') ->
  e = UnboundLocalError "selected_file_id" /\
  process_button inp = true /\ selected_file_id l = None /\ w' = w.
Proof.
  unfold process_leads_section, send_for_processing, fetch_csv_data_text,
         encode_utf8, value_truthy.
  unfold_monad. intros H.
  repeat (break_match; simpl in *; inv_pair; try discriminate); auto.
Qed.

(** The action part sends a request only for the id it was given, with the
    status read as [notstarted], when the one row of the id holds a text
    that is not empty; the request carries that text as UTF-8. *)
Lemma process_leads_section_request
      (env : environment) (inp : widgets) (l : locals) (w : world)
      (o : outcome unit) (w' : world) :
  process_leads_section env inp l w = (o, w') ->
  w_http w' = w_http w \/
  exists id stored text data,
    process_button inp = true /\
    selected_file_id l = Some (Some id) /\
    selected_file_status l = Some (py "notstarted") /\
    select_csv_data id (w_db w) = [stored] /\
    stored_text stored = Some text /\
    text <> [] /\
    Utf8.encode text = Some data /\
    w_http w' = w_http w ++ [dispatch_request env id data].
Proof.
  unfold process_leads_section, send_for_processing, fetch_csv_data_text,
         encode_utf8, value_truthy, stored_text, dispatch_request.
  unfold_monad. intros H.
  repeat (break_match; simpl in *; inv_pair; try discriminate);
    try (left; reflexivity); right.
  all: match goal with
       | Hs : select_csv_data ?z _ = [?p], He : Utf8.encode ?s = Some ?a |- _ =>
         exists z, p, s, a
       end.
  all: match goal with
       | H : opt_str_eqb _ _ = true |- _ => apply opt_str_eqb_eq in H
       end.
  all: match goal with H : Json.loads _ = _ |- _ => rewrite H end.
  all: match goal with H : Json.obj_get _ _ = _ |- _ => rewrite H end.
  all: repeat split; auto.
  all: intros ->; discriminate.
Qed.

(** When the selection part ends without a rerun, it has bound
    [selected_file_id] exactly when the validated selection is a name that
    is not empty. *)
Lemma select_file_section_binds (inp : widgets) (w : world) (l : locals)
      (w' : world) :
  select_file_section inp w = (Done l, w') ->
  (selected_file_id l = None <->
   opt_str_truthy
     (validated_selection (w_session w)
                          (map fr_filename (select_files (w_db w)))) = false).
Proof.
  unfold select_file_section, validated_selection. unfold_monad.
  cbv beta iota zeta. intros H.
  destruct (select_files (w_db w)) as [|r0 rows] eqn:Hfiles.
  { cbv beta iota zeta in H. inv_pair. simpl.
    destruct (ss_selected_filename (w_session w)); simpl; tauto. }
  cbv beta iota zeta in H.
  remember (map fr_filename (r0 :: rows)) as names eqn:Hnames.
  cbn [w_session] in H.
  destruct (opt_str_in (ss_selected_filename (w_session w)) names) eqn:Hin.
  - cbv beta iota zeta in H. cbn [w_session] in H.
    destruct (opt_str_truthy (ss_selected_filename (w_session w))) eqn:Htr.
    + clear Hnames.
      repeat (break_match; simpl in *; inv_pair; try discriminate);
        simpl; split; congruence.
    + cbv beta iota zeta in H. inv_pair. simpl. tauto.
  - cbv beta iota zeta in H. cbn [w_session ss_selected_filename] in H.
    destruct (opt_str_truthy (hd_error names)) eqn:Htr.
    + clear Hnames.
      repeat (break_match; simpl in *; inv_pair; try discriminate);
        simpl; split; congruence.
    + cbv beta iota zeta in H. inv_pair. simpl. tauto.
Qed.

Lemma upload_section_session (env : environment) (inp : widgets) (w : world)
      (o : outcome unit) (w' : world) :
  upload_section env inp w = (o, w') ->
  ss_logged_in (w_session w') = ss_logged_in (w_session w) /\
  ss_selected_filename (w_session w')
  = ss_selected_filename (w_session w).
Proof.
  unfold upload_section, load_csv, save_csv. unfold_monad. simpl. intros H.
  repeat (break_match; simpl in *; inv_pair; try discriminate); auto.
Qed.

(** X2.  The only exception that leaves [main] is the [UnboundLocalError]
    of line 202.  A logged-in run ends with it exactly when "Process Leads"
    reads as pressed, the upload part did not ask for a rerun, and the
    selection left by lines 149-151 is missing or the empty name (no batch
    in the table, or a batch without a file name); the run then stops
    before the second tab, having written and sent nothing. *)
Theorem run_raises_only_unbound_selected_file_id
        (env : environment) (inp : widgets) (w : world) :
  ss_logged_in (w_session w) = true ->
  ((exists e, fst (main env inp w) = Raise e) <->
   process_button inp = true /\
   fst (upload_section env inp w) = Done tt /\
   opt_str_truthy
     (validated_selection (w_session w)
                          (map fr_filename (select_files (w_db w)))) = false)
  /\
  (forall e, fst (main env inp w) = Raise e ->
             e = UnboundLocalError "selected_file_id" /\
             w_db (run env inp w) = w_db w /\
             w_http (run env inp w) = w_http w).
Proof.
  intros Hlog. unfold run. rewrite (main_logged_in env inp w Hlog).
  destruct (upload_section env inp w) as [o1 w1] eqn:E1.
  pose proof (upload_section_session _ _ _ _ _ E1) as [_ Hsel1].
  apply upload_section_effect in E1
    as (Hh1 & [(-> & Hd1) | (-> & _)]).
  2:{ simpl. split; [|intros e C; discriminate].
      split; [intros (e & C); discriminate | intros (_ & C & _); discriminate]. }
  destruct (select_file_section inp w1) as [o2 w2] eqn:E2.
  pose proof E2 as E2'.
  apply select_file_section_effect in E2' as (Hd2 & Hh2 & Ho2).
  assert (validated_selection (w_session w1)
                              (map fr_filename (select_files (w_db w1)))
          = validated_selection (w_session w)
                                (map fr_filename (select_files (w_db w))))
    as Hval.
  { unfold validated_selection. rewrite Hsel1, Hd1. reflexivity. }
  destruct Ho2 as [-> | (l & -> & _)].
  { simpl. split; [|intros e C; discriminate].
    split; [intros (e & C); discriminate|].
    intros (_ & _ & Hv). exfalso. rewrite <- Hval in Hv.
    clear - E2 Hv. unfold select_file_section, validated_selection in *.
    unfold_monad. cbv beta iota zeta in E2.
    destruct (select_files (w_db w1)) as [|r0 rows].
    - cbv beta iota zeta in E2. discriminate.
    - cbv beta iota zeta in E2.
      remember (map fr_filename (r0 :: rows)) as names.
      cbn [w_session] in E2.
      destruct (opt_str_in (ss_selected_filename (w_session w1)) names).
      + cbv beta iota zeta in E2. cbn [w_session] in E2.
        rewrite Hv in E2. discriminate.
      + cbv beta iota zeta in E2.
        cbn [w_session ss_selected_filename] in E2.
        rewrite Hv in E2. discriminate. }
  pose proof (select_file_section_binds _ _ _ _ E2) as Hbind.
  rewrite Hval in Hbind.
  destruct (process_leads_section env inp l w2) as [o3 w3] eqn:E3.
  destruct o3 as [[]|e3|].
  - (* the action part ended normally: no exception afterwards *)
    assert (selected_file_id l <> None \/ process_button inp = false) as Hno.
    { clear - E3. unfold process_leads_section in E3.
      destruct (process_button inp); auto.
      destruct (selected_file_id l); [left; discriminate|].
      discriminate. }
    destruct (process_captions l w3) as [o4 w4] eqn:E4.
    apply process_captions_effect in E4 as (-> & _).
    destruct (processed_leads_tab inp w4) as [o5 w5] eqn:E5.
    apply processed_leads_tab_effect in E5 as (_ & [(-> & _) | (-> & _)]);
      simpl; (split; [|intros e C; discriminate]);
      (split; [intros (e & C); discriminate|]);
      intros (Hb & _ & Hv); apply Hbind in Hv;
      destruct Hno; congruence.
  - apply process_leads_section_raises in E3 as (-> & Hb & Hid & ->).
    simpl. split.
    + split; [intros _ | intros _; eauto].
      repeat split; auto. apply Hbind; auto.
    + intros e C. inversion C; subst.
      repeat split; congruence.
  - simpl. split; [|intros e C; discriminate].
    split; [intros (e & C); discriminate|].
    intros (_ & _ & Hv). apply Hbind in Hv.
    apply process_leads_section_effect in E3
      as [(C & _) | (_ & id & st & t & d & b & _ & Hid & _)]; congruence.
Qed.

Lemma run_raises_only_unbound_selected_file_id_witness :
  ss_logged_in (w_session no_batches_world) = true /\
  fst (main (example_env (HttpResponse 200 [])) press_process
            no_batches_world)
  = Raise (UnboundLocalError "selected_file_id") /\
  fst (main (example_env (HttpResponse 200 [])) press_process
            unnamed_batch_world)
  = Raise (UnboundLocalError "selected_file_id") /\
  w_db (run (example_env (HttpResponse 200 [])) press_process
            unnamed_batch_world)
  = w_db unnamed_batch_world.
Proof.
  pose proof (run_raises_only_unbound_selected_file_id
                (example_env (HttpResponse 200 [])) press_process
                unnamed_batch_world eq_refl) as [_ H].
  split; [reflexivity|]. split; [reflexivity|]. split; [reflexivity|].
  exact (proj1 (proj2 (H _ eq_refl))).
Defined.

(** X3.  Every write is followed by [st.rerun]: a run that ends in another
    way, normally or with the exception of line 202, has left both tables
    as they were; and a run never follows one write by another. *)
Theorem run_without_rerun_writes_nothing
        (env : environment) (inp : widgets) (w : world) :
  (fst (main env inp w) <> Rerun -> w_db (run env inp w) = w_db w) /\
  (w_db (run env inp w) <> w_db w ->
   fst (main env inp w) = Rerun /\
   (w_db (run env inp w) = delete_duplicates (w_db w) \/
    (exists id, w_db (run env inp w) = update_status_inprogress id (w_db w)) \/
    (exists fn data, w_db (run env inp w) = insert_upload fn data (w_db w)))).
Proof.
  assert (fst (main env inp w) <> Rerun -> w_db (run env inp w) = w_db w)
    as Hmain.
  { unfold run.
    destruct (ss_logged_in (w_session w)) eqn:Hlog.
    2:{ intros _. rewrite (main_logged_out env inp w Hlog).
        destruct (login_section env inp w) as [o w'] eqn:E.
        apply login_section_effect in E as [Hd _]. exact Hd. }
    rewrite (main_logged_in env inp w Hlog).
    destruct (upload_section env inp w) as [o1 w1] eqn:E1.
    apply upload_section_effect in E1 as (_ & [(-> & Hd1) | (-> & _)]);
      [|simpl; congruence].
    destruct (select_file_section inp w1) as [o2 w2] eqn:E2.
    apply select_file_section_effect in E2 as (Hd2 & _ & [-> | (l & -> & _)]);
      [simpl; congruence|].
    destruct (process_leads_section env inp l w2) as [o3 w3] eqn:E3.
    apply process_leads_section_effect in E3
      as [(Ho3 & Hd3 & _) | (-> & _)]; [|simpl; congruence].
    destruct o3 as [[]|e|]; [|simpl; congruence|congruence].
    destruct (process_captions l w3) as [o4 w4] eqn:E4.
    apply process_captions_effect in E4 as (-> & Hd4 & _).
    destruct (processed_leads_tab inp w4) as [o5 w5] eqn:E5.
    apply processed_leads_tab_effect in E5 as (_ & [(-> & Hd5) | (-> & _)]);
      simpl; congruence. }
  split; [exact Hmain|].
  intros Hne. split.
  - destruct (fst (main env inp w)) as [[]|e|] eqn:E; auto;
      exfalso; apply Hne, Hmain; discriminate.
  - destruct (main_effect env inp w) as [Hw _].
    destruct Hw; eauto. contradiction.
Qed.

Lemma run_without_rerun_writes_nothing_witness :
  w_db (run (example_env (HttpResponse 200 [])) press_process
            (example_world "notstarted"))
  <> w_db (example_world "notstarted") /\
  fst (main (example_env (HttpResponse 200 [])) press_process
            (example_world "notstarted")) = Rerun /\
  fst (main (example_env (HttpResponse 500 [])) press_process
            (example_world "notstarted")) <> Rerun /\
  w_db (run (example_env (HttpResponse 500 [])) press_process
            (example_world "notstarted"))
  = w_db (example_world "notstarted").
Proof.
  assert (w_db (run (example_env (HttpResponse 200 [])) press_process
                    (example_world "notstarted"))
          <> w_db (example_world "notstarted")) as Hne
    by (vm_compute; discriminate).
  assert (fst (main (example_env (HttpResponse 500 [])) press_process
                    (example_world "notstarted")) <> Rerun) as Hdone
    by (vm_compute; discriminate).
  split; [exact Hne|].
  split.
  - exact (proj1 (proj2 (run_without_rerun_writes_nothing
                           (example_env (HttpResponse 200 [])) press_process
                           (example_world "notstarted")) Hne)).
  - split; [exact Hdone|].
    exact (proj1 (run_without_rerun_writes_nothing
                    (example_env (HttpResponse 500 [])) press_process
                    (example_world "notstarted")) Hdone).
Defined.

(** X4.  A run sends at most one request, and only the one of line 226: the
    session is logged in, "Process Leads" reads as pressed, the listing
    shows the selected batch as [notstarted], exactly one row has its id,
    and the cell of that row decodes to a text that is not empty.  The
    request then goes to the workflow URL with that text in UTF-8 as its
    body, the content type [text/csv] and the id of the batch. *)
Theorem run_sends_only_the_selected_notstarted_batch
        (env : environment) (inp : widgets) (w : world) :
  w_http (run env inp w) = w_http w \/
  exists id fn stored text data,
    ss_logged_in (w_session w) = true /\
    process_button inp = true /\
    selected_row (w_db w) fn = Some (id, fn, py "notstarted") /\
    select_csv_data id (w_db w) = [stored] /\
    stored_text stored = Some text /\
    text <> [] /\
    Utf8.encode text = Some data /\
    w_http (run env inp w)
    = w_http w ++ [mk_http_request (secrets_workflow_url env) data
                                   (py "text/csv") id].
Proof.
  unfold run.
  destruct (ss_logged_in (w_session w)) eqn:Hlog.
  2:{ left. rewrite (main_logged_out env inp w Hlog).
      destruct (login_section env inp w) as [o w'] eqn:E.
      apply login_section_effect in E as [_ Hh]. exact Hh. }
  rewrite (main_logged_in env inp w Hlog).
  destruct (upload_section env inp w) as [o1 w1] eqn:E1.
  apply upload_section_effect in E1 as (Hh1 & [(-> & Hd1) | (-> & _)]);
    [|left; exact Hh1].
  destruct (select_file_section inp w1) as [o2 w2] eqn:E2.
  apply select_file_section_effect in E2
    as (Hd2 & Hh2 & [-> | (l & -> & Hl)]);
    [left; simpl; congruence|].
  destruct (process_leads_section env inp l w2) as [o3 w3] eqn:E3.
  pose proof (process_leads_section_request _ _ _ _ _ _ E3) as Hreq.
  assert (w_http (snd (match o3 with
                       | Done _ =>
                         match process_captions l w3 with
                         | (Done _, w4) => processed_leads_tab inp w4
                         | (Raise e, w4) => (Raise e, w4)
                         | (Rerun, w4) => (Rerun, w4)
                         end
                       | Raise e => (Raise e, w3)
                       | Rerun => (Rerun, w3)
                       end)) = w_http w3) as Hrest.
  { destruct o3 as [[]|e|]; try reflexivity.
    destruct (process_captions l w3) as [o4 w4] eqn:E4.
    apply process_captions_effect in E4 as (-> & _ & Hh4 & _).
    destruct (processed_leads_tab inp w4) as [o5 w5] eqn:E5.
    apply processed_leads_tab_effect in E5 as (Hh5 & _).
    simpl. congruence. }
  rewrite Hrest.
  destruct Hreq as [Hsame | (id & stored & text & data & Hb & Hid & Hst
                             & Hrow & Htext & Hne & Henc & Hsent)].
  - left. congruence.
  - right. destruct Hl as [_ Hl].
    destruct (Hl id Hid) as (fn & st & _ & Hst' & Hsel).
    assert (st = py "notstarted") as -> by congruence.
    exists id, fn, stored, text, data.
    rewrite Hd2, Hd1 in Hrow. rewrite Hd1 in Hsel.
    rewrite Hsent, Hh2, Hh1. repeat split; auto.
Qed.

(** ** Uploads that are not saved *)

(** X5.  The upload part saves nothing but the file of this run's uploader:
    with no file in the uploader it forgets the file an earlier run left in
    the session and saves nothing, whatever the save button reads; a file
    that [pd.read_csv] cannot read is forgotten too, with the error of
    line 29; and a readable file under a new name whose bytes are not UTF-8
    is not inserted: the error of line 126 is shown with the decoding
    error, the run goes on and the file stays in the session. *)
Theorem upload_section_rejects
        (env : environment) (inp : widgets) (w : world) :
  (csv_uploader inp = None ->
   upload_section env inp w
   = (Done tt,
      mk_world (w_db w)
               (mk_session (ss_logged_in (w_session w))
                           (ss_selected_filename (w_session w)) None)
               (w_ui w) (w_http w)))
  /\
  (forall f,
     csv_uploader inp = Some f ->
     pd_read_csv env (uf_value f) = None ->
     upload_section env inp w
     = (Done tt,
        mk_world (w_db w)
                 (mk_session (ss_logged_in (w_session w))
                             (ss_selected_filename (w_session w)) None)
                 (w_ui w ++ [st_error ErrorReadingCsv]) (w_http w)))
  /\
  (forall f df,
     csv_uploader inp = Some f ->
     pd_read_csv env (uf_value f) = Some df ->
     save_button inp = true ->
     ~ In (uf_name f) (filenames (w_db w)) ->
     Utf8.decode (uf_value f) = None ->
     upload_section env inp w
     = (Done tt,
        mk_world (w_db w)
                 (mk_session (ss_logged_in (w_session w))
                             (ss_selected_filename (w_session w)) (Some f))
                 (w_ui w ++ [st_dataframe_upload df;
                             st_error (ErrorSaving UnicodeDecodeError)])
                 (w_http w))).
Proof.
  split; [|split].
  - intros H. apply upload_section_no_file; auto.
  - intros f Hf Hread. unfold upload_section, load_csv. rewrite Hf, Hread.
    reflexivity.
  - intros f df Hf Hread Hsave Hnew Hdec.
    unfold upload_section, load_csv. rewrite Hf, Hread, Hsave.
    unfold_monad. simpl. unfold save_csv. unfold_monad. simpl.
    destruct (select_filename_exists_In (uf_name f) (w_db w))
      as [[_ C]|[-> _]]; [contradiction|]. simpl.
    rewrite Hdec. simpl. rewrite <- app_assoc. reflexivity.
Qed.

Lemma upload_section_rejects_witness :
  upload_section (example_env (HttpResponse 200 [])) press_process
                 stale_upload_world
  = (Done tt, mk_world (mk_database [] []) (logged_in None) [] []) /\
  upload_section unreadable_env (press_save leads_csv) empty_world
  = (Done tt,
     mk_world (mk_database [] []) (logged_in None)
              [st_error ErrorReadingCsv] []) /\
  upload_section (example_env (HttpResponse 200 [])) (press_save latin1_csv)
                 empty_world
  = (Done tt,
     mk_world (mk_database [] []) (mk_session true None (Some latin1_csv))
              [st_dataframe_upload [];
               st_error (ErrorSaving UnicodeDecodeError)] []).
Proof.
  split; [|split].
  - apply (proj1 (upload_section_rejects
                    (example_env (HttpResponse 200 [])) press_process
                    stale_upload_world)).
    reflexivity.
  - apply (proj1 (proj2 (upload_section_rejects
                           unreadable_env (press_save leads_csv) empty_world))
                 leads_csv); reflexivity.
  - apply (proj2 (proj2 (upload_section_rejects
                           (example_env (HttpResponse 200 []))
                           (press_save latin1_csv) empty_world))
                 latin1_csv []); try reflexivity.
    simpl; tauto.
Defined.

(** ** The selection *)

(** The selection part on a listing that is not empty, in one equation. *)
Lemma select_file_section_listed (inp : widgets) (w : world) :
  select_files (w_db w) <> [] ->
  let df := select_files (w_db w) in
  let names := map fr_filename df in
  let v := validated_selection (w_session w) names in
  let s1 := mk_session (ss_logged_in (w_session w)) v
                       (ss_uploaded_file_object (w_session w)) in
  let index := match v with
               | Some sel =>
                 match list_index sel names with Some i => i | None => O end
               | None => O
               end in
  let box := selectbox_value names index (file_selector inp) in
  select_file_section inp w
  = if opt_str_truthy v then
      if opt_str_eqb box v then
        match filter (fun r => opt_str_eqb (Some (fr_filename r)) v) df with
        | r :: _ =>
          (Done (mk_locals (Some df) v (Some (fr_status r))
                           (negb (str_eqb (fr_status r) (py "notstarted")))
                           (Some (Some (fr_id r)))),
           mk_world (w_db w) s1
                    (w_ui w ++ [st_selectbox names index;
                                st_markdown
                                  (StatusLine (get_status_color (fr_status r))
                                              (fr_status r) (fr_id r))])
                    (w_http w))
        | [] =>
          (Done (mk_locals (Some df) v None true (Some None)),
           mk_world (w_db w) s1
                    (w_ui w ++ [st_selectbox names index;
                                st_warning DetailsUnavailable])
                    (w_http w))
        end
      else
        (Rerun,
         mk_world (w_db w)
                  (mk_session (ss_logged_in (w_session w)) box
                              (ss_uploaded_file_object (w_session w)))
                  (w_ui w ++ [st_selectbox names index]) (w_http w))
    else
      (Done (mk_locals (Some df) None None true None),
       mk_world (w_db w) s1 (w_ui w ++ [st_caption NoFilesForSelection])
                (w_http w)).
Proof.
  intros Hne. cbv zeta.
  unfold select_file_section. unfold_monad. cbv beta iota zeta.
  remember (select_files (w_db w)) as df eqn:Hdf.
  destruct df as [|r0 rows]; [congruence|].
  cbv beta iota zeta. cbn [w_session].
  remember (map fr_filename (r0 :: rows)) as names eqn:Hnames.
  unfold validated_selection.
  destruct (w_session w) as [li sel upl] eqn:Hs.
  cbn [ss_selected_filename ss_logged_in ss_uploaded_file_object].
  destruct (opt_str_in sel names) eqn:Hin; cbv beta iota zeta;
    cbn [w_session ss_selected_filename ss_logged_in ss_uploaded_file_object
         w_db w_ui w_http].
  - rewrite Hs.
    cbn [ss_selected_filename ss_logged_in ss_uploaded_file_object].
    destruct (opt_str_truthy sel); [|rewrite ?Hs; reflexivity].
    match goal with
    | |- context [opt_str_eqb ?b sel] => destruct (opt_str_eqb b sel)
    end; cbv beta iota zeta;
      cbn [w_session ss_selected_filename ss_logged_in
           ss_uploaded_file_object w_db w_ui w_http];
      [|rewrite Hs; reflexivity].
    destruct (filter _ (r0 :: rows)) as [|r t]; cbv beta iota zeta;
      cbn [w_db w_session w_ui w_http]; rewrite ?Hs, <- ?app_assoc; reflexivity.
  - rewrite Hs.
    cbn [ss_selected_filename ss_logged_in ss_uploaded_file_object].
    destruct (opt_str_truthy (hd_error names)); [|reflexivity].
    match goal with
    | |- context [opt_str_eqb ?b (hd_error names)] =>
      destruct (opt_str_eqb b (hd_error names))
    end; cbv beta iota zeta;
      cbn [w_session ss_selected_filename ss_logged_in
           ss_uploaded_file_object w_db w_ui w_http];
      [|reflexivity].
    destruct (filter _ (r0 :: rows)) as [|r t]; cbv beta iota zeta;
      cbn [w_db w_session w_ui w_http]; rewrite <- app_assoc; reflexivity.
Qed.

Lemma validated_selection_listed (s : session) (names : list pystr) :
  names <> [] ->
  exists x, validated_selection s names = Some x /\ In x names.
Proof.
  intros Hne. unfold validated_selection.
  destruct (opt_str_in (ss_selected_filename s) names) eqn:E.
  - destruct (ss_selected_filename s) as [x|]; [|discriminate].
    exists x; split; auto. apply str_in_In; auto.
  - destruct names as [|x names]; [congruence|].
    exists x; split; [reflexivity | left; reflexivity].
Qed.

Lemma selectbox_value_listed (names : list pystr) (x : pystr)
      (choice : option pystr) :
  In x names ->
  let index := match list_index x names with Some i => i | None => O end in
  exists c, selectbox_value names index choice = Some c /\ In c names /\
            (choice = None -> c = x) /\
            (forall y, choice = Some y -> In y names -> c = y).
Proof.
  intros Hx index.
  destruct (list_index_nth _ _ Hx) as (i & Hi & Hn).
  unfold index. rewrite Hi. unfold selectbox_value.
  destruct choice as [y|].
  - destruct (str_in y names) eqn:E.
    + exists y. apply str_in_In in E. repeat split; auto; try discriminate.
      intros z Hz _; congruence.
    + exists x. rewrite Hn. repeat split; auto; try discriminate.
      intros z Hz Hin. inversion Hz; subst.
      apply str_in_In in Hin. congruence.
  - exists x. rewrite Hn. repeat split; auto. discriminate.
Qed.

Lemma filter_listed_name (df : list file_row) (x : pystr) :
  In x (map fr_filename df) ->
  filter (fun r => opt_str_eqb (Some (fr_filename r)) (Some x)) df <> [].
Proof.
  intros Hin. apply in_map_iff in Hin as (r & Hr & Hin).
  intros C.
  assert (In r (filter (fun r => opt_str_eqb (Some (fr_filename r)) (Some x))
                       df)) as H.
  { apply filter_In; split; auto. simpl. apply str_eqb_eq; auto. }
  rewrite C in H. destruct H.
Qed.

(** X6.  When the listing is not empty, the selection part always leaves a
    listed file name in the session, whatever the session held and whatever
    the select box gives; with no choice in the select box the name is the
    one of the session when it is listed and the first of the listing
    otherwise, and the part does not ask for a rerun; and when the part
    binds [selected_file_id], it binds it to the id of a row: the branch of
    line 186 is never taken. *)
Theorem selection_part_keeps_a_listed_name (inp : widgets) (w : world) :
  select_files (w_db w) <> [] ->
  let names := map fr_filename (select_files (w_db w)) in
  (exists fn,
     ss_selected_filename (w_session (snd (select_file_section inp w)))
     = Some fn /\ In fn names) /\
  (file_selector inp = None ->
   ss_selected_filename (w_session (snd (select_file_section inp w)))
   = validated_selection (w_session w) names /\
   fst (select_file_section inp w) <> Rerun) /\
  (forall l, fst (select_file_section inp w) = Done l ->
             selected_file_id l <> Some None).
Proof.
  intros Hne names.
  pose proof (select_file_section_listed inp w Hne) as Heq.
  cbv zeta in Heq. fold names in Heq.
  assert (names <> []) as Hn.
  { unfold names. destruct (select_files (w_db w)); [congruence|discriminate]. }
  destruct (validated_selection_listed (w_session w) names Hn)
    as (x & Hv & Hx).
  rewrite Hv in Heq.
  destruct (selectbox_value_listed names x (file_selector inp) Hx)
    as (c & Hbox & Hc & Hnone & _).
  cbv zeta in Hbox. rewrite Hbox in Heq.
  pose proof (filter_listed_name (select_files (w_db w)) x Hx) as Hf.
  rewrite Heq, Hv.
  destruct (opt_str_truthy (Some x)) eqn:Htr.
  - destruct (opt_str_eqb (Some c) (Some x)) eqn:Hcx.
    + destruct (filter _ (select_files (w_db w))) as [|r t]; [congruence|].
      simpl. split; [eauto|]. split.
      * intros _. split; [reflexivity | discriminate].
      * intros l Hl. inversion Hl; subst. simpl. discriminate.
    + simpl. split; [eauto|]. split.
      * intros Hsel. specialize (Hnone Hsel). subst c.
        simpl in Hcx. rewrite str_eqb_refl in Hcx. discriminate.
      * intros l Hl. discriminate.
  - simpl. split; [eauto|]. split.
    + intros _. split; [reflexivity | discriminate].
    + intros l Hl. inversion Hl; subst. simpl. discriminate.
Qed.

Lemma selection_part_keeps_a_listed_name_witness :
  select_files (w_db (example_world "notstarted")) <> [] /\
  ss_selected_filename
    (w_session (snd (select_file_section
                       refresh
                       (mk_world (example_db "notstarted")
                                 (logged_in (Some (py "gone.csv"))) [] []))))
  = Some (py "leads.csv").
Proof.
  assert (select_files (w_db (example_world "notstarted")) <> []) as Hne
    by (vm_compute; discriminate).
  split; [exact Hne|].
  pose proof (selection_part_keeps_a_listed_name
                refresh
                (mk_world (example_db "notstarted")
                          (logged_in (Some (py "gone.csv"))) [] [])
                Hne) as (_ & H & _).
  rewrite (proj1 (H eq_refl)). reflexivity.
Defined.

(** X7.  Picking another listed file in the select box only changes the
    selection: the run stores the name in the session and asks for a rerun
    at line 171, before the action part and the second tab, so that
    nothing is sent, written or deleted in that run even when "Process
    Leads" and both deduplication buttons read as pressed. *)
Theorem picking_another_file_only_reruns
        (env : environment) (inp : widgets) (w : world) (c sel : pystr) :
  ss_logged_in (w_session w) = true ->
  csv_uploader inp = None ->
  file_selector inp = Some c ->
  In c (map fr_filename (select_files (w_db w))) ->
  validated_selection (w_session w)
                      (map fr_filename (select_files (w_db w))) = Some sel ->
  sel <> [] ->
  c <> sel ->
  exists shown,
    main env inp w
    = (Rerun,
       mk_world (w_db w) (mk_session true (Some c) None)
                (w_ui w ++ shown) (w_http w)).
Proof.
  intros Hlog Hup Hsel Hc Hv Hne Hcs.
  rewrite (main_logged_in env inp w Hlog).
  rewrite (upload_section_no_file env inp w Hup).
  set (w1 := mk_world (w_db w)
                      (mk_session (ss_logged_in (w_session w))
                                  (ss_selected_filename (w_session w)) None)
                      (w_ui w) (w_http w)).
  assert (select_files (w_db w1) <> []) as Hfiles.
  { simpl. intros C. rewrite C in Hc. destruct Hc. }
  pose proof (select_file_section_listed inp w1 Hfiles) as Heq.
  cbv zeta in Heq. simpl w_db in Heq.
  assert (validated_selection (w_session w1)
                              (map fr_filename (select_files (w_db w)))
          = Some sel) as Hv1 by exact Hv.
  rewrite Hv1 in Heq.
  assert (In sel (map fr_filename (select_files (w_db w)))) as Hin.
  { destruct (validated_selection_listed
                (w_session w) (map fr_filename (select_files (w_db w))))
      as (x & Hx & Hxin).
    - intros C. rewrite C in Hc. destruct Hc.
    - congruence. }
  destruct (selectbox_value_listed _ sel (file_selector inp) Hin)
    as (b & Hbox & _ & _ & Hpick).
  cbv zeta in Hbox. rewrite Hbox in Heq.
  rewrite (Hpick c Hsel Hc) in Heq.
  assert (opt_str_truthy (Some sel) = true) as Htr
    by (destruct sel; [congruence | reflexivity]).
  rewrite Htr in Heq.
  assert (opt_str_eqb (Some c) (Some sel) = false) as Hneq
    by (apply str_eqb_neq; exact Hcs).
  rewrite Hneq in Heq. rewrite Heq. simpl. rewrite Hlog.
  eexists. reflexivity.
Qed.

Lemma picking_another_file_only_reruns_witness :
  exists shown,
    main (example_env (HttpResponse 200 [])) (pick_and_press "more.csv")
         two_batches_world
    = (Rerun,
       mk_world (w_db two_batches_world)
                (mk_session true (Some (py "more.csv")) None)
                shown []).
Proof.
  destruct (picking_another_file_only_reruns
              (example_env (HttpResponse 200 [])) (pick_and_press "more.csv")
              two_batches_world (py "more.csv") (py "leads.csv"))
    as (shown & H); try reflexivity; try discriminate.
  - vm_compute. auto.
  - exists shown. exact H.
Defined.

(** ** Dispatches that send nothing *)

Lemma app_one_not_self {A} (l : list A) (x : A) : l ++ [x] <> l.
Proof.
  intros H. apply (f_equal (@List.length A)) in H.
  rewrite length_app in H. simpl in H. lia.
Qed.

(** X8.  When the action part is entered for a batch read as [notstarted]
    and sends no request (no row or several rows of the id, an empty cell, a
    cell that is not JSON or not an object, no [csv_content] or an empty or
    non-text one, a text with a surrogate), it always ends normally with the
    error of line 239 as the last message, and leaves the tables as they
    were; a cell that is not JSON shows the error of line 216 before it. *)
Theorem dispatch_without_request_shows_error
        (env : environment) (inp : widgets) (l : locals) (w : world)
        (id : Z) :
  process_button inp = true ->
  selected_file_id l = Some (Some id) ->
  selected_file_status l = Some (py "notstarted") ->
  w_http (snd (process_leads_section env inp l w)) = w_http w ->
  fst (process_leads_section env inp l w) = Done tt /\
  w_db (snd (process_leads_section env inp l w)) = w_db w /\
  (exists before e,
     w_ui (snd (process_leads_section env inp l w))
     = w_ui w ++ before
       ++ [st_error (ErrorProcessing (selected_filename l) e)]) /\
  (forall stored,
     select_csv_data id (w_db w) = [stored] -> stored <> [] ->
     Json.loads stored = None ->
     w_ui (snd (process_leads_section env inp l w))
     = w_ui w ++ [st_error (FailedToParseStored JSONDecodeError);
                  st_error (ErrorProcessing (selected_filename l)
                                            (UnboundLocalError "response"))]).
Proof.
  intros Hb Hid Hst.
  unfold process_leads_section. rewrite Hb, Hid, Hst. simpl.
  rewrite bind_unfold. simpl. rewrite try_except_unfold.
  unfold send_for_processing, fetch_csv_data_text, encode_utf8, value_truthy.
  unfold_monad. intros Hh.
  split; [|split; [|split]].
  - revert Hh.
    repeat (break_match; simpl in *; inv_pair; try discriminate); auto;
      intros Hh; exfalso; eapply app_one_not_self; eauto.
  - revert Hh.
    repeat (break_match; simpl in *; inv_pair; try discriminate); auto;
      intros Hh; exfalso; eapply app_one_not_self; eauto.
  - revert Hh.
    repeat (break_match; simpl in *; inv_pair; try discriminate);
      intros Hh;
      try (exfalso; eapply app_one_not_self; eassumption);
      rewrite <- ?app_assoc;
      first [ exists [], e; reflexivity
            | eexists [_], _; reflexivity
            | eexists [], _; reflexivity ].
  - intros stored Hrow Hne Hloads. clear Hh. rewrite Hrow. simpl.
    assert (str_truthy stored = true) as Htr
      by (destruct stored; [congruence | reflexivity]).
    rewrite Htr, Hloads. simpl. rewrite <- app_assoc. reflexivity.
Qed.

Lemma dispatch_without_request_shows_error_witness :
  w_http (snd (process_leads_section (example_env (HttpResponse 200 []))
                                     press_process listed_notstarted
                                     broken_cell_world))
  = w_http broken_cell_world /\
  process_leads_section (example_env (HttpResponse 200 [])) press_process
                        listed_notstarted broken_cell_world
  = (Done tt,
     mk_world (w_db broken_cell_world) (w_session broken_cell_world)
              [st_error (FailedToParseStored JSONDecodeError);
               st_error (ErrorProcessing (Some (py "leads.csv"))
                                         (UnboundLocalError "response"))]
              []).
Proof.
  assert (w_http (snd (process_leads_section
                         (example_env (HttpResponse 200 []))
                         press_process listed_notstarted broken_cell_world))
          = w_http broken_cell_world) as Hh by reflexivity.
  split; [exact Hh|].
  pose proof (dispatch_without_request_shows_error
                (example_env (HttpResponse 200 [])) press_process
                listed_notstarted broken_cell_world 1
                eq_refl eq_refl eq_refl Hh) as (Ho & Hd & _ & Hui).
  specialize (Hui (py "name,handle") eq_refl ltac:(discriminate) eq_refl).
  destruct (process_leads_section (example_env (HttpResponse 200 []))
                                  press_process listed_notstarted
                                  broken_cell_world) as [o w'] eqn:E.
  simpl in *. subst o.
  destruct w' as [db s ui http]. simpl in *. subst.
  f_equal. f_equal. vm_compute in E. inversion E. reflexivity.
Defined.

(** ** Deduplicating again *)

Lemma filter_all_true {A} (f : A -> bool) (l : list A) :
  (forall x, In x l -> f x = true) -> filter f l = l.
Proof.
  induction l as [|x l IH]; simpl; auto. intros H.
  rewrite (H x (or_introl eq_refl)). f_equal. apply IH.
  intros y Hy. apply H. right; auto.
Qed.

Lemma filter_none_true {A} (f : A -> bool) (l : list A) :
  (forall x, In x l -> f x = true) -> filter (fun x => negb (f x)) l = [].
Proof.
  induction l as [|x l IH]; simpl; auto. intros H.
  rewrite (H x (or_introl eq_refl)). simpl. apply IH.
  intros y Hy. apply H. right; auto.
Qed.

(** Among the survivors of the [DELETE] every row survives again. *)
Lemma dedupe_keep_survivors (leads : list processed_lead) (r : processed_lead) :
  In r (filter (dedupe_keep leads) leads) ->
  dedupe_keep (filter (dedupe_keep leads) leads) r = true.
Proof.
  intros Hr. apply filter_In in Hr as [_ Hk].
  apply dedupe_keep_minimal. intros r' Hr' Hkey.
  apply filter_In in Hr' as [Hr' _].
  apply (proj1 (dedupe_keep_minimal leads r) Hk r' Hr' Hkey).
Qed.

Lemma delete_duplicates_again (db : database) :
  delete_duplicates (delete_duplicates db) = delete_duplicates db /\
  delete_duplicates_rowcount (delete_duplicates db) = 0.
Proof.
  unfold delete_duplicates_rowcount, delete_duplicates.
  cbn [processed_leads csv_uploads].
  set (kept := filter (dedupe_keep (processed_leads db)) (processed_leads db)).
  rewrite (filter_all_true (dedupe_keep kept) kept)
    by apply dedupe_keep_survivors.
  rewrite (filter_none_true (dedupe_keep kept) kept)
    by apply dedupe_keep_survivors.
  split; reflexivity.
Qed.

(** X9.  A deduplication right after a deduplication deletes nothing and
    reports zero rows; a result record without a user name is never
    deleted; and the deduplication leaves the batches as they were. *)
Theorem deduplicate_again_deletes_nothing (w : world) :
  let w1 := snd (deduplicate w) in
  deduplicate w1
  = (Rerun,
     mk_world (w_db w1) (w_session w1)
              (w_ui w1 ++ [st_success (DeduplicationComplete 0)])
              (w_http w1)) /\
  (forall r, In r (processed_leads (w_db w)) -> pl_username r = None ->
             In r (processed_leads (w_db w1))) /\
  csv_uploads (w_db w1) = csv_uploads (w_db w).
Proof.
  cbv zeta.
  assert (snd (deduplicate w)
          = mk_world (delete_duplicates (w_db w)) (w_session w)
                     (w_ui w ++ [st_success
                                   (DeduplicationComplete
                                      (delete_duplicates_rowcount (w_db w)))])
                     (w_http w)) as -> by reflexivity.
  destruct (delete_duplicates_again (w_db w)) as [Hdb Hcount].
  split; [|split].
  - unfold deduplicate. unfold_monad. cbn [w_db w_session w_ui w_http].
    rewrite Hdb, Hcount. reflexivity.
  - cbn [w_db]. intros r Hr Hnull. apply filter_In; split; auto.
    apply dedupe_keep_minimal. intros r' _ (k & Hk & _). congruence.
  - reflexivity.
Qed.

(** ** From the upload to the request *)

(** The upload part on a readable file under a new name, with the save
    button pressed. *)
Lemma upload_section_saves (env : environment) (inp : widgets) (w : world)
      (f : uploaded_file) (df : list (list pystr)) (text : pystr) :
  csv_uploader inp = Some f ->
  pd_read_csv env (uf_value f) = Some df ->
  save_button inp = true ->
  ~ In (uf_name f) (filenames (w_db w)) ->
  Utf8.decode (uf_value f) = Some text ->
  upload_section env inp w
  = (Rerun,
     mk_world (insert_upload (uf_name f)
                             (Json.dumps_dict1 (py "csv_content") text)
                             (w_db w))
              (mk_session (ss_logged_in (w_session w))
                          (ss_selected_filename (w_session w)) None)
              (w_ui w ++ [st_dataframe_upload df;
                          st_success (SavedSuccessfully (uf_name f))])
              (w_http w)).
Proof.
  intros Hf Hread Hsave Hnew Hdec.
  unfold upload_section, load_csv. rewrite Hf, Hread, Hsave.
  unfold_monad. simpl.
  rewrite (save_csv_inserts f _ text); auto.
  simpl. rewrite <- app_assoc. reflexivity.
Qed.

Lemma find_In_some {A} (p : A -> bool) (l : list A) (x : A) :
  In x l -> p x = true -> exists y, find p l = Some y.
Proof.
  induction l as [|a l IH]; simpl; [tauto|].
  intros [->|Hx] Hp.
  - rewrite Hp. eauto.
  - destruct (p a); eauto.
Qed.

(** The listing picks the new row for the name of a file just registered. *)
Lemma selected_row_inserted (fn data : pystr) (db : database) :
  ~ In fn (filenames db) ->
  selected_row (insert_upload fn data db) fn
  = Some (next_upload_id db, fn, py "notstarted").
Proof.
  intros Hnew.
  assert (In (next_upload_id db, fn, py "notstarted")
             (select_files (insert_upload fn data db))) as Hin.
  { apply select_files_In.
    exists (mk_csv_upload (next_upload_id db) fn data (py "notstarted")).
    split; [|repeat split]. unfold insert_upload; simpl.
    apply in_or_app; right; left; reflexivity. }
  destruct (find_In_some (fun r => str_eqb (fr_filename r) fn) _ _ Hin)
    as (y & Hy); [apply str_eqb_refl|].
  unfold selected_row. rewrite Hy. f_equal.
  apply find_some in Hy as [Hyin Hyfn]. apply str_eqb_eq in Hyfn.
  destruct y as [[i f] st]. unfold fr_filename in Hyfn; simpl in Hyfn. subst f.
  apply select_files_In in Hyin as (r & Hr & <- & Hrfn & <-).
  unfold insert_upload in Hr; simpl in Hr.
  apply in_app_or in Hr as [Hold | [<- | []]].
  - exfalso. apply Hnew. unfold filenames. rewrite <- Hrfn.
    apply in_map; auto.
  - reflexivity.
Qed.

(** X10.  From the upload to the request.  A run that saves a readable
    UTF-8 file under a new name appends the batch and asks for a rerun; the
    listing of the new table picks that batch, [notstarted], for the name;
    and a later run in which that name is selected and "Process Leads" is
    pressed, unless the text is empty, sends the uploaded bytes themselves
    with the id of the batch and, on the answer 200, marks the batch
    [inprogress]. *)
Theorem saved_file_is_dispatched_as_uploaded
        (env : environment) (w : world) (f : uploaded_file)
        (df : list (list pystr)) (text : pystr) :
  ss_logged_in (w_session w) = true ->
  pd_read_csv env (uf_value f) = Some df ->
  ~ In (uf_name f) (filenames (w_db w)) ->
  uf_name f <> [] ->
  Utf8.decode (uf_value f) = Some text ->
  text <> [] ->
  let id := next_upload_id (w_db w) in
  let db1 := insert_upload (uf_name f)
                           (Json.dumps_dict1 (py "csv_content") text)
                           (w_db w) in
  (exists ui1,
     main env (press_save f) w
     = (Rerun,
        mk_world db1
                 (mk_session true (ss_selected_filename (w_session w)) None)
                 ui1 (w_http w))) /\
  selected_row db1 (uf_name f) = Some (id, uf_name f, py "notstarted") /\
  forall env' ui http body,
    requests_post env' (dispatch_request env' id (uf_value f))
    = HttpResponse 200 body ->
    exists ui2,
      main env' press_process
           (mk_world db1 (logged_in (Some (uf_name f))) ui http)
      = (Rerun,
         mk_world (update_status_inprogress id db1)
                  (mk_session true (Some (uf_name f)) None) ui2
                  (http ++ [dispatch_request env' id (uf_value f)])) /\
      selected_row (update_status_inprogress id db1) (uf_name f)
      = Some (id, uf_name f, py "inprogress").
Proof.
  intros Hlog Hread Hnew Hname Hdec Htext id db1.
  destruct (Utf8Facts.decode_encode _ _ Hdec) as [Hscalar Henc].
  assert (stored_text (Json.dumps_dict1 (py "csv_content") text) = Some text)
    as Hstored.
  { unfold stored_text. rewrite JsonFacts.loads_dumps_dict1; auto.
    repeat constructor; unfold scalar_value; lia. }
  pose proof (selected_row_inserted
                (uf_name f) (Json.dumps_dict1 (py "csv_content") text)
                (w_db w) Hnew) as Hrow.
  split; [|split; [exact Hrow|]].
  - rewrite (main_logged_in env (press_save f) w Hlog).
    rewrite (upload_section_saves env (press_save f) w f df text);
      auto. rewrite Hlog. eexists. reflexivity.
  - intros env' ui http body H200.
    destruct (main_press_process
                env' (mk_world db1 (logged_in (Some (uf_name f))) ui http)
                (uf_name f) _ eq_refl eq_refl Hname Hrow)
      as (shown & Hmain).
    cbv zeta in Hmain.
    rewrite (process_leads_section_dispatch
               env' press_process _ _ id
               (Json.dumps_dict1 (py "csv_content") text) text (uf_value f))
      in Hmain;
      try reflexivity; auto;
      [|apply (select_csv_data_inserted _ _ (w_db w))].
    cbv zeta in Hmain. rewrite H200 in Hmain. simpl in Hmain.
    eexists. split; [exact Hmain|].
    apply (selected_row_update id db1 (uf_name f) _ Hrow).
Qed.

Lemma saved_file_is_dispatched_as_uploaded_witness :
  (exists ui1,
     main (example_env (HttpResponse 200 [])) (press_save leads_csv)
          empty_world
     = (Rerun,
        mk_world (mk_database
                    [mk_csv_upload 1 (py "leads.csv") leads_json
                                   (py "notstarted")] [])
                 (mk_session true None None) ui1 [])) /\
  exists ui2,
    main (example_env (HttpResponse 200 [])) press_process
         (mk_world (mk_database
                      [mk_csv_upload 1 (py "leads.csv") leads_json
                                     (py "notstarted")] [])
                   (logged_in (Some (py "leads.csv"))) [] [])
    = (Rerun,
       mk_world (mk_database
                   [mk_csv_upload 1 (py "leads.csv") leads_json
                                  (py "inprogress")] [])
                (mk_session true (Some (py "leads.csv")) None) ui2
                [example_request]).
Proof.
  destruct (saved_file_is_dispatched_as_uploaded
              (example_env (HttpResponse 200 [])) empty_world leads_csv []
              (py "name,handle"))
    as (H1 & _ & H2); try reflexivity; try discriminate.
  - simpl; tauto.
  - split; [exact H1|].
    destruct (H2 (example_env (HttpResponse 200 [])) [] [] [] eq_refl)
      as (ui2 & H3 & _).
    exists ui2. exact H3.
Defined.

(** ** Messages that are never shown *)

Lemma shows_no_dead_message_bind {A B} (m : M A) (k : A -> M B) :
  shows_no_dead_message m ->
  (forall a, shows_no_dead_message (k a)) ->
  shows_no_dead_message (bind m k).
Proof.
  intros Hm Hk w o w' H. rewrite bind_unfold in H.
  destruct (m w) as [[a|e|] w1] eqn:E.
  - destruct (Hm _ _ _ E) as (s1 & H1 & D1).
    destruct (Hk a _ _ _ H) as (s2 & H2 & D2).
    exists (s1 ++ s2). split.
    + rewrite H2, H1. symmetry. apply app_assoc.
    + rewrite existsb_app, D1, D2. reflexivity.
  - inversion H; subst. eapply Hm; eauto.
  - inversion H; subst. eapply Hm; eauto.
Qed.

Lemma upload_section_alive (env : environment) (inp : widgets) :
  shows_no_dead_message (upload_section env inp).
Proof.
  intros w o w'. unfold upload_section, load_csv, save_csv. unfold_monad.
  simpl. intros H.
  repeat (break_match; simpl in *; inv_pair; try discriminate); show_alive.
Qed.

Lemma select_file_section_alive (inp : widgets) :
  shows_no_dead_message (select_file_section inp).
Proof.
  intros w o w' H.
  destruct (select_files (w_db w)) as [|r0 rows] eqn:Hfiles.
  - unfold select_file_section in H. unfold_monad.
    cbv beta iota zeta in H. rewrite Hfiles in H.
    cbv beta iota zeta in H. inv_pair. simpl. show_alive.
  - assert (select_files (w_db w) <> []) as Hne by (rewrite Hfiles; discriminate).
    pose proof (select_file_section_listed inp w Hne) as Heq.
    cbv zeta in Heq. rewrite Heq in H. clear Heq.
    destruct (validated_selection_listed
                (w_session w) (map fr_filename (select_files (w_db w))))
      as (x & Hv & Hx).
    { rewrite Hfiles; discriminate. }
    rewrite Hv in H.
    pose proof (filter_listed_name (select_files (w_db w)) x Hx) as Hf.
    destruct (opt_str_truthy (Some x)).
    + match type of H with
      | (if ?b then _ else _) = _ => destruct b
      end.
      * destruct (filter _ (select_files (w_db w))) as [|r t];
          [congruence|].
        inv_pair. simpl. show_alive.
      * inv_pair. simpl. show_alive.
    + inv_pair. simpl. show_alive.
Qed.

Lemma process_leads_section_alive (env : environment) (inp : widgets)
      (l : locals) :
  shows_no_dead_message (process_leads_section env inp l).
Proof.
  intros w o w'.
  unfold process_leads_section, send_for_processing, fetch_csv_data_text,
         encode_utf8, value_truthy.
  unfold_monad. intros H.
  repeat (break_match; simpl in *; inv_pair; try discriminate); show_alive.
Qed.

Lemma process_captions_alive (l : locals) :
  shows_no_dead_message (process_captions l).
Proof.
  intros w o w'. unfold process_captions. unfold_monad. intros H.
  repeat (break_match; simpl in *; inv_pair; try discriminate); show_alive.
Qed.

Lemma processed_leads_tab_alive (inp : widgets) :
  shows_no_dead_message (processed_leads_tab inp).
Proof.
  intros w o w'. unfold processed_leads_tab, dedupe_section, deduplicate.
  unfold_monad. intros H.
  repeat (break_match; simpl in *; inv_pair; try discriminate); show_alive.
Qed.

Lemma login_section_alive (env : environment) (inp : widgets) :
  shows_no_dead_message (login_section env inp).
Proof.
  intros w o w'. unfold login_section. unfold_monad. intros H.
  repeat (break_match; simpl in *; inv_pair; try discriminate); show_alive.
Qed.

(** X11.  Two messages of the script are dead.  No run, whatever the
    widgets, the tables and the endpoint, shows the error of line 237
    ("Failed to send ... : status code - text"), since the branch that
    holds it reads [response] where it is unbound; and no run shows the
    warning of line 186, since lines 149-151 keep the selection among the
    listed names.  A run only adds to what is shown. *)
Theorem run_never_shows_dead_messages
        (env : environment) (inp : widgets) (w : world) :
  exists shown,
    w_ui (run env inp w) = w_ui w ++ shown /\
    (forall fn code text, ~ In (st_error (FailedToSend fn code text)) shown) /\
    ~ In (st_warning DetailsUnavailable) shown.
Proof.
  assert (shows_no_dead_message (main env inp)) as Halive.
  { unfold main. apply shows_no_dead_message_bind.
    - intros w0 o w' H. unfold get_session in H. inv_pair. show_alive.
    - intros s. destruct (negb (ss_logged_in s)).
      + apply login_section_alive.
      + apply shows_no_dead_message_bind.
        * unfold main_dashboard.
          apply shows_no_dead_message_bind; [apply upload_section_alive|].
          intros _.
          apply shows_no_dead_message_bind; [apply select_file_section_alive|].
          intros l.
          apply shows_no_dead_message_bind;
            [apply process_leads_section_alive|].
          intros _. apply process_captions_alive.
        * intros _. apply processed_leads_tab_alive. }
  unfold run. destruct (main env inp w) as [o w'] eqn:E.
  destruct (Halive _ _ _ E) as (shown & Hui & Hdead).
  exists shown. split; [exact Hui|].
  assert (forall e, In e shown -> dead_message e = false) as Hall.
  { intros e He. destruct (dead_message e) eqn:D; auto.
    assert (existsb dead_message shown = true) as C; [|congruence].
    apply existsb_exists. eauto. }
  split.
  - intros fn code text Hin. specialize (Hall _ Hin). discriminate.
  - intros Hin. specialize (Hall _ Hin). discriminate.
Qed.

(** ** The login over many runs *)

Lemma run_logged_out (env : environment) (inp : widgets) (w : world) :
  ss_logged_in (w_session w) = false ->
  w_db (run env inp w) = w_db w /\
  w_http (run env inp w) = w_http w /\
  ss_logged_in (w_session (run env inp w)) = presents_credentials (env, inp).
Proof.
  intros Hlog. unfold run. rewrite (main_logged_out env inp w Hlog).
  unfold login_section, presents_credentials. unfold_monad.
  destruct (login_button inp); simpl; auto.
  destruct (str_eqb (username_input inp) (secrets_username env)
            && str_eqb (password_input inp) (secrets_password env));
    simpl; auto.
Qed.

(** X12.  Without the credentials nothing is reachable: from a session that
    is not logged in, any number of runs in which the login button is never
    pressed with the user name and the password of the secrets leaves the
    two tables as they were, sends nothing, and leaves the session logged
    out, whatever else is typed, uploaded or pressed. *)
Theorem no_access_without_credentials
        (steps : list (environment * widgets)) (w : world) :
  ss_logged_in (w_session w) = false ->
  Forall (fun step => presents_credentials step = false) steps ->
  w_db (runs steps w) = w_db w /\
  w_http (runs steps w) = w_http w /\
  ss_logged_in (w_session (runs steps w)) = false.
Proof.
  revert w. induction steps as [|[env inp] rest IH]; intros w Hlog Hall.
  - simpl. auto.
  - inversion Hall as [|x l Hstep Hrest]; subst.
    destruct (run_logged_out env inp w Hlog) as (Hdb & Hhttp & Hs).
    rewrite Hstep in Hs.
    destruct (IH (run env inp w) Hs Hrest) as (Hdb' & Hhttp' & Hs').
    cbn [runs]. rewrite Hdb', Hhttp', Hs'. auto.
Qed.

Lemma no_access_without_credentials_witness :
  w_db (runs intruder_steps logged_out_world) = example_db "notstarted" /\
  w_http (runs intruder_steps logged_out_world) = [] /\
  ss_logged_in (w_session (runs intruder_steps logged_out_world)) = false.
Proof.
  apply (no_access_without_credentials intruder_steps logged_out_world).
  - reflexivity.
  - repeat constructor.
Defined.

Lemma select_file_section_login (inp : widgets) (w : world)
      (o : outcome locals) (w' : world) :
  select_file_section inp w = (o, w') ->
  ss_logged_in (w_session w') = ss_logged_in (w_session w).
Proof.
  intros H.
  destruct (select_files (w_db w)) as [|r0 rows] eqn:Hfiles.
  - unfold select_file_section in H. unfold_monad.
    cbv beta iota zeta in H. rewrite Hfiles in H.
    cbv beta iota zeta in H. inv_pair. reflexivity.
  - assert (select_files (w_db w) <> []) as Hne by (rewrite Hfiles; discriminate).
    pose proof (select_file_section_listed inp w Hne) as Heq.
    cbv zeta in Heq. rewrite Heq in H. clear Heq.
    repeat match type of H with
           | (if ?b then _ else _) = _ => destruct b
           | match ?l with [] => _ | _ :: _ => _ end = _ => destruct l
           end; inv_pair; reflexivity.
Qed.

Lemma process_leads_section_session (env : environment) (inp : widgets)
      (l : locals) (w : world) (o : outcome unit) (w' : world) :
  process_leads_section env inp l w = (o, w') ->
  w_session w' = w_session w.
Proof.
  unfold process_leads_section, send_for_processing, fetch_csv_data_text,
         encode_utf8, value_truthy.
  unfold_monad. intros H.
  repeat (break_match; simpl in *; inv_pair; try discriminate); reflexivity.
Qed.

Lemma processed_leads_tab_session (inp : widgets) (w : world)
      (o : outcome unit) (w' : world) :
  processed_leads_tab inp w = (o, w') ->
  w_session w' = w_session w.
Proof.
  unfold processed_leads_tab, dedupe_section, deduplicate.
  unfold_monad. intros H.
  repeat (break_match; simpl in *; inv_pair; try discriminate); reflexivity.
Qed.

Lemma run_keeps_login (env : environment) (inp : widgets) (w : world) :
  ss_logged_in (w_session w) = true ->
  ss_logged_in (w_session (run env inp w)) = true.
Proof.
  intros Hlog. unfold run. rewrite (main_logged_in env inp w Hlog).
  destruct (upload_section env inp w) as [o1 w1] eqn:E1.
  apply upload_section_session in E1 as [L1 _].
  destruct o1 as [[]|e|]; cbn [snd]; try congruence.
  destruct (select_file_section inp w1) as [o2 w2] eqn:E2.
  apply select_file_section_login in E2.
  destruct o2 as [l|e|]; cbn [snd]; try congruence.
  destruct (process_leads_section env inp l w2) as [o3 w3] eqn:E3.
  apply process_leads_section_session in E3.
  destruct o3 as [[]|e|]; cbn [snd]; try congruence.
  destruct (process_captions l w3) as [o4 w4] eqn:E4.
  apply process_captions_effect in E4 as (_ & _ & _ & S4).
  destruct o4 as [[]|e|]; cbn [snd]; try congruence.
  destruct (processed_leads_tab inp w4) as [o5 w5] eqn:E5.
  apply processed_leads_tab_session in E5. cbn [snd]. congruence.
Qed.

(** X13.  The script has no logout: once the session is logged in it stays
    logged in over any number of runs, whatever is uploaded, chosen or
    pressed, whatever the endpoint answers, and also over the runs that end
    with the exception of line 202 or with a rerun. *)
Theorem login_is_never_undone
        (steps : list (environment * widgets)) (w : world) :
  ss_logged_in (w_session w) = true ->
  ss_logged_in (w_session (runs steps w)) = true.
Proof.
  revert w. induction steps as [|[env inp] rest IH]; intros w Hlog.
  - exact Hlog.
  - cbn [runs]. apply IH. apply run_keeps_login. exact Hlog.
Qed.

Lemma login_is_never_undone_witness :
  ss_logged_in
    (w_session (runs (example_steps ++ intruder_steps)
                     (example_world "notstarted")))
  = true.
Proof.
  apply (login_is_never_undone (example_steps ++ intruder_steps)
                               (example_world "notstarted")).
  reflexivity.
Defined.

(** ** The second tab *)

(** X14.  Without a confirmed deduplication the second tab writes nothing
    and ends normally; the metric of line 261 is the number of rows of the
    table shown below it, and the caption of line 300 stands for the table
    exactly when that number is zero.  The warning of line 270 comes
    between the two when the first button reads as pressed. *)
Theorem processed_tab_counts_what_it_lists (inp : widgets) (w : world) :
  dedupe_button inp && dedupe_confirm_button inp = false ->
  let rows := select_processed (w_db w) in
  processed_leads_tab inp w
  = (Done tt,
     mk_world (w_db w) (w_session w)
              (w_ui w
               ++ [st_metric (Z.of_nat (List.length rows))]
               ++ (if dedupe_button inp
                   then [st_warning ConfirmDeduplicate] else [])
               ++ [match rows with
                   | [] => st_caption NoProcessedLeads
                   | _ :: _ => st_dataframe_leads rows
                   end])
              (w_http w)).
Proof.
  intros Hb rows.
  assert (count_processed (w_db w) = Z.of_nat (List.length rows)) as Hcount.
  { unfold count_processed, rows, select_processed. f_equal.
    symmetry. apply Permutation_length, order_by_perm. }
  unfold processed_leads_tab, dedupe_section. unfold_monad.
  cbn [w_db w_session w_ui w_http]. rewrite Hcount.
  fold rows.
  destruct (dedupe_button inp); cbn [andb] in Hb.
  - rewrite Hb. cbn [w_db w_session w_ui w_http]. fold rows.
    destruct rows as [|r t]; cbn [w_db w_session w_ui w_http];
      rewrite <- !app_assoc; reflexivity.
  - cbn [w_db w_session w_ui w_http]. fold rows.
    destruct rows as [|r t]; cbn [w_db w_session w_ui w_http];
      rewrite <- !app_assoc; reflexivity.
Qed.

Lemma processed_tab_counts_what_it_lists_witness :
  processed_leads_tab (press_dedupe false) (example_world "notstarted")
  = (Done tt,
     mk_world (example_db "notstarted") (logged_in (Some (py "leads.csv")))
              [st_metric 4; st_warning ConfirmDeduplicate;
               st_dataframe_leads
                 [lead 4 "A"; lead 3 "B"; lead 2 "A"; lead 1 "A"]]
              []).
Proof.
  exact (processed_tab_counts_what_it_lists
           (press_dedupe false) (example_world "notstarted") eq_refl).
Defined.

(** ** The listing and the order of the rows *)

(** Two sorted lists with the same elements are the same list, when the
    order tells the elements apart. *)
Lemma sorted_perm_unique {A} (R : A -> A -> Prop) (l1 l2 : list A) :
  (forall a b, In a l1 -> In b l1 -> R a b -> R b a -> a = b) ->
  StronglySorted R l1 -> StronglySorted R l2 -> Permutation l1 l2 ->
  l1 = l2.
Proof.
  revert l2. induction l1 as [|a t1 IH]; intros l2 Hanti H1 H2 Hp.
  - apply Permutation_nil in Hp. congruence.
  - destruct l2 as [|b t2].
    { apply Permutation_sym, Permutation_nil in Hp. discriminate. }
    inversion H1 as [|? ? Hs1 Ha]; subst.
    inversion H2 as [|? ? Hs2 Hb]; subst.
    assert (a = b) as ->.
    { assert (In a (b :: t2)) as Ia
          by (eapply Permutation_in; [exact Hp | left; reflexivity]).
      assert (In b (a :: t1)) as Ib
          by (eapply Permutation_in;
              [apply Permutation_sym; exact Hp | left; reflexivity]).
      destruct Ia as [->|Ia]; [reflexivity|].
      destruct Ib as [->|Ib]; [reflexivity|].
      apply Hanti; [left; reflexivity | right; exact Ib | |].
      - rewrite Forall_forall in Ha. apply Ha; exact Ib.
      - rewrite Forall_forall in Hb. apply Hb; exact Ia. }
    f_equal. apply IH; auto.
    + intros x y Hx Hy. apply Hanti; right; assumption.
    + eapply Permutation_cons_inv; exact Hp.
Qed.

(** X15.  With distinct file names the listing of line 140 does not depend
    on the order in which the table holds its rows: [ORDER BY filename]
    then fixes the order of the result, and with it the entries of the
    select box and the row found for a selected name. *)
Theorem listing_ignores_row_order (db db' : database) :
  Permutation (csv_uploads db) (csv_uploads db') ->
  NoDup (filenames db) ->
  select_files db = select_files db' /\
  forall fn, selected_row db fn = selected_row db' fn.
Proof.
  intros Hp Hnd.
  assert (select_files db = select_files db') as E.
  { apply (sorted_perm_unique
             (fun a b => str_leb (fr_filename a) (fr_filename b) = true)).
    - intros a b Ia Ib Hab Hba.
      apply (NoDup_map_eq fr_filename (select_files db)); auto.
      + eapply Permutation_NoDup; [|exact Hnd].
        unfold filenames, select_files. apply Permutation_sym.
        eapply Permutation_trans;
          [apply Permutation_map, order_by_perm|].
        rewrite map_map. apply Permutation_refl.
      + apply str_leb_antisym; assumption.
    - apply order_by_sorted;
        [intros a b; apply str_leb_total | intros a b c; apply str_leb_trans].
    - apply order_by_sorted;
        [intros a b; apply str_leb_total | intros a b c; apply str_leb_trans].
    - unfold select_files.
      eapply Permutation_trans; [apply order_by_perm|].
      eapply Permutation_trans;
        [|apply Permutation_sym, order_by_perm].
      apply Permutation_map. exact Hp. }
  split; [exact E|].
  intros fn. unfold selected_row. rewrite E. reflexivity.
Qed.

Lemma listing_ignores_row_order_witness :
  select_files (w_db two_batches_world) = select_files swapped_batches /\
  forall fn, selected_row (w_db two_batches_world) fn
             = selected_row swapped_batches fn.
Proof.
  apply (listing_ignores_row_order (w_db two_batches_world) swapped_batches).
  - apply perm_swap.
  - repeat constructor; simpl; intuition discriminate.
Defined.

(** ** The colour of a status *)

Lemma get_status_color_lifecycle (status other : pystr) :
  status_rank status <> None ->
  get_status_color other = get_status_color status ->
  other = status.
Proof.
  intros Hrank Hc.
  assert (status = py "notstarted" \/ status = py "inprogress" \/
          status = py "complete") as Hs.
  { unfold status_rank in Hrank.
    destruct (str_eqb status (py "notstarted")) eqn:E1;
      [left; apply str_eqb_eq; exact E1|].
    destruct (str_eqb status (py "inprogress")) eqn:E2;
      [right; left; apply str_eqb_eq; exact E2|].
    destruct (str_eqb status (py "complete")) eqn:E3;
      [right; right; apply str_eqb_eq; exact E3|].
    congruence. }
  unfold get_status_color in Hc at 1.
  destruct (str_eqb other (py "inprogress")) eqn:O1;
    [apply str_eqb_eq in O1|];
    [|destruct (str_eqb other (py "complete")) eqn:O2;
      [apply str_eqb_eq in O2|];
      [|destruct (str_eqb other (py "notstarted")) eqn:O3;
        [apply str_eqb_eq in O3|]]].
  all: destruct Hs as [Hs|[Hs|Hs]]; rewrite Hs in Hc |- *;
    first [ assumption | vm_compute in Hc; discriminate Hc ].
Qed.

Lemma get_status_color_cases (status : pystr) :
  (get_status_color status = py "gray" <-> status = py "notstarted") /\
  (get_status_color status = py "orange" <-> status_rank status = None) /\
  (forall other, status_rank status <> None ->
                 get_status_color other = get_status_color status ->
                 other = status).
Proof.
  split; [|split; [|intros other; apply get_status_color_lifecycle]].
  - unfold get_status_color.
    destruct (str_eqb status (py "inprogress")) eqn:E1;
      [apply str_eqb_eq in E1; subst; split; intros H;
       vm_compute in H; discriminate H|].
    destruct (str_eqb status (py "complete")) eqn:E2;
      [apply str_eqb_eq in E2; subst; split; intros H;
       vm_compute in H; discriminate H|].
    destruct (str_eqb status (py "notstarted")) eqn:E3.
    + apply str_eqb_eq in E3. tauto.
    + apply str_eqb_neq in E3. split; intros H; [|contradiction].
      vm_compute in H. discriminate H.
  - unfold get_status_color, status_rank.
    destruct (str_eqb status (py "inprogress")) eqn:E1;
      [apply str_eqb_eq in E1; subst; split; intros H;
       vm_compute in H; discriminate H|].
    destruct (str_eqb status (py "complete")) eqn:E2;
      [apply str_eqb_eq in E2; subst; split; intros H;
       vm_compute in H; discriminate H|].
    destruct (str_eqb status (py "notstarted")) eqn:E3;
      [split; intros H; [vm_compute in H|]; discriminate H|].
    split; reflexivity.
Qed.

(** X16.  The status line and the button agree.  When the selection part
    picks a batch, the line it shows last (line 183) carries the id and the
    status of the row that the listing holds for the selected name, in the
    colour of that status; "Process Leads" is drawn enabled (line 184)
    exactly when that colour is gray; the colour is orange exactly when the
    status is outside the lifecycle; and within the lifecycle two statuses
    shown in one colour are the same status. *)
Theorem status_colour_tells_the_status
        (inp : widgets) (w w1 : world) (l : locals) (id : Z) :
  select_file_section inp w = (Done l, w1) ->
  selected_file_id l = Some (Some id) ->
  exists fn st names index,
    selected_filename l = Some fn /\
    selected_file_status l = Some st /\
    selected_row (w_db w) fn = Some (id, fn, st) /\
    w_ui w1
    = w_ui w ++ [st_selectbox names index;
                 st_markdown (StatusLine (get_status_color st) st id)] /\
    (process_button_disabled l = false <-> get_status_color st = py "gray") /\
    (get_status_color st = py "orange" <-> status_rank st = None) /\
    (forall other, status_rank st <> None ->
                   get_status_color other = get_status_color st ->
                   other = st).
Proof.
  intros H Hid.
  destruct (select_files (w_db w)) as [|r0 rows] eqn:Hfiles.
  { unfold select_file_section in H. unfold_monad.
    cbv beta iota zeta in H. rewrite Hfiles in H.
    cbv beta iota zeta in H. inv_pair. discriminate Hid. }
  assert (select_files (w_db w) <> []) as Hne by (rewrite Hfiles; discriminate).
  pose proof (select_file_section_listed inp w Hne) as Heq.
  cbv zeta in Heq. rewrite Heq in H. clear Heq.
  destruct (validated_selection_listed
              (w_session w) (map fr_filename (select_files (w_db w))))
    as (x & Hv & Hx).
  { rewrite Hfiles; discriminate. }
  rewrite Hv in H.
  pose proof (filter_listed_name (select_files (w_db w)) x Hx) as Hf.
  destruct (opt_str_truthy (Some x)) eqn:Htr.
  2:{ inv_pair. discriminate Hid. }
  match type of H with
  | (if ?b then _ else _) = _ => destruct b
  end; [|discriminate].
  destruct (filter _ (select_files (w_db w))) as [|r t] eqn:Hfilter;
    [congruence|].
  apply filter_head_find in Hfilter as [Hfind Hr].
  cbn [opt_str_eqb] in Hr. apply str_eqb_eq in Hr. subst x.
  assert (selected_row (w_db w) (fr_filename r)
          = Some (fr_id r, fr_filename r, fr_status r)) as Hrow.
  { unfold selected_row. cbn [opt_str_eqb] in Hfind. rewrite Hfind.
    destruct r as [[i fn] st]. reflexivity. }
  inv_pair. cbn [selected_file_id] in Hid. injection Hid as <-.
  destruct (get_status_color_cases (fr_status r)) as (Hgray & Horange & Hinj).
  eexists (fr_filename r), (fr_status r), _, _.
  cbn [selected_filename selected_file_status process_button_disabled w_ui].
  split; [reflexivity|]. split; [reflexivity|]. split; [exact Hrow|].
  split; [reflexivity|]. split; [|split; [exact Horange | exact Hinj]].
  rewrite Hgray, negb_false_iff. apply str_eqb_eq.
Qed.

Lemma status_colour_tells_the_status_witness :
  exists fn st names index,
    selected_filename listed_inprogress = Some fn /\
    selected_file_status listed_inprogress = Some st /\
    selected_row (example_db "inprogress") fn = Some (1, fn, st) /\
    w_ui (snd (select_file_section refresh (example_world "inprogress")))
    = [st_selectbox names index;
       st_markdown (StatusLine (get_status_color st) st 1)] /\
    (process_button_disabled listed_inprogress = false <->
     get_status_color st = py "gray").
Proof.
  destruct (status_colour_tells_the_status
              refresh (example_world "inprogress")
              (snd (select_file_section refresh (example_world "inprogress")))
              listed_inprogress 1 eq_refl eq_refl)
    as (fn & st & names & index & H1 & H2 & H3 & H4 & H5 & _).
  exists fn, st, names, index. auto.
Defined.

(** ** The stored cell *)

Lemma hex_digit_printable (d : Z) :
  0 <= d < 16 -> printable_ascii (Json.hex_digit d).
Proof.
  intros H. unfold Json.hex_digit, printable_ascii.
  destruct (Z.ltb_spec d 10); lia.
Qed.

Lemma u_escape_printable (n : Z) :
  0 <= n < 65536 -> Forall printable_ascii (Json.u_escape n).
Proof.
  intros H. unfold Json.u_escape.
  repeat constructor; try (unfold printable_ascii; lia);
    apply hex_digit_printable;
    first [ apply Z.mod_pos_bound; lia
          | split; [apply Z.div_pos; lia | apply Z.div_lt_upper_bound; lia] ].
Qed.

Lemma escape_char_printable (c : Z) :
  0 <= c < 1114112 -> Forall printable_ascii (Json.escape_char c).
Proof.
  intros H. unfold Json.escape_char.
  repeat match goal with
         | |- context [?a =? ?b] =>
           destruct (Z.eqb_spec a b);
             [repeat constructor; unfold printable_ascii; lia|]
         end.
  destruct (Z.leb_spec 32 c), (Z.leb_spec c 126); cbn [andb];
    try (repeat constructor; unfold printable_ascii; lia).
  all: destruct (Z.ltb_spec c 65536);
    try (apply u_escape_printable; lia).
  all: destruct (JsonFacts.surrogate_pair c) as (Hhi & Hlo & _); [lia|];
    cbv zeta in Hhi, Hlo;
    apply Forall_app; split; apply u_escape_printable; lia.
Qed.

Lemma encode_basestring_ascii_printable (s : pystr) :
  Forall (fun c => 0 <= c < 1114112) s ->
  Forall printable_ascii (Json.encode_basestring_ascii s).
Proof.
  intros Hs. unfold Json.encode_basestring_ascii.
  constructor; [unfold printable_ascii; lia|].
  apply Forall_app; split;
    [|repeat constructor; unfold printable_ascii; lia].
  induction Hs as [|c s Hc _ IH]; cbn [flat_map]; [constructor|].
  apply Forall_app; split; [apply escape_char_printable; exact Hc | exact IH].
Qed.

(** X17.  The cell stored for an upload is printable ASCII, whatever the
    file holds: every character of the text that line 113 decodes is
    written by [json.dumps] (line 114) as itself, as a two-character escape
    or as one or two [\uXXXX] escapes. *)
Theorem stored_cell_is_printable_ascii (bytes : pybytes) (text : pystr) :
  Utf8.decode bytes = Some text ->
  Forall printable_ascii (Json.dumps_dict1 (py "csv_content") text).
Proof.
  intros Hd. apply Utf8Facts.decode_encode in Hd as [Hs _].
  unfold Json.dumps_dict1.
  constructor; [unfold printable_ascii; lia|].
  apply Forall_app; split.
  { apply encode_basestring_ascii_printable.
    repeat constructor; lia. }
  apply Forall_app; split.
  { change (py ": ") with [58; 32].
    repeat constructor; unfold printable_ascii; lia. }
  apply Forall_app; split;
    [|repeat constructor; unfold printable_ascii; lia].
  apply encode_basestring_ascii_printable.
  eapply Forall_impl; [|exact Hs].
  intros c [Hc|Hc]; lia.
Qed.

Lemma stored_cell_is_printable_ascii_witness :
  Forall printable_ascii
         (Json.dumps_dict1 (py "csv_content") [110; 97; 109; 233; 10; 128169]).
Proof.
  apply (stored_cell_is_printable_ascii
           [110; 97; 109; 195; 169; 10; 240; 159; 146; 169]).
  reflexivity.
Defined.

(** ** The captions under the button *)

(** X18.  The captions of lines 244-249 explain the button of line 200.
    After the selection part, a caption is shown exactly when "Process
    Leads" is drawn disabled, and the button is enabled exactly when the
    listing picks a [notstarted] batch for the selected name.  With no
    batch the caption is the one of line 249; with batches but no selected
    name (a batch with the empty file name) the one of line 247; with a
    selected batch that is not [notstarted] the one of line 245, with the
    name and the status of that batch. *)
Theorem captions_explain_the_button
        (inp : widgets) (w w1 : world) (l : locals) :
  select_file_section inp w = (Done l, w1) ->
  exists shown,
    process_captions l w1
    = (Done tt,
       mk_world (w_db w1) (w_session w1) (w_ui w1 ++ shown) (w_http w1)) /\
    (shown = [] <-> process_button_disabled l = false) /\
    (process_button_disabled l = false <->
     exists id fn, selected_filename l = Some fn /\
                   selected_row (w_db w) fn = Some (id, fn, py "notstarted")) /\
    (select_files (w_db w) = [] -> shown = [st_caption UploadAndSaveFirst]) /\
    (select_files (w_db w) <> [] -> selected_filename l = None ->
     shown = [st_caption SelectAFile]) /\
    (forall fn, selected_filename l = Some fn ->
                process_button_disabled l = true ->
                exists id st,
                  selected_row (w_db w) fn = Some (id, fn, st) /\
                  st <> py "notstarted" /\
                  shown = [st_caption (OnlyNotstartedProcessed (Some fn)
                                                               (Some st))]).
Proof.
  intros H.
  destruct (select_files (w_db w)) as [|r0 rows] eqn:Hfiles.
  { unfold select_file_section in H. unfold_monad.
    cbv beta iota zeta in H. rewrite Hfiles in H.
    cbv beta iota zeta in H. inv_pair.
    exists [st_caption UploadAndSaveFirst].
    split; [reflexivity|]. cbn [process_button_disabled selected_filename].
    repeat split; try discriminate; try congruence.
    intros (id & fn & C & _). discriminate. }
  assert (select_files (w_db w) <> []) as Hne by (rewrite Hfiles; discriminate).
  pose proof (select_file_section_listed inp w Hne) as Heq.
  cbv zeta in Heq. rewrite Heq in H. clear Heq.
  destruct (validated_selection_listed
              (w_session w) (map fr_filename (select_files (w_db w))))
    as (x & Hv & Hx).
  { rewrite Hfiles; discriminate. }
  rewrite Hv in H.
  pose proof (filter_listed_name (select_files (w_db w)) x Hx) as Hf.
  rewrite <- Hfiles.
  destruct (opt_str_truthy (Some x)) eqn:Htr.
  - match type of H with
    | (if ?b then _ else _) = _ => destruct b
    end; [|discriminate].
    destruct (filter _ (select_files (w_db w))) as [|r t] eqn:Hfilter;
      [congruence|].
    apply filter_head_find in Hfilter as [Hfind Hr].
    cbn [opt_str_eqb] in Hr. apply str_eqb_eq in Hr. subst x.
    assert (selected_row (w_db w) (fr_filename r)
            = Some (fr_id r, fr_filename r, fr_status r)) as Hrow.
    { unfold selected_row. cbn [opt_str_eqb] in Hfind. rewrite Hfind.
      destruct r as [[id fn] st]. reflexivity. }
    inv_pair.
    unfold process_captions. unfold_monad.
    cbn [process_button_disabled selected_filename selected_file_status
         files_df frame_empty].
    rewrite Htr, Hfiles. cbn [frame_empty].
    destruct (str_eqb (fr_status r) (py "notstarted")) eqn:Hst;
      cbn [negb andb].
    + apply str_eqb_eq in Hst.
      exists []. rewrite app_nil_r. split; [reflexivity|].
      split; [tauto|]. split.
      { split; [|reflexivity]. intros _. exists (fr_id r), (fr_filename r).
        rewrite Hrow, Hst. auto. }
      split; [congruence|]. split; [discriminate|]. discriminate.
    + apply str_eqb_neq in Hst.
      eexists. split; [reflexivity|].
      split; [split; discriminate|]. split.
      { split; [discriminate|]. intros (id & fn & Efn & Erow).
        inversion Efn; subst fn. rewrite Hrow in Erow.
        inversion Erow. congruence. }
      split; [congruence|]. split; [discriminate|].
      intros fn Efn _. inversion Efn; subst fn.
      exists (fr_id r), (fr_status r). auto.
  - inv_pair.
    unfold process_captions. unfold_monad.
    cbn [process_button_disabled selected_filename selected_file_status
         files_df frame_empty opt_str_truthy negb andb].
    rewrite Hfiles. cbn [frame_empty negb andb].
    exists [st_caption SelectAFile]. split; [reflexivity|].
    split; [split; discriminate|]. split.
    { split; [discriminate|]. intros (id & fn & C & _). discriminate. }
    split; [congruence|]. split; [reflexivity|]. discriminate.
Qed.

Lemma captions_explain_the_button_witness :
  exists shown,
    shown = [st_caption (OnlyNotstartedProcessed (Some (py "leads.csv"))
                                                 (Some (py "inprogress")))] /\
    process_captions
      listed_inprogress
      (snd (select_file_section refresh (example_world "inprogress")))
    = (Done tt,
       mk_world (example_db "inprogress") (logged_in (Some (py "leads.csv")))
                ([st_selectbox [py "leads.csv"] 0;
                  st_markdown (StatusLine (py "blue") (py "inprogress") 1)]
                 ++ shown)
                []).
Proof.
  destruct (captions_explain_the_button
              refresh (example_world "inprogress")
              (snd (select_file_section refresh (example_world "inprogress")))
              listed_inprogress eq_refl)
    as (shown & Hrun & _ & _ & _ & _ & Hcaption).
  destruct (Hcaption (py "leads.csv") eq_refl eq_refl)
    as (id & st & Hrow & _ & Hshown).
  exists shown. split.
  - vm_compute in Hrow. injection Hrow as Hid Hst.
    rewrite <- Hst in Hshown. exact Hshown.
  - exact Hrun.
Defined.
